(** * Meal-planning agents: sanitising, validation and fallback

    A shallow embedding of the Python agents under [src/agent]:
    [balanced_diet_agent.py], [waste_reduction_agent.py], [meal_planner.py],
    [recipe_generator.py], [feedback_compactor.py] and
    [shopping_normalizer.py].

    The agents are dynamically typed programs over JSON documents.  They are
    embedded as functions over a [json] value type; every Python operation
    that can raise is embedded as a function into [result], raising where
    CPython raises.  The generation backend, [json.loads], [json.dumps] and
    [str] on values are library code and are taken as an interface
    ([Runtime], [backend]). *)

From Stdlib Require Import String Ascii List ZArith QArith Bool Lia.
From Stdlib Require Import DecimalString Permutation.
Import ListNotations.
Set Warnings "-register-all".
Local Close Scope Q_scope.
Local Open Scope nat_scope.
Local Open Scope list_scope.
Local Open Scope string_scope.

(* ================================================================== *)
(** * The fragment of Python's data model the agents use *)
(* ================================================================== *)

Module Py.

(** ** Exceptions and results *)

(** The exception classes that occur.  [JSONDecodeError] is the only one the
    agents catch by name; [RuntimeError] stands for any other subclass of
    [Exception] that library code raises.  The payload is [str(e)]; the
    wording of the interpreter's own messages follows CPython 3.11. *)
Inductive exn : Type :=
| JSONDecodeError (msg : string)
| ValueError (msg : string)
| TypeError (msg : string)
| AttributeError (msg : string)
| KeyError (msg : string)
| UnboundLocalError (msg : string)
| RuntimeError (msg : string).

(** [str(e)] *)
Definition str_exn (e : exn) : string :=
  match e with
  | JSONDecodeError m | ValueError m | TypeError m | AttributeError m
  | KeyError m | UnboundLocalError m | RuntimeError m => m
  end.

(** [isinstance(e, json.JSONDecodeError)] *)
Definition is_JSONDecodeError (e : exn) : bool :=
  match e with JSONDecodeError _ => true | _ => false end.

Inductive result (A : Type) : Type :=
| Ok (a : A)
| Raise (e : exn).
Arguments Ok {A} a.
Arguments Raise {A} e.

Definition bind {A B : Type} (c : result A) (k : A -> result B) : result B :=
  match c with
  | Ok a => k a
  | Raise e => Raise e
  end.

Notation "x <- c ;; k" := (bind c (fun x => k))
  (at level 61, c at next level, right associativity).

(** A [for] loop whose body may raise and that builds up a value. *)
Fixpoint for_each {A S : Type} (xs : list A) (body : S -> A -> result S)
    (s : S) : result S :=
  match xs with
  | [] => Ok s
  | x :: xs' => s' <- body s x ;; for_each xs' body s'
  end.

(** ** Strings

    A text is a sequence of code points below 256, one [ascii] each. *)

Definition LF : ascii := "010"%char.
Definition NL : string := String LF EmptyString.

(** [str.isspace] on one code point. *)
Definition is_space (c : ascii) : bool :=
  let n := nat_of_ascii c in
  ((9 <=? n)%nat && (n <=? 13)%nat) || ((28 <=? n)%nat && (n <=? 32)%nat)
  || (n =? 133)%nat || (n =? 160)%nat.

Fixpoint lstrip (s : string) : string :=
  match s with
  | EmptyString => EmptyString
  | String c s' => if is_space c then lstrip s' else s
  end.

Fixpoint rstrip (s : string) : string :=
  match s with
  | EmptyString => EmptyString
  | String c s' =>
      match rstrip s' with
      | EmptyString => if is_space c then EmptyString else String c EmptyString
      | r => String c r
      end
  end.

(** [s.strip()] *)
Definition strip (s : string) : string := rstrip (lstrip s).

(** [s.startswith(p)] *)
Definition startswith (s p : string) : bool := String.prefix p s.

(** [s.split('\n')]: never empty. *)
Fixpoint split_lines (s : string) : list string :=
  match s with
  | EmptyString => [EmptyString]
  | String c s' =>
      if Ascii.eqb c LF then EmptyString :: split_lines s'
      else match split_lines s' with
           | [] => [String c EmptyString]
           | l :: ls => String c l :: ls
           end
  end.

(** ['\n'.join(lines)] *)
Definition join_lines (lines : list string) : string :=
  String.concat NL lines.

(** [s[n:]] *)
Fixpoint drop (n : nat) (s : string) : string :=
  match n, s with
  | O, _ => s
  | S _, EmptyString => EmptyString
  | S n', String _ s' => drop n' s'
  end.

(** [needle in hay] on two strings. *)
Fixpoint is_substring (needle hay : string) : bool :=
  String.prefix needle hay ||
  match hay with
  | EmptyString => false
  | String _ hay' => is_substring needle hay'
  end.

(** [s.lower()] on the ASCII letters. *)
Definition lower_char (c : ascii) : ascii :=
  let n := nat_of_ascii c in
  if (65 <=? n)%nat && (n <=? 90)%nat then ascii_of_nat (n + 32) else c.

Fixpoint lower (s : string) : string :=
  match s with
  | EmptyString => EmptyString
  | String c s' => String (lower_char c) (lower s')
  end.

(** ** JSON values

    What [json.loads] yields: [None], [bool], [int], [float] (the finite
    ones, as rationals), [str], [list] and [dict] with string keys, in
    insertion order and without repeated keys. *)
Inductive json : Type :=
| JNull
| JBool (b : bool)
| JInt (n : Z)
| JFloat (q : Q)
| JStr (s : string)
| JArr (xs : list json)
| JObj (kvs : list (string * json)).

(** [type(v).__name__] *)
Definition type_name (v : json) : string :=
  match v with
  | JNull => "NoneType"
  | JBool _ => "bool"
  | JInt _ => "int"
  | JFloat _ => "float"
  | JStr _ => "str"
  | JArr _ => "list"
  | JObj _ => "dict"
  end.

(** [bool(v)] *)
Definition truthy (v : json) : bool :=
  match v with
  | JNull => false
  | JBool b => b
  | JInt n => negb (n =? 0)%Z
  | JFloat q => negb (Qeq_bool q 0)
  | JStr s => negb (String.eqb s "")
  | JArr xs => match xs with [] => false | _ => true end
  | JObj kvs => match kvs with [] => false | _ => true end
  end.

(** The numeric value of a number or a [bool] ([True == 1]). *)
Definition num_of (v : json) : option Q :=
  match v with
  | JBool b => Some (if b then 1 else 0)%Q
  | JInt n => Some (inject_Z n)
  | JFloat q => Some q
  | _ => None
  end.

(** Dictionary lookup by key. *)
Fixpoint assoc (k : string) (kvs : list (string * json)) : option json :=
  match kvs with
  | [] => None
  | (k', v) :: kvs' => if String.eqb k k' then Some v else assoc k kvs'
  end.

(** [a == b] *)
Fixpoint py_eq (a b : json) {struct a} : bool :=
  match a, b with
  | JNull, JNull => true
  | JStr s, JStr t => String.eqb s t
  | JArr xs, JArr ys =>
      (fix go (xs ys : list json) {struct xs} : bool :=
         match xs, ys with
         | [], [] => true
         | x :: xs', y :: ys' => py_eq x y && go xs' ys'
         | _, _ => false
         end) xs ys
  | JObj xs, JObj ys =>
      (length xs =? length ys)%nat &&
      (fix all (xs : list (string * json)) : bool :=
         match xs with
         | [] => true
         | (k, v) :: xs' =>
             match assoc k ys with
             | Some w => py_eq v w
             | None => false
             end && all xs'
         end) xs
  | _, _ =>
      match num_of a, num_of b with
      | Some x, Some y => Qeq_bool x y
      | _, _ => false
      end
  end.

(** [a > b] *)
Fixpoint py_gt (a b : json) {struct a} : result bool :=
  match a, b with
  | JStr s, JStr t => Ok (String.ltb t s)
  | JArr xs, JArr ys =>
      (fix go (xs ys : list json) {struct xs} : result bool :=
         match xs, ys with
         | [], _ => Ok false
         | _ :: _, [] => Ok true
         | x :: xs', y :: ys' =>
             if py_eq x y then go xs' ys' else py_gt x y
         end) xs ys
  | _, _ =>
      match num_of a, num_of b with
      | Some x, Some y => Ok (negb (Qle_bool x y))
      | _, _ =>
          Raise (TypeError ("'>' not supported between instances of '"
                            ++ type_name a ++ "' and '" ++ type_name b ++ "'"))
      end
  end.

(** Lists and dictionaries have no hash. *)
Definition hashable (v : json) : bool :=
  match v with
  | JArr _ | JObj _ => false
  | _ => true
  end.

Definition unhashable (v : json) : exn :=
  TypeError ("unhashable type: '" ++ type_name v ++ "'").

(** ** Sets of hashable values, in insertion order *)

Definition set_mem (x : json) (s : list json) : bool := existsb (py_eq x) s.

(** [s.add(x)] *)
Definition set_add (s : list json) (x : json) : result (list json) :=
  if hashable x then Ok (if set_mem x s then s else (s ++ [x])%list)
  else Raise (unhashable x).

(** [x in s] for a set [s] *)
Definition py_in_set (x : json) (s : list json) : result bool :=
  if hashable x then Ok (set_mem x s) else Raise (unhashable x).

(** ** Operations on values *)

(** [iter(v)]: the elements of a list, the characters of a string, the keys
    of a dictionary. *)
Definition py_iter (v : json) : result (list json) :=
  match v with
  | JArr xs => Ok xs
  | JStr s =>
      Ok (map (fun c => JStr (String c EmptyString)) (list_ascii_of_string s))
  | JObj kvs => Ok (map (fun kv => JStr (fst kv)) kvs)
  | _ => Raise (TypeError ("'" ++ type_name v ++ "' object is not iterable"))
  end.

(** [s.update(v)] *)
Definition set_update (s : list json) (v : json) : result (list json) :=
  xs <- py_iter v ;; for_each xs set_add s.

(** [d.get(k, default)] *)
Definition py_get (d : json) (k : string) (default : json) : result json :=
  match d with
  | JObj kvs =>
      Ok match assoc k kvs with Some v => v | None => default end
  | _ => Raise (AttributeError ("'" ++ type_name d
                                ++ "' object has no attribute 'get'"))
  end.

(** [d[k]] for a string [k] *)
Definition py_getitem (d : json) (k : string) : result json :=
  match d with
  | JObj kvs =>
      match assoc k kvs with
      | Some v => Ok v
      | None => Raise (KeyError ("'" ++ k ++ "'"))
      end
  | JArr _ => Raise (TypeError "list indices must be integers or slices, not str")
  | JStr _ => Raise (TypeError "string indices must be integers, not 'str'")
  | _ => Raise (TypeError ("'" ++ type_name d ++ "' object is not subscriptable"))
  end.

(** [k in d] for a string [k]: key of a dictionary, element of a list,
    substring of a string. *)
Definition py_contains (k : string) (d : json) : result bool :=
  match d with
  | JObj kvs => Ok match assoc k kvs with Some _ => true | None => false end
  | JArr xs => Ok (existsb (fun x => py_eq x (JStr k)) xs)
  | JStr s => Ok (is_substring k s)
  | _ => Raise (TypeError ("argument of type '" ++ type_name d
                           ++ "' is not iterable"))
  end.

(** Replace the value of [k] in place, or append the new key. *)
Fixpoint put (k : string) (v : json) (kvs : list (string * json))
    : list (string * json) :=
  match kvs with
  | [] => [(k, v)]
  | (k', v') :: kvs' =>
      if String.eqb k k' then (k, v) :: kvs' else (k', v') :: put k v kvs'
  end.

(** [d[k] = v] for a string [k] *)
Definition py_setitem (d : json) (k : string) (v : json) : result json :=
  match d with
  | JObj kvs => Ok (JObj (put k v kvs))
  | JArr _ => Raise (TypeError "list indices must be integers or slices, not str")
  | _ => Raise (TypeError ("'" ++ type_name d
                           ++ "' object does not support item assignment"))
  end.

(** [d.items()] *)
Definition py_items (d : json) : result (list (string * json)) :=
  match d with
  | JObj kvs => Ok kvs
  | _ => Raise (AttributeError ("'" ++ type_name d
                                ++ "' object has no attribute 'items'"))
  end.

(** [v[-n:]] *)
Definition py_last (n : nat) (v : json) : result json :=
  match v with
  | JArr xs => Ok (JArr (skipn (length xs - n) xs))
  | JStr s => Ok (JStr (drop (String.length s - n) s))
  | JObj _ => Raise (TypeError "unhashable type: 'slice'")
  | _ => Raise (TypeError ("'" ++ type_name v ++ "' object is not subscriptable"))
  end.

(** [str(n)] for a natural number and for an [int] *)
Definition str_nat (n : nat) : string := NilZero.string_of_uint (Nat.to_uint n).
Definition str_int (n : Z) : string := NilZero.string_of_int (Z.to_int n).

(** The strings of a sequence that [str.join] accepts. *)
Fixpoint str_items (i : nat) (xs : list json) : result (list string) :=
  match xs with
  | [] => Ok []
  | JStr s :: xs' => rest <- str_items (S i) xs' ;; Ok (s :: rest)
  | x :: _ =>
      Raise (TypeError ("sequence item " ++ str_nat i
                        ++ ": expected str instance, "
                        ++ type_name x ++ " found"))
  end.

(** [', '.join(v)]: [join] has its own message for a value that cannot be
    iterated. *)
Definition join_comma (v : json) : result string :=
  match py_iter v with
  | Ok xs =>
      strs <- str_items 0 xs ;;
      Ok (String.concat ", " strs)
  | Raise _ => Raise (TypeError "can only join an iterable")
  end.

(** [v * 100] is defined on numbers, strings and lists. *)
Definition can_scale (v : json) : bool :=
  match v with
  | JNull | JObj _ => false
  | _ => true
  end.

End Py.

(* ================================================================== *)
(** * Library code and effects *)
(* ================================================================== *)

Module Run.
Import Py.

(** What an agent sends to the generation backend.  The system prompt and
    the wording of the templates are constants; a prompt is given by the
    values the template is filled with. *)
Inductive prompt : Type :=
| DietPrompt (input_json : string) (protein carbs fat : json)
    (dietary_restrictions dislikes : string)
| WastePrompt (input_json : string) (dietary_restrictions dislikes : string)
| TextPrompt (text : string).

(** Library code the agents call.  [generate n p] is the text of the
    backend's reply to prompt [p] when [n] calls were made before it
    ([model.generate_content(...).text], [runner.run(...)]); it may raise. *)
Class Runtime : Type := {
  json_loads : string -> result json;
  json_dumps : json -> string;
  repr : json -> string;
  generate : nat -> prompt -> result string
}.

(** [str(v)] *)
Definition py_str `{Runtime} (v : json) : string :=
  match v with
  | JStr s => s
  | JNull => "None"
  | JBool true => "True"
  | JBool false => "False"
  | JInt n => str_int n
  | _ => repr v
  end.

(** What a run does that can be observed from outside. *)
Inductive event : Type :=
| Invoke (p : prompt)
| Stdout (line : string)
| Stderr (line : string).

Definition is_invoke (ev : event) : bool :=
  match ev with Invoke _ => true | _ => false end.

(** The number of backend calls in a trace. *)
Definition invocations (tr : list event) : nat :=
  length (filter is_invoke tr).

(** Code with effects: it extends the trace and returns or raises. *)
Definition M (A : Type) : Type := list event -> result A * list event.

Definition ret {A : Type} (a : A) : M A := fun tr => (Ok a, tr).

Definition raise {A : Type} (e : exn) : M A := fun tr => (Raise e, tr).

Definition lift {A : Type} (c : result A) : M A := fun tr => (c, tr).

Definition mbind {A B : Type} (c : M A) (k : A -> M B) : M B :=
  fun tr =>
    match c tr with
    | (Ok a, tr') => k a tr'
    | (Raise e, tr') => (Raise e, tr')
    end.

Notation "x <~ c ;; k" := (mbind c (fun x => k))
  (at level 61, c at next level, right associativity).

Definition emit (ev : event) : M unit := fun tr => (Ok tt, (tr ++ [ev])%list).

(** One call of the backend. *)
Definition invoke `{Runtime} (p : prompt) : M string :=
  fun tr => (generate (invocations tr) p, (tr ++ [Invoke p])%list).

End Run.

(* ================================================================== *)
(** * Removing a formatting fence *)
(* ================================================================== *)

Module Sanitize.
Import Py.

Definition FENCE : string := "```".

(** [lines[-1]] of a non-empty list *)
Definition last_line (lines : list string) : string := last lines "".

(** [balanced_diet_agent.py] 181-188, [waste_reduction_agent.py] 145-152:
    the first line goes; the last line goes when it is a closing marker. *)
Definition remove_fence (response_text : string) : string :=
  if startswith response_text FENCE then
    let lines := split_lines response_text in
    let lines := tl lines in
    let lines :=
      match lines with
      | [] => lines
      | _ => if String.eqb (strip (last_line lines)) FENCE
             then removelast lines else lines
      end in
    join_lines lines
  else response_text.

(** [meal_planner.py] 95-99, [recipe_generator.py] 88-92,
    [feedback_compactor.py] 78-82: with more than two lines the first and
    the last line go, whatever the last line is; then a leading [json]. *)
Definition strip_markdown (text : string) : string :=
  if startswith text FENCE then
    let lines := split_lines text in
    let text :=
      if (2 <? length lines)%nat then join_lines (removelast (tl lines))
      else text in
    if startswith text "json" then strip (drop 4 text) else text
  else text.

End Sanitize.

(* ================================================================== *)
(** * [balanced_diet_agent.py] *)
(* ================================================================== *)

Module BalancedDiet.
Import Py Run Sanitize.

Section Agent.
Context `{Runtime}.

Definition default_macros : json :=
  JObj [("protein", JFloat 0.25); ("carbs", JFloat 0.50); ("fat", JFloat 0.25)].

(** [preferred_macros.get(k, d)*100], kept unscaled in the prompt. *)
Definition macro_percent (preferred_macros : json) (k : string) (d : Q)
    : result json :=
  v <- py_get preferred_macros k (JFloat d) ;;
  if can_scale v then Ok v
  else Raise (TypeError ("unsupported operand type(s) for *: '"
                         ++ type_name v ++ "' and 'int'")).

(** [', '.join(names) if names else 'none'] *)
Definition names_or_none (names : json) : result string :=
  if truthy names then join_comma names else Ok "none".

(** Lines 142-164: the user prompt. *)
Definition build_user_prompt (input_data : json) : result prompt :=
  user_profile <- py_get input_data "userProfile" (JObj []) ;;
  intolerances <- py_get user_profile "intolerances" (JArr []) ;;
  dislikes <- py_get user_profile "dislikes" (JArr []) ;;
  preferred_macros <- py_get user_profile "preferredMacros" default_macros ;;
  dietary_restrictions <- names_or_none intolerances ;;
  dislikes_str <- names_or_none dislikes ;;
  protein <- macro_percent preferred_macros "protein" 0.25 ;;
  carbs <- macro_percent preferred_macros "carbs" 0.50 ;;
  fat <- macro_percent preferred_macros "fat" 0.25 ;;
  Ok (DietPrompt (json_dumps input_data) protein carbs fat
        dietary_restrictions dislikes_str).

(** Lines 142-188: prompt, backend call, [response_text] without its
    fence.  A raise in here leaves [response_text] unbound. *)
Definition request (input_data : json) : M string :=
  user_prompt <~ lift (build_user_prompt input_data) ;;
  text <~ invoke user_prompt ;;
  ret (remove_fence (strip text)).

Definition required_keys : list string :=
  ["updatedWeeklyPlan"; "replacements"; "metrics"].

(** The value a missing key is filled with, lines 197-200. *)
Definition default_for (input_data : json) (key : string) : result json :=
  if String.eqb key "updatedWeeklyPlan"
  then py_get input_data "weeklyPlan" (JArr [])
  else Ok (if String.eqb key "replacements" then JArr [] else JObj []).

(** Lines 194-200. *)
Definition fill_required (input_data result : json) : Py.result json :=
  for_each required_keys
    (fun result key =>
       present <- py_contains key result ;;
       if present then Ok result
       else v <- default_for input_data key ;; py_setitem result key v)
    result.

(** Lines 191-202: parse and validate. *)
Definition digest (input_data : json) (response_text : string)
    : result json :=
  result <- json_loads response_text ;;
  fill_required input_data result.

(** The identifiers of the last four history entries, lines 220-222. *)
Definition recent_recipe_ids (history : json) : result (list json) :=
  recent <- py_last 4 history ;;
  weeks <- py_iter recent ;;
  for_each weeks
    (fun recent_ids week =>
       recipes <- py_get week "recipes" (JArr []) ;;
       set_update recent_ids recipes)
    [].

(** The entry appended for a flagged meal, lines 229-237. *)
Definition replacement_entry (meal recipe : json) : result json :=
  day <- py_get meal "day" JNull ;;
  meal_type <- py_get meal "mealType" JNull ;;
  id <- py_get recipe "id" JNull ;;
  title <- py_get recipe "title" JNull ;;
  Ok (JObj [("day", day);
            ("mealType", meal_type);
            ("originalRecipeId", id);
            ("originalRecipeTitle", title);
            ("newRecipeId", JStr "replacement_needed");
            ("newRecipeTitle", JStr "Please select alternative");
            ("reason", JStr "Recipe used in past 4 weeks")]).

(** One turn of the loop of lines 226-237. *)
Definition check_meal (recent_ids : list json) (replacements : list json)
    (meal : json) : result (list json) :=
  recipe <- py_get meal "recipe" (JObj []) ;;
  id <- py_get recipe "id" JNull ;;
  used <- py_in_set id recent_ids ;;
  if used then
    entry <- replacement_entry meal recipe ;;
    Ok (replacements ++ [entry])%list
  else Ok replacements.

(** Lines 225-237. *)
Definition find_replacements (recent_ids : list json) (weekly_plan : json)
    : result (list json) :=
  meals <- py_iter weekly_plan ;;
  for_each meals (check_meal recent_ids) [].

(** [len(xs)] *)
Definition py_len (xs : list json) : json := JInt (Z.of_nat (length xs)).

(** Lines 239-258. *)
Definition fallback_result (weekly_plan : json) (replacements : list json)
    (error_msg : string) : json :=
  JObj [("updatedWeeklyPlan", weekly_plan);
        ("replacements", JArr replacements);
        ("metrics",
         JObj [("proteinRatio", JFloat 0.25);
               ("carbsRatio", JFloat 0.50);
               ("fatRatio", JFloat 0.25);
               ("replacementsCount", py_len replacements);
               ("varietyScore", JStr "unknown");
               ("cuisineDiversity", JArr []);
               ("repeatedRecipes", py_len replacements)]);
        ("recommendations",
         JArr [JStr "Unable to generate detailed recommendations due to error";
               JStr ("Error: " ++ error_msg);
               JStr "Manual review recommended for nutritional balance"]);
        ("error", JStr error_msg);
        ("fallbackUsed", JBool true)].

Definition create_fallback_response (input_data : json) (error_msg : string)
    : result json :=
  weekly_plan <- py_get input_data "weeklyPlan" (JArr []) ;;
  history <- py_get input_data "history" (JArr []) ;;
  recent_ids <- recent_recipe_ids history ;;
  replacements <- find_replacements recent_ids weekly_plan ;;
  Ok (fallback_result weekly_plan replacements error_msg).

Definition unbound_response_text : exn :=
  UnboundLocalError
    "cannot access local variable 'response_text' where it is not associated with a value".

(** The two [except] clauses, lines 204-211.  [response_text] is [None]
    when the [try] block raised before binding it. *)
Definition except_clauses (input_data : json) (response_text : option string)
    (e : exn) : M json :=
  if is_JSONDecodeError e then
    _ <~ emit (Stderr ("Error: Failed to parse JSON from LLM response: "
                       ++ str_exn e)) ;;
    raw <~ match response_text with
           | Some t => ret t
           | None => raise unbound_response_text
           end ;;
    _ <~ emit (Stderr ("Raw response: " ++ raw)) ;;
    lift (create_fallback_response input_data (str_exn e))
  else
    _ <~ emit (Stderr ("Error in diet balance analysis: " ++ str_exn e)) ;;
    lift (create_fallback_response input_data (str_exn e)).

Definition analyze_diet_balance (input_data : json) : M json :=
  fun tr =>
    match request input_data tr with
    | (Raise e, tr1) => except_clauses input_data None e tr1
    | (Ok response_text, tr1) =>
        match digest input_data response_text with
        | Raise e => except_clauses input_data (Some response_text) e tr1
        | Ok result => (Ok result, tr1)
        end
    end.

End Agent.
End BalancedDiet.

(* ================================================================== *)
(** * [waste_reduction_agent.py] *)
(* ================================================================== *)

Module WasteReduction.
Import Py Run Sanitize.

Section Agent.
Context `{Runtime}.

(** [', '.join(names) if names else 'none'] *)
Definition names_or_none (names : json) : result string :=
  if truthy names then join_comma names else Ok "none".

(** Lines 113-128. *)
Definition build_user_prompt (input_data : json) : result prompt :=
  user_profile <- py_get input_data "userProfile" (JObj []) ;;
  intolerances <- py_get user_profile "intolerances" (JArr []) ;;
  dislikes <- py_get user_profile "dislikes" (JArr []) ;;
  dietary_restrictions <- names_or_none intolerances ;;
  dislikes_str <- names_or_none dislikes ;;
  Ok (WastePrompt (json_dumps input_data) dietary_restrictions dislikes_str).

(** Lines 113-152. *)
Definition request (input_data : json) : M string :=
  user_prompt <~ lift (build_user_prompt input_data) ;;
  text <~ invoke user_prompt ;;
  ret (remove_fence (strip text)).

Definition required_keys : list string :=
  ["optimizedRecipes"; "shoppingList"; "substitutionSuggestions"].

(** Lines 158-161. *)
Definition fill_required (result : json) : Py.result json :=
  for_each required_keys
    (fun result key =>
       present <- py_contains key result ;;
       if present then Ok result else py_setitem result key (JArr []))
    result.

(** Lines 155-163. *)
Definition digest (response_text : string) : result json :=
  result <- json_loads response_text ;;
  fill_required result.

(** The dictionary both [except] clauses return, lines 169-176, 179-186. *)
Definition fallback_result (input_data : json) (tip error_msg : string)
    : result json :=
  recipes <- py_get input_data "recipes" (JArr []) ;;
  Ok (JObj [("optimizedRecipes", recipes);
            ("shoppingList", JArr []);
            ("substitutionSuggestions", JArr []);
            ("wasteReductionTips", JArr [JStr tip]);
            ("estimatedWasteReduction", JStr "0%");
            ("error", JStr error_msg)]).

Definition unbound_response_text : exn :=
  UnboundLocalError
    "cannot access local variable 'response_text' where it is not associated with a value".

(** Lines 165-186. *)
Definition except_clauses (input_data : json) (response_text : option string)
    (e : exn) : M json :=
  if is_JSONDecodeError e then
    _ <~ emit (Stderr ("Error: Failed to parse JSON from LLM response: "
                       ++ str_exn e)) ;;
    raw <~ match response_text with
           | Some t => ret t
           | None => raise unbound_response_text
           end ;;
    _ <~ emit (Stderr ("Raw response: " ++ raw)) ;;
    lift (fallback_result input_data
            "Unable to generate recommendations. Using original recipes."
            (str_exn e))
  else
    _ <~ emit (Stderr ("Error in waste reduction analysis: " ++ str_exn e)) ;;
    lift (fallback_result input_data
            "Error occurred during analysis. Using original recipes."
            (str_exn e)).

Definition analyze_waste_reduction (input_data : json) : M json :=
  fun tr =>
    match request input_data tr with
    | (Raise e, tr1) => except_clauses input_data None e tr1
    | (Ok response_text, tr1) =>
        match digest response_text with
        | Raise e => except_clauses input_data (Some response_text) e tr1
        | Ok result => (Ok result, tr1)
        end
    end.

End Agent.
End WasteReduction.

(* ================================================================== *)
(** * [recipe_generator.py] *)
(* ================================================================== *)

Module RecipeGenerator.
Import Py Run Sanitize.

Section Agent.
Context `{Runtime}.

Definition required : list string :=
  ["id"; "title"; "ingredients"; "steps"; "cookTimeMins"; "tags"; "servings"].

(** Lines 98-100: the loop raises at the first field that is not there. *)
Definition check_required (recipe : json) : result unit :=
  for_each required
    (fun _ field =>
       present <- py_contains field recipe ;;
       if present then Ok tt
       else Raise (ValueError ("Missing required field: " ++ field)))
    tt.

(** [except json.JSONDecodeError as e: raise ValueError(...)] *)
Definition reraise_decode_error {A : Type} (c : result A) : result A :=
  match c with
  | Raise (JSONDecodeError m) =>
      Raise (ValueError ("Invalid JSON response: " ++ m))
  | _ => c
  end.

Definition validate_and_parse_recipe (response_text : string) : result json :=
  reraise_decode_error
    (let text := strip_markdown (strip response_text) in
     recipe <- json_loads text ;;
     _ <- check_required recipe ;;
     Ok recipe).

End Agent.
End RecipeGenerator.

(* ================================================================== *)
(** * [feedback_compactor.py] *)
(* ================================================================== *)

Module FeedbackCompactor.
Import Py Run Sanitize.

Section Agent.
Context `{Runtime}.

Definition is_list (v : json) : bool :=
  match v with JArr _ => true | _ => false end.

Definition is_dict (v : json) : bool :=
  match v with JObj _ => true | _ => false end.

(** [if field in compacted and not isinstance(compacted[field], T):
       raise ValueError(msg)] *)
Definition check_type (compacted : json) (field : string)
    (is_type : json -> bool) (msg : string) : result unit :=
  present <- py_contains field compacted ;;
  if present then
    v <- py_getitem compacted field ;;
    if is_type v then Ok tt else Raise (ValueError msg)
  else Ok tt.

(** Lines 87-94. *)
Definition check_types (compacted : json) : result unit :=
  _ <- check_type compacted "likes" is_list "likes must be an array" ;;
  _ <- check_type compacted "dislikes" is_list "dislikes must be an array" ;;
  _ <- check_type compacted "intolerances" is_list
         "intolerances must be an array" ;;
  check_type compacted "weekdayPreferences" is_dict
    "weekdayPreferences must be an object".

Definition validate_and_parse_feedback (response_text : string)
    : result json :=
  RecipeGenerator.reraise_decode_error
    (let text := strip_markdown (strip response_text) in
     compacted <- json_loads text ;;
     _ <- check_types compacted ;;
     Ok compacted).

End Agent.
End FeedbackCompactor.

(* ================================================================== *)
(** * [meal_planner.py] *)
(* ================================================================== *)

Module MealPlanner.
Import Py Run Sanitize.

Section Agent.
Context `{Runtime}.

Definition required_days : list string :=
  ["monday"; "tuesday"; "wednesday"; "thursday"; "friday"; "saturday";
   "sunday"].

(** Lines 104-112; returns [plan["days"]]. *)
Definition check_structure (plan : json) : result json :=
  has_id <- py_contains "planId" plan ;;
  missing <- (if has_id
              then has_days <- py_contains "days" plan ;; Ok (negb has_days)
              else Ok true) ;;
  if missing : bool
  then Raise (ValueError "Missing required fields: planId or days")
  else
    days <- py_getitem plan "days" ;;
    _ <- for_each required_days
           (fun _ day =>
              present <- py_contains day days ;;
              if present then Ok tt
              else Raise (ValueError ("Missing day: " ++ day)))
           tt ;;
    Ok days.

(** [{r["id"] for r in recipes}], line 115. *)
Definition recipe_id_set (recipes : json) : result (list json) :=
  rs <- py_iter recipes ;;
  for_each rs (fun ids r => id <- py_getitem r "id" ;; set_add ids id) [].

(** Lines 116-118. *)
Definition check_recipe_ids (recipe_ids : list json)
    (items : list (string * json)) : result unit :=
  for_each items
    (fun _ item =>
       let '(day, recipe_id) := item in
       known <- py_in_set recipe_id recipe_ids ;;
       if known then Ok tt
       else Raise (ValueError ("Invalid recipe ID for " ++ day ++ ": "
                               ++ py_str recipe_id)))
    tt.

(** A dictionary with hashable keys: a later value for an equal key
    replaces the earlier one. *)
Fixpoint map_put (k v : json) (m : list (json * json)) : list (json * json) :=
  match m with
  | [] => [(k, v)]
  | (k', v') :: m' =>
      if py_eq k k' then (k', v) :: m' else (k', v') :: map_put k v m'
  end.

Fixpoint map_find (k : json) (m : list (json * json)) : option json :=
  match m with
  | [] => None
  | (k', v) :: m' => if py_eq k k' then Some v else map_find k m'
  end.

(** [m[k]] *)
Definition map_get (m : list (json * json)) (k : json) : result json :=
  if hashable k then
    match map_find k m with
    | Some v => Ok v
    | None => Raise (KeyError (repr k))
    end
  else Raise (unhashable k).

(** [{r["id"]: r for r in recipes}], line 121. *)
Definition build_recipe_map (recipes : json) : result (list (json * json)) :=
  rs <- py_iter recipes ;;
  for_each rs
    (fun m r =>
       id <- py_getitem r "id" ;;
       if hashable id then Ok (map_put id r m) else Raise (unhashable id))
    [].

(** [recipe.get("cookTimeMins") or recipe.get("cook_time_minutes", 0)] *)
Definition cook_time_of (recipe : json) : result json :=
  t <- py_get recipe "cookTimeMins" JNull ;;
  if truthy t then Ok t else py_get recipe "cook_time_minutes" (JInt 0).

(** [weekday_prefs.get(day, {}).get("maxCookMins", 30)] *)
Definition max_cook_mins_of (weekday_prefs : json) (day : string)
    : result json :=
  day_prefs <- py_get weekday_prefs day (JObj []) ;;
  py_get day_prefs "maxCookMins" (JInt 30).

Definition warning (day : string) (cook_time max_cook_mins : json) : string :=
  "Warning: " ++ day ++ " recipe exceeds maxCookMins (" ++ py_str cook_time
  ++ " > " ++ py_str max_cook_mins ++ ")".

(** One turn of the loop of lines 122-129: the line it prints, if any. *)
Definition check_cook_time (recipe_map : list (json * json))
    (weekday_prefs : json) (item : string * json) : result (option string) :=
  let '(day, recipe_id) := item in
  recipe <- map_get recipe_map recipe_id ;;
  cook_time <- cook_time_of recipe ;;
  max_cook_mins <- max_cook_mins_of weekday_prefs day ;;
  over <- py_gt cook_time max_cook_mins ;;
  Ok (if over : bool then Some (warning day cook_time max_cook_mins)
      else None).

(** Lines 122-129. *)
Fixpoint check_cook_times (recipe_map : list (json * json))
    (weekday_prefs : json) (items : list (string * json)) : M unit :=
  match items with
  | [] => ret tt
  | item :: items' =>
      line <~ lift (check_cook_time recipe_map weekday_prefs item) ;;
      _ <~ match line with
           | Some l => emit (Stdout l)
           | None => ret tt
           end ;;
      check_cook_times recipe_map weekday_prefs items'
  end.

(** [except json.JSONDecodeError as e: raise ValueError(...)] *)
Definition reraise_decode_error {A : Type} (c : M A) : M A :=
  fun tr =>
    match c tr with
    | (Raise (JSONDecodeError m), tr') =>
        (Raise (ValueError ("Invalid JSON response: " ++ m)), tr')
    | r => r
    end.

Definition validate_plan (plan_text : string) (recipes weekday_prefs : json)
    : M json :=
  reraise_decode_error
    (let text := strip_markdown (strip plan_text) in
     plan <~ lift (json_loads text) ;;
     days <~ lift (check_structure plan) ;;
     recipe_ids <~ lift (recipe_id_set recipes) ;;
     items <~ lift (py_items days) ;;
     _ <~ lift (check_recipe_ids recipe_ids items) ;;
     recipe_map <~ lift (build_recipe_map recipes) ;;
     _ <~ check_cook_times recipe_map weekday_prefs items ;;
     ret plan).

End Agent.
End MealPlanner.

(* ================================================================== *)
(** * [shopping_normalizer.py] *)
(* ================================================================== *)

Module ShoppingNormalizer.
Import Py Run.

Section Agent.
Context `{Runtime}.

(** Lines 96-102. *)
Definition build_prompt (ingredients_data : json) : prompt :=
  TextPrompt
    ("Normalize and aggregate this shopping list from multiple recipes:"
     ++ NL ++ NL ++ json_dumps ingredients_data ++ NL ++ NL
     ++ "Return a consolidated shopping list with aggregated quantities, normalized names, and extracted notes.").

(** Lines 104-114: the reply of the backend, parsed; the empty list when
    it does not parse. *)
Definition normalize_shopping_list (ingredients_data : json) : M json :=
  result <~ invoke (build_prompt ingredients_data) ;;
  match json_loads result with
  | Ok normalized_list => ret normalized_list
  | Raise (JSONDecodeError m) =>
      _ <~ emit (Stderr ("Error parsing agent response: " ++ m)) ;;
      _ <~ emit (Stderr ("Raw response: " ++ result)) ;;
      ret (JArr [])
  | Raise e => raise e
  end.

End Agent.
End ShoppingNormalizer.

(* ================================================================== *)
(** * What the claims speak about *)
(* ================================================================== *)

Module Notions.
Import Py Run.

(** The last four entries of a history (all of them when there are fewer). *)
Definition last_four (weeks : list json) : list json :=
  skipn (length weeks - 4) weeks.

(** The recipe identifiers a history entry holds. *)
Definition week_ids (week : json) : list json :=
  match py_get week "recipes" (JArr []) with
  | Ok recipes => match py_iter recipes with Ok rs => rs | Raise _ => [] end
  | Raise _ => []
  end.

(** A history entry is a dictionary whose [recipes], when there, is a
    sequence of hashable identifiers. *)
Definition wf_week (week : json) : bool :=
  match py_get week "recipes" (JArr []) with
  | Ok recipes =>
      match py_iter recipes with
      | Ok rs => forallb hashable rs
      | Raise _ => false
      end
  | Raise _ => false
  end.

(** The recipe of a plan entry and its identifier ([None] when absent). *)
Definition meal_recipe (meal : json) : json :=
  match py_get meal "recipe" (JObj []) with Ok r => r | Raise _ => JNull end.

Definition meal_id (meal : json) : json :=
  match py_get (meal_recipe meal) "id" JNull with
  | Ok id => id
  | Raise _ => JNull
  end.

(** A plan entry is a dictionary whose [recipe], when there, is a
    dictionary with a hashable [id]. *)
Definition wf_meal (meal : json) : bool :=
  match py_get meal "recipe" (JObj []) with
  | Ok recipe =>
      match py_get recipe "id" JNull with
      | Ok id => hashable id
      | Raise _ => false
      end
  | Raise _ => false
  end.

(** The identifier occurs in one of the last four history entries. *)
Definition used_recently (weeks : list json) (id : json) : bool :=
  existsb (fun week => existsb (py_eq id) (week_ids week)) (last_four weeks).

(** The replacement record of a plan entry. *)
Definition replacement_for (meal : json) : json :=
  match BalancedDiet.replacement_entry meal (meal_recipe meal) with
  | Ok entry => entry
  | Raise _ => JNull
  end.

(** [d[k]], [None] when it is not there. *)
Definition field (d : json) (k : string) : json :=
  match py_getitem d k with Ok v => v | Raise _ => JNull end.

(** The strings found under [name] or [title] anywhere in a value: the
    names of its recipes and ingredients. *)
Fixpoint names_in (v : json) : list string :=
  match v with
  | JArr xs => flat_map names_in xs
  | JObj kvs =>
      (fix fields (kvs : list (string * json)) : list string :=
         match kvs with
         | [] => []
         | (k, x) :: kvs' =>
             (match x with
              | JStr s =>
                  if String.eqb k "name" || String.eqb k "title"
                  then [s] else []
              | _ => names_in x
              end ++ fields kvs')%list
         end) kvs
  | _ => []
  end.

(** The canonical form of a name. *)
Definition canonical (name : string) : string := lower (strip name).

(** The value names a recipe or ingredient that matches an intolerance. *)
Definition names_intolerance (intolerances : list string) (v : json) : bool :=
  existsb
    (fun name =>
       existsb (fun i => String.eqb (canonical name) (canonical i))
         intolerances)
    (names_in v).

(** The report mentions a field. *)
Definition mentions (report : exn) (field : string) : bool :=
  is_substring field (str_exn report).

(** The first of [fields] that a dictionary does not have. *)
Definition first_missing (fields : list string) (o : list (string * json))
    : option string :=
  find (fun f => match assoc f o with Some _ => false | None => true end)
    fields.

(** The typed fields of compacted feedback, in the order they are checked:
    name, expected type, message. *)
Definition typed_fields : list (string * (json -> bool) * string) :=
  [("likes", FeedbackCompactor.is_list, "likes must be an array");
   ("dislikes", FeedbackCompactor.is_list, "dislikes must be an array");
   ("intolerances", FeedbackCompactor.is_list, "intolerances must be an array");
   ("weekdayPreferences", FeedbackCompactor.is_dict,
    "weekdayPreferences must be an object")].

(** A field that is there with the wrong type. *)
Definition mistyped (o : list (string * json))
    (spec : string * (json -> bool) * string) : bool :=
  let '(name, is_type, _) := spec in
  match assoc name o with
  | Some v => negb (is_type v)
  | None => false
  end.

(** The message of the first mistyped field. *)
Definition first_mistyped (o : list (string * json)) : option string :=
  option_map snd (find (mistyped o) typed_fields).

(** The lines the cook-time loop prints for the days of a plan. *)
Definition cook_warnings `{Runtime} (recipe_map : list (json * json))
    (weekday_prefs : json) (items : list (string * json)) : list string :=
  flat_map
    (fun item =>
       match MealPlanner.check_cook_time recipe_map weekday_prefs item with
       | Ok (Some line) => [line]
       | _ => []
       end)
    items.

(** The checks that come before the cook-time loop accept the plan; [items]
    are its days and [recipe_map] the recipes by identifier. *)
Definition accepted `{Runtime} (plan recipes : json)
    (items : list (string * json)) (recipe_map : list (json * json)) : Prop :=
  exists days recipe_ids,
    MealPlanner.check_structure plan = Ok days /\
    MealPlanner.recipe_id_set recipes = Ok recipe_ids /\
    py_items days = Ok items /\
    MealPlanner.check_recipe_ids recipe_ids items = Ok tt /\
    MealPlanner.build_recipe_map recipes = Ok recipe_map.

(** No comparison of the cook-time loop raises. *)
Definition comparable `{Runtime} (recipe_map : list (json * json))
    (weekday_prefs : json) (items : list (string * json)) : Prop :=
  forall item, In item items ->
    exists line,
      MealPlanner.check_cook_time recipe_map weekday_prefs item = Ok line.

(** [True], [False], an integer or a float. *)
Definition is_number (v : json) : bool :=
  match num_of v with Some _ => true | None => false end.

(** The data of one day of a plan has the types the cook-time loop works
    on: the day's recipe is in the map, and its cook time and the day's
    maximum are numbers.  Nothing is said about which is larger. *)
Definition timed `{Runtime} (recipe_map : list (json * json))
    (weekday_prefs : json) (item : string * json) : bool :=
  match MealPlanner.map_get recipe_map (snd item) with
  | Ok recipe =>
      match MealPlanner.cook_time_of recipe,
            MealPlanner.max_cook_mins_of weekday_prefs (fst item) with
      | Ok cook_time, Ok max_cook_mins =>
          is_number cook_time && is_number max_cook_mins
      | _, _ => false
      end
  | Raise _ => false
  end.

End Notions.

(* ================================================================== *)
(** * A runtime for concrete runs *)
(* ================================================================== *)

Module Samples.
Import Py Run.

Definition DQ : string := String (ascii_of_nat 34) EmptyString.
Definition BACKSLASH : string := String (ascii_of_nat 92) EmptyString.

(** A string between double quotes. *)
Definition quoted (s : string) : string := DQ ++ s ++ DQ.

Definition hex_digit (n : nat) : string :=
  String (nth n (list_ascii_of_string "0123456789abcdef") "0"%char) "".

(** The escape of one code point, as [json.dumps] writes it. *)
Definition escape_char (c : ascii) : string :=
  let n := nat_of_ascii c in
  if (n =? 34)%nat then BACKSLASH ++ DQ
  else if (n =? 92)%nat then BACKSLASH ++ BACKSLASH
  else if (n =? 10)%nat then BACKSLASH ++ "n"
  else if (n =? 13)%nat then BACKSLASH ++ "r"
  else if (n =? 9)%nat then BACKSLASH ++ "t"
  else if (n =? 8)%nat then BACKSLASH ++ "b"
  else if (n =? 12)%nat then BACKSLASH ++ "f"
  else if (n <? 32)%nat || (126 <? n)%nat
       then BACKSLASH ++ "u00" ++ hex_digit (n / 16) ++ hex_digit (n mod 16)
  else String c "".

Fixpoint escape (s : string) : string :=
  match s with
  | EmptyString => EmptyString
  | String c s' => escape_char c ++ escape s'
  end.

(** [json.dumps(v, indent=2)] on values without floats, [pad] being the
    indentation of the enclosing line. *)
Fixpoint dumps_at (pad : string) (v : json) : string :=
  let inner := pad ++ "  " in
  match v with
  | JNull => "null"
  | JBool true => "true"
  | JBool false => "false"
  | JInt n => str_int n
  | JFloat _ => "0.0"
  | JStr s => quoted (escape s)
  | JArr [] => "[]"
  | JArr xs =>
      "[" ++ NL
      ++ String.concat ("," ++ NL)
           (map (fun x => inner ++ dumps_at inner x) xs)
      ++ NL ++ pad ++ "]"
  | JObj [] => "{}"
  | JObj kvs =>
      "{" ++ NL
      ++ String.concat ("," ++ NL)
           ((fix members (kvs : list (string * json)) : list string :=
               match kvs with
               | [] => []
               | (k, x) :: kvs' =>
                   (inner ++ quoted (escape k) ++ ": " ++ dumps_at inner x)
                   :: members kvs'
               end) kvs)
      ++ NL ++ pad ++ "}"
  end.

Definition sample_dumps (v : json) : string := dumps_at "" v.

(** Replies of the backend that occur in the sample runs. *)
Definition not_json : string := "Sorry, I cannot help with that.".

Definition keys_only : json :=
  JArr [JStr "updatedWeeklyPlan"; JStr "replacements"; JStr "metrics"].

Definition peanut_plan : json :=
  JObj [("updatedWeeklyPlan",
         JArr [JObj [("day", JStr "monday");
                     ("mealType", JStr "dinner");
                     ("recipe", JObj [("id", JStr "r_007");
                                      ("title", JStr "Peanuts")])]]);
        ("replacements", JArr []);
        ("metrics", JObj [])].

Definition merged_list : json :=
  JArr [JObj [("name", JStr "chickpeas"); ("qty", JStr "3 cans");
              ("notes", JStr "")]].

Definition unfinished_recipe : json :=
  JObj [("id", JStr "r_1"); ("title", JStr "Soup")].

Definition unmerged_list : json :=
  JArr [JObj [("name", JStr "chickpeas"); ("qty", JStr "1 can");
              ("notes", JStr "")];
        JObj [("name", JStr "chickpeas"); ("qty", JStr "2 cans");
              ("notes", JStr "")]].

(** The days of a weekly plan. *)
Definition week_days : list (string * json) :=
  [("monday", JStr "r_002"); ("tuesday", JStr "r_001");
   ("wednesday", JStr "r_001"); ("thursday", JStr "r_002");
   ("friday", JStr "r_002"); ("saturday", JStr "r_002");
   ("sunday", JStr "r_002")].

Definition week_plan : json :=
  JObj [("planId", JStr "plan_1"); ("days", JObj week_days)].

(** [json.loads] at the texts of the sample runs; every other text of the
    sample runs is not a JSON document, and one message stands for the
    decoder's. *)
Definition loads_table : list (string * json) :=
  [("{}", JObj []);
   ("[]", JArr []);
   (sample_dumps keys_only, keys_only);
   (sample_dumps peanut_plan, peanut_plan);
   (sample_dumps merged_list, merged_list);
   (sample_dumps unmerged_list, unmerged_list);
   (sample_dumps unfinished_recipe, unfinished_recipe);
   (sample_dumps week_plan, week_plan)].

Fixpoint lookup_text (s : string) (table : list (string * json))
    : option json :=
  match table with
  | [] => None
  | (t, v) :: table' => if String.eqb s t then Some v else lookup_text s table'
  end.

Definition sample_loads (s : string) : result json :=
  match lookup_text s loads_table with
  | Some v => Ok v
  | None => Raise (JSONDecodeError "Expecting value: line 1 column 1 (char 0)")
  end.

(** No sample run takes [repr]; the JSON notation stands in for it. *)
Definition sample_repr (v : json) : string := sample_dumps v.

(** A runtime whose backend answers by [reply]. *)
Definition runtime (reply : nat -> prompt -> result string) : Runtime :=
  {| json_loads := sample_loads;
     json_dumps := sample_dumps;
     repr := sample_repr;
     generate := reply |}.

(** A backend that always sends the same text. *)
Definition says (text : string) : Runtime := runtime (fun _ _ => Ok text).

(** A backend whose call fails. *)
Definition fails (e : exn) : Runtime := runtime (fun _ _ => Raise e).

(** ** Requests *)

(** A diet-balance request: one plan entry, a profile that excludes
    peanuts, one week of history that holds the entry's recipe. *)
Definition monday_lunch : json :=
  JObj [("day", JStr "monday"); ("mealType", JStr "lunch");
        ("recipe", JObj [("id", JStr "r_001"); ("title", JStr "Lentil Soup")])].

Definition tuesday_lunch : json :=
  JObj [("day", JStr "tuesday"); ("mealType", JStr "lunch");
        ("recipe", JObj [("id", JStr "r_005"); ("title", JStr "Rice Bowl")])].

Definition last_week : json :=
  JObj [("week", JInt (-1)); ("recipes", JArr [JStr "r_001"; JStr "r_002"])].

Definition diet_request : json :=
  JObj [("weeklyPlan", JArr [monday_lunch; tuesday_lunch]);
        ("userProfile", JObj [("intolerances", JArr [JStr "peanuts"])]);
        ("history", JArr [last_week])].

(** A request whose history is [null]. *)
Definition null_history_request : json :=
  JObj [("weeklyPlan", JArr []); ("history", JNull)].

(** A request with an empty plan and nothing else. *)
Definition plain_request : json := JObj [("weeklyPlan", JArr [])].

(** A waste-reduction request. *)
Definition waste_request : json :=
  JObj [("recipes",
         JArr [JObj [("id", JStr "r_001"); ("title", JStr "Lentil Soup");
                     ("ingredients",
                      JArr [JObj [("name", JStr "lentils");
                                  ("qty", JStr "1 cup")]])]])].

(** Two shopping lists with the same entries in different order. *)
Definition two_cans : json :=
  JObj [("name", JStr "chickpeas"); ("qty", JStr "2 cans")].

Definition one_can : json :=
  JObj [("name", JStr "chickpeas"); ("qty", JStr "1 can")].

(** A backend that merges the two entries when the prompt shows them in
    the order 2 cans, 1 can, and lists the entries one by one for any other
    prompt. *)
Definition order_sensitive : Runtime :=
  runtime
    (fun _ p =>
       match p with
       | TextPrompt text =>
           if is_substring (sample_dumps (JArr [two_cans; one_can])) text
           then Ok (sample_dumps merged_list)
           else Ok (sample_dumps unmerged_list)
       | _ => Ok (sample_dumps unmerged_list)
       end).

(** The recipes and the weekday preferences of a planning request: monday
    allows 15 minutes, the other days have nothing configured. *)
Definition stir_fry : json :=
  JObj [("id", JStr "r_001"); ("title", JStr "Quick Veggie Stir-Fry");
        ("cookTimeMins", JInt 15)].

Definition pasta : json :=
  JObj [("id", JStr "r_002"); ("title", JStr "Pasta Marinara");
        ("cookTimeMins", JInt 20)].

Definition pool : json := JArr [stir_fry; pasta].

Definition weekday_preferences : json :=
  JObj [("monday", JObj [("maxCookMins", JInt 15)])].

(** The plan [week_plan] inside a fence. *)
Definition fenced_plan : string :=
  "```json" ++ NL ++ sample_dumps week_plan ++ NL ++ "```".

(** A reply cut off before its closing marker. *)
Definition cut_off_reply : string :=
  "```json" ++ NL ++ sample_dumps unfinished_recipe.

End Samples.

(* ================================================================== *)
(** * Fenced texts *)
(* ================================================================== *)

Module Fence.
Import Py Sanitize.

(** Nothing but whitespace. *)
Fixpoint blank (s : string) : bool :=
  match s with
  | EmptyString => true
  | String c s' => is_space c && blank s'
  end.

(** No line break. *)
Fixpoint one_line (s : string) : bool :=
  match s with
  | EmptyString => true
  | String c s' => negb (Ascii.eqb c LF) && one_line s'
  end.

(** [content] between an opening marker line that carries [tag] and a
    closing marker line. *)
Definition fenced (tag content : string) : string :=
  FENCE ++ tag ++ NL ++ content ++ NL ++ FENCE.

(** [content] after an opening marker line, with no closing marker. *)
Definition unclosed (tag content : string) : string :=
  FENCE ++ tag ++ NL ++ content.

End Fence.

(* ================================================================== *)
(** * [recipe_generator_with_search.py] *)
(* ================================================================== *)

Module RecipeSearch.
Import Py Run Sanitize.

Section Agent.
Context `{Runtime}.

(** [str.title], library code. *)
Variable str_title : string -> string.

(** [', '.join(names) if names else 'none'] *)
Definition names_or_none (names : json) : result string :=
  if truthy names then join_comma names else Ok "none".

(** Lines 118-133.  The wording of the template is left out: the prompt is
    the values the template is filled with, one per line. *)
Definition build_user_prompt (input_data : json) : result prompt :=
  diet <- py_get input_data "diet" (JStr "any") ;;
  avoid_ingredients <- py_get input_data "avoidIngredients" (JArr []) ;;
  max_cook_mins <- py_get input_data "maxCookMins" (JInt 30) ;;
  servings <- py_get input_data "servings" (JInt 2) ;;
  style <- py_get input_data "style" (JStr "any cuisine") ;;
  avoid_str <- names_or_none avoid_ingredients ;;
  Ok (TextPrompt
        (String.concat NL
           [py_str diet; avoid_str; py_str max_cook_mins; py_str servings;
            py_str style])).

(** Lines 118-155: prompt, backend call, [response_text] without its
    fence. *)
Definition request (input_data : json) : M string :=
  user_prompt <~ lift (build_user_prompt input_data) ;;
  text <~ invoke user_prompt ;;
  ret (remove_fence (strip text)).

Definition required_fields : list string :=
  ["title"; "ingredients"; "steps"; "cookTimeMins"].

(** Lines 161-164. *)
Definition check_required (recipe : json) : result unit :=
  for_each required_fields
    (fun _ field =>
       present <- py_contains field recipe ;;
       if present then Ok tt
       else Raise (ValueError ("Missing required field: " ++ field)))
    tt.

(** Lines 158-168: parse, validate, add the metadata. *)
Definition digest (response_text : string) : result json :=
  recipe <- json_loads response_text ;;
  _ <- check_required recipe ;;
  recipe <- py_setitem recipe "generatedFrom" (JStr "web_search") ;;
  py_setitem recipe "searchEnabled" (JBool true).

(** [diet.title()] *)
Definition py_title (diet : json) : result string :=
  match diet with
  | JStr s => Ok (str_title s)
  | _ => Raise (AttributeError ("'" ++ type_name diet
                                ++ "' object has no attribute 'title'"))
  end.

Definition create_fallback_recipe (input_data : json) (error_msg : string)
    : result json :=
  diet <- py_get input_data "diet" (JStr "any") ;;
  max_cook_mins <- py_get input_data "maxCookMins" (JInt 30) ;;
  servings <- py_get input_data "servings" (JInt 2) ;;
  title <- py_title diet ;;
  Ok (JObj [("id", JStr "r_fallback_001");
            ("title", JStr ("Quick " ++ title ++ " Recipe"));
            ("source", JStr "generated");
            ("ingredients",
             JArr [JObj [("name", JStr "main ingredient");
                         ("qty", JStr "as needed")];
                   JObj [("name", JStr "seasoning");
                         ("qty", JStr "to taste")]]);
            ("steps",
             JArr [JStr "Prepare ingredients";
                   JStr ("Cook for approximately " ++ py_str max_cook_mins
                         ++ " minutes");
                   JStr "Serve hot"]);
            ("cookTimeMins", max_cook_mins);
            ("servings", servings);
            ("tags", JArr [diet; JStr "simple"]);
            ("foundOnWeb", JBool false);
            ("error", JStr error_msg);
            ("fallbackUsed", JBool true)]).

Definition unbound_response_text : exn :=
  UnboundLocalError
    "cannot access local variable 'response_text' where it is not associated with a value".

(** The two [except] clauses, lines 172-181. *)
Definition except_clauses (input_data : json) (response_text : option string)
    (e : exn) : M json :=
  if is_JSONDecodeError e then
    _ <~ emit (Stderr ("JSON parsing error: " ++ str_exn e)) ;;
    raw <~ match response_text with
           | Some t => ret t
           | None => raise unbound_response_text
           end ;;
    _ <~ emit (Stderr ("Raw response: " ++ substring 0 500 raw)) ;;
    lift (create_fallback_recipe input_data ("JSON error: " ++ str_exn e))
  else
    _ <~ emit (Stderr ("Error generating recipe: " ++ str_exn e)) ;;
    lift (create_fallback_recipe input_data (str_exn e)).

Definition generate_recipe_from_web (input_data : json) : M json :=
  fun tr =>
    match request input_data tr with
    | (Raise e, tr1) => except_clauses input_data None e tr1
    | (Ok response_text, tr1) =>
        match digest response_text with
        | Raise e => except_clauses input_data (Some response_text) e tr1
        | Ok recipe => (Ok recipe, tr1)
        end
    end.

End Agent.
End RecipeSearch.

(* ================================================================== *)
(** * The entry points of the two pipelines *)
(* ================================================================== *)

Module Cli.
Import Py Run.

(** How [main] ends: it returns, or [sys.exit(code)] ends the process. *)
Inductive ending : Type :=
| Returned
| Exit (code : nat).

Section Mains.
Context `{Runtime}.

(** [json.dumps] without indentation, library code. *)
Variable dumps : json -> string.

(** The document [balanced_diet_agent.main] prints for an error. *)
Definition diet_error (msg : string) : json :=
  JObj [("error", JStr msg);
        ("updatedWeeklyPlan", JArr []);
        ("replacements", JArr []);
        ("metrics", JObj [])].

(** The outer [except Exception], lines 304-311. *)
Definition diet_unexpected (e : exn) (tr : list event)
    : ending * list event :=
  (Exit 1,
   tr ++ [Stderr (dumps (diet_error ("Unexpected error: " ++ str_exn e)))])%list.

(** [balanced_diet_agent.main], lines 261-311, on the text of the input
    stream. *)
Definition diet_main (input_text : string) (tr : list event)
    : ending * list event :=
  if String.eqb (strip input_text) "" then
    (Exit 1, tr ++ [Stdout (dumps (diet_error "No input provided"))])%list
  else
    match json_loads input_text with
    | Raise (JSONDecodeError m) =>
        (Exit 1,
         tr ++ [Stdout (dumps (diet_error ("Invalid JSON input: " ++ m)))])%list
    | Raise e => diet_unexpected e tr
    | Ok input_data =>
        match py_contains "weeklyPlan" input_data with
        | Raise e => diet_unexpected e tr
        | Ok false =>
            (Exit 1,
             tr ++ [Stdout (dumps (diet_error
                                     "Input must contain 'weeklyPlan' array"))])%list
        | Ok true =>
            match BalancedDiet.analyze_diet_balance input_data tr with
            | (Ok result, tr') =>
                (Returned, tr' ++ [Stdout (json_dumps result)])%list
            | (Raise e, tr') => diet_unexpected e tr'
            end
        end
    end.

(** The document [waste_reduction_agent.main] prints for an error. *)
Definition waste_error (msg : string) : json :=
  JObj [("error", JStr msg);
        ("optimizedRecipes", JArr []);
        ("shoppingList", JArr []);
        ("substitutionSuggestions", JArr [])].

(** The outer [except Exception], lines 232-239. *)
Definition waste_unexpected (e : exn) (tr : list event)
    : ending * list event :=
  (Exit 1,
   tr ++ [Stderr (dumps (waste_error ("Unexpected error: " ++ str_exn e)))])%list.

(** ['recipes' not in input_data or not input_data['recipes']] *)
Definition lacks_recipes (input_data : json) : result bool :=
  present <- py_contains "recipes" input_data ;;
  if present then
    recipes <- py_getitem input_data "recipes" ;;
    Ok (negb (truthy recipes))
  else Ok true.

(** [waste_reduction_agent.main], lines 189-239. *)
Definition waste_main (input_text : string) (tr : list event)
    : ending * list event :=
  if String.eqb (strip input_text) "" then
    (Exit 1, tr ++ [Stdout (dumps (waste_error "No input provided"))])%list
  else
    match json_loads input_text with
    | Raise (JSONDecodeError m) =>
        (Exit 1,
         tr ++ [Stdout (dumps (waste_error ("Invalid JSON input: " ++ m)))])%list
    | Raise e => waste_unexpected e tr
    | Ok input_data =>
        match lacks_recipes input_data with
        | Raise e => waste_unexpected e tr
        | Ok true =>
            (Exit 1,
             tr ++ [Stdout (dumps (waste_error
                                     "Input must contain 'recipes' array"))])%list
        | Ok false =>
            match WasteReduction.analyze_waste_reduction input_data tr with
            | (Ok result, tr') =>
                (Returned, tr' ++ [Stdout (json_dumps result)])%list
            | (Raise e, tr') => waste_unexpected e tr'
            end
        end
    end.

End Mains.
End Cli.

(* ================================================================== *)
(** * Shapes of payloads and more sample data *)
(* ================================================================== *)

Module Shapes.
Import Py Run.

(** [None], a boolean or a number. *)
Definition scalar (v : json) : bool :=
  match v with
  | JNull | JBool _ | JInt _ | JFloat _ => true
  | _ => false
  end.

Definition is_object (v : json) : bool :=
  match v with JObj _ => true | _ => false end.

(** The value of [key] after the step that fills it with [d]. *)
Definition filled (key : string) (d : json) (o : list (string * json))
    : json :=
  match assoc key o with Some v => v | None => d end.

(** The recipe's cook time is a number that does not exceed the number
    that is the day's maximum. *)
Definition within_limit `{Runtime} (recipe_map : list (json * json))
    (weekday_prefs : json) (item : string * json) : Prop :=
  exists recipe cook_time max_cook_mins c m,
    MealPlanner.map_get recipe_map (snd item) = Ok recipe /\
    MealPlanner.cook_time_of recipe = Ok cook_time /\
    MealPlanner.max_cook_mins_of weekday_prefs (fst item) = Ok max_cook_mins /\
    num_of cook_time = Some c /\
    num_of max_cook_mins = Some m /\
    (c <= m)%Q.

End Shapes.

Module MoreSamples.
Import Py Run Samples.

(** [str.title] on a text of ASCII letters and other ASCII characters. *)
Definition is_letter (c : ascii) : bool :=
  let n := nat_of_ascii c in
  ((65 <=? n)%nat && (n <=? 90)%nat) || ((97 <=? n)%nat && (n <=? 122)%nat).

Definition upper_char (c : ascii) : ascii :=
  let n := nat_of_ascii c in
  if (97 <=? n)%nat && (n <=? 122)%nat then ascii_of_nat (n - 32) else c.

Fixpoint title_from (after_letter : bool) (s : string) : string :=
  match s with
  | EmptyString => EmptyString
  | String c s' =>
      String (if after_letter then lower_char c else upper_char c)
             (title_from (is_letter c) s')
  end.

Definition ascii_title (s : string) : string := title_from false s.

(** [json.dumps(v)] without indentation, on values without floats. *)
Fixpoint dumps_flat (v : json) : string :=
  match v with
  | JNull => "null"
  | JBool true => "true"
  | JBool false => "false"
  | JInt n => str_int n
  | JFloat _ => "0.0"
  | JStr s => quoted (escape s)
  | JArr xs => "[" ++ String.concat ", " (map dumps_flat xs) ++ "]"
  | JObj kvs =>
      "{"
      ++ String.concat ", "
           ((fix members (kvs : list (string * json)) : list string :=
               match kvs with
               | [] => []
               | (k, x) :: kvs' =>
                   (quoted (escape k) ++ ": " ++ dumps_flat x) :: members kvs'
               end) kvs)
      ++ "}"
  end.

(** A recipe as the search agent expects it. *)
Definition found_recipe : json :=
  JObj [("title", JStr "Chickpea Curry");
        ("ingredients", JArr [JObj [("name", JStr "chickpeas");
                                    ("qty", JStr "1 can")]]);
        ("steps", JArr [JStr "Simmer"]);
        ("cookTimeMins", JInt 25)].

(** A recipe request. *)
Definition search_request : json :=
  JObj [("diet", JStr "vegan"); ("maxCookMins", JInt 25)].

(** A diet-balance request without history. *)
Definition first_week_request : json :=
  JObj [("weeklyPlan", JArr [monday_lunch; tuesday_lunch])].

(** Five history entries; only the oldest holds [r_005]. *)
Definition old_week : json :=
  JObj [("recipes", JArr [JStr "r_005"])].

Definition quiet_week : json := JObj [("recipes", JArr [])].

(** A plan that assigns a recipe that is not in the pool. *)
Definition stray_days : list (string * json) :=
  [("monday", JStr "r_002"); ("tuesday", JStr "r_404");
   ("wednesday", JStr "r_001"); ("thursday", JStr "r_002");
   ("friday", JStr "r_002"); ("saturday", JStr "r_002");
   ("sunday", JStr "r_002")].

Definition stray_plan : json :=
  JObj [("planId", JStr "plan_2"); ("days", JObj stray_days)].

(** A plan whose recipes all fit their days. *)
Definition easy_days : list (string * json) :=
  [("monday", JStr "r_001"); ("tuesday", JStr "r_001");
   ("wednesday", JStr "r_001"); ("thursday", JStr "r_002");
   ("friday", JStr "r_002"); ("saturday", JStr "r_002");
   ("sunday", JStr "r_002")].

Definition easy_plan : json :=
  JObj [("planId", JStr "plan_3"); ("days", JObj easy_days)].

(** Compacted feedback. *)
Definition feedback : json :=
  JObj [("dislikes", JArr [JStr "mushrooms"]);
        ("dietaryStyle", JStr "vegetarian")].

(** A complete recipe whose cook time is a string. *)
Definition loose_recipe : json :=
  JObj [("id", JStr "r_9"); ("title", JStr "Toast");
        ("ingredients", JArr []); ("steps", JArr []);
        ("cookTimeMins", JStr "five"); ("tags", JArr []);
        ("servings", JInt 1)].

(** [json.loads] at more texts, and as [sample_loads] elsewhere. *)
Definition more_table : list (string * json) :=
  [("5", JInt 5);
   ("null", JNull);
   (sample_dumps found_recipe, found_recipe);
   (sample_dumps unfinished_recipe, unfinished_recipe);
   (sample_dumps diet_request, diet_request);
   (sample_dumps waste_request, waste_request);
   (sample_dumps plain_request, plain_request);
   (sample_dumps stray_plan, stray_plan);
   (sample_dumps easy_plan, easy_plan);
   (sample_dumps feedback, feedback);
   (sample_dumps loose_recipe, loose_recipe);
   (sample_dumps (JObj [("recipes", JArr [])]), JObj [("recipes", JArr [])])].

Definition more_loads (s : string) : result json :=
  match lookup_text s more_table with
  | Some v => Ok v
  | None => sample_loads s
  end.

(** A runtime that reads these texts and whose backend answers by
    [reply]. *)
Definition reads (reply : nat -> prompt -> result string) : Runtime :=
  {| json_loads := more_loads;
     json_dumps := sample_dumps;
     repr := sample_repr;
     generate := reply |}.

Definition replies (text : string) : Runtime := reads (fun _ _ => Ok text).

Definition breaks (e : exn) : Runtime := reads (fun _ _ => Raise e).

End MoreSamples.

(* ================================================================== *)
(** * Sets of identifiers *)
(* ================================================================== *)

Import Py Run Notions.
Local Open Scope list_scope.

(** On hashable values [==] is transitive. *)
Lemma py_eq_hashable_trans (a b c : json) :
  hashable a = true -> hashable b = true -> hashable c = true ->
  py_eq a b = true -> py_eq b c = true -> py_eq a c = true.
Proof.
  intros Ha Hb Hc Hab Hbc.
  destruct a, b, c; simpl in *; try discriminate; try reflexivity;
    try (apply Qeq_bool_iff in Hab; apply Qeq_bool_iff in Hbc;
         apply Qeq_bool_iff; etransitivity; eassumption).
  apply String.eqb_eq in Hab, Hbc. subst. apply String.eqb_refl.
Qed.

Lemma set_mem_app (y : json) (s t : list json) :
  set_mem y (s ++ t) = set_mem y s || set_mem y t.
Proof. unfold set_mem. apply existsb_app. Qed.

(** Adding a hashable value succeeds and adds just that value. *)
Lemma set_add_spec (s : list json) (x : json) :
  forallb hashable s = true -> hashable x = true ->
  exists s', set_add s x = Ok s' /\ forallb hashable s' = true /\
    forall y, hashable y = true -> set_mem y s' = set_mem y s || py_eq y x.
Proof.
  intros Hs Hx. unfold set_add. rewrite Hx.
  destruct (set_mem x s) eqn:Hmem.
  - exists s. repeat split; auto. intros y Hy.
    destruct (py_eq y x) eqn:Hyx; [|now rewrite orb_false_r].
    rewrite orb_true_r. unfold set_mem in *.
    apply existsb_exists in Hmem. destruct Hmem as [z [Hz Hxz]].
    apply existsb_exists. exists z. split; auto.
    apply py_eq_hashable_trans with x; auto.
    rewrite forallb_forall in Hs. now apply Hs.
  - exists (s ++ [x]). repeat split.
    + rewrite forallb_app, Hs. simpl. now rewrite Hx.
    + intros y Hy. rewrite set_mem_app. unfold set_mem at 2. simpl.
      now rewrite orb_false_r.
Qed.

Lemma set_add_all (xs : list json) : forall s,
  forallb hashable s = true -> forallb hashable xs = true ->
  exists s', for_each xs set_add s = Ok s' /\ forallb hashable s' = true /\
    forall y, hashable y = true ->
      set_mem y s' = set_mem y s || existsb (py_eq y) xs.
Proof.
  induction xs as [|x xs IH]; intros s Hs Hxs; simpl in *.
  - exists s. repeat split; auto. intros. now rewrite orb_false_r.
  - apply andb_prop in Hxs. destruct Hxs as [Hx Hxs].
    destruct (set_add_spec s x Hs Hx) as [s1 [E1 [H1 M1]]].
    destruct (IH s1 H1 Hxs) as [s2 [E2 [H2 M2]]].
    exists s2. rewrite E1. simpl. repeat split; auto.
    intros y Hy. rewrite M2, M1 by assumption. now rewrite orb_assoc.
Qed.

(* ================================================================== *)
(** * The fallback of the diet-balance agent *)
(* ================================================================== *)

(** The loop over the history collects the identifiers of its entries. *)
Lemma collect_weeks (weeks : list json) : forall s,
  forallb hashable s = true -> forallb wf_week weeks = true ->
  exists s',
    for_each weeks
      (fun recent_ids week =>
         bind (py_get week "recipes" (JArr []))
              (fun recipes => set_update recent_ids recipes)) s = Ok s'
    /\ forallb hashable s' = true
    /\ forall y, hashable y = true ->
         set_mem y s' =
         set_mem y s || existsb (fun w => existsb (py_eq y) (week_ids w)) weeks.
Proof.
  induction weeks as [|w weeks IH]; intros s Hs Hw; simpl in *.
  - exists s. repeat split; auto. intros. now rewrite orb_false_r.
  - apply andb_prop in Hw. destruct Hw as [Hw Hws].
    unfold wf_week in Hw. unfold week_ids.
    destruct (py_get w "recipes" (JArr [])) as [recipes|] eqn:Er; [|discriminate].
    simpl. unfold set_update.
    destruct (py_iter recipes) as [rs|] eqn:Ei; [|discriminate]. simpl.
    destruct (set_add_all rs s Hs Hw) as [s1 [E1 [H1 M1]]].
    destruct (IH s1 H1 Hws) as [s2 [E2 [H2 M2]]].
    exists s2. rewrite E1. simpl. repeat split; auto.
    intros y Hy. rewrite M2, M1 by assumption. now rewrite orb_assoc.
Qed.

Lemma recent_recipe_ids_spec (weeks : list json) :
  forallb wf_week (last_four weeks) = true ->
  exists ids, BalancedDiet.recent_recipe_ids (JArr weeks) = Ok ids /\
    forall y, hashable y = true -> set_mem y ids = used_recently weeks y.
Proof.
  intros Hw. unfold BalancedDiet.recent_recipe_ids. simpl.
  destruct (collect_weeks (last_four weeks) [] eq_refl Hw) as [ids [E [_ M]]].
  exists ids. split; [exact E|]. intros y Hy. now rewrite M.
Qed.

Lemma check_meal_spec (ids : list json) (weeks : list json) (meal : json)
    (acc : list json) :
  (forall y, hashable y = true -> set_mem y ids = used_recently weeks y) ->
  wf_meal meal = true ->
  BalancedDiet.check_meal ids acc meal =
  Ok (if used_recently weeks (meal_id meal)
      then acc ++ [replacement_for meal] else acc).
Proof.
  intros M Hm. unfold wf_meal in Hm.
  unfold BalancedDiet.check_meal, replacement_for, meal_id, meal_recipe.
  destruct (py_get meal "recipe" (JObj [])) as [recipe|] eqn:Er; [|discriminate].
  simpl. destruct (py_get recipe "id" JNull) as [id|] eqn:Ei; [|discriminate].
  simpl. unfold py_in_set. rewrite Hm, (M id Hm). simpl.
  destruct (used_recently weeks id); [|reflexivity].
  destruct meal; try discriminate. destruct recipe; try discriminate.
  simpl in *. unfold BalancedDiet.replacement_entry. simpl.
  injection Ei as <-. reflexivity.
Qed.

Lemma find_replacements_spec (ids weeks meals : list json) :
  (forall y, hashable y = true -> set_mem y ids = used_recently weeks y) ->
  forallb wf_meal meals = true ->
  forall acc,
    for_each meals (BalancedDiet.check_meal ids) acc =
    Ok (acc ++ map replacement_for
                 (filter (fun meal => used_recently weeks (meal_id meal)) meals)).
Proof.
  intros M. induction meals as [|meal meals IH]; intros Hm acc; simpl in *.
  - now rewrite app_nil_r.
  - apply andb_prop in Hm. destruct Hm as [Hmeal Hm].
    rewrite (check_meal_spec ids weeks meal acc M Hmeal). simpl.
    rewrite (IH Hm).
    destruct (used_recently weeks (meal_id meal)); simpl; [|reflexivity].
    now rewrite <- app_assoc.
Qed.

(** The replacement record of a well-formed plan entry. *)
Lemma replacement_for_shape (meal : json) :
  wf_meal meal = true ->
  field (replacement_for meal) "originalRecipeId" = meal_id meal /\
  field (replacement_for meal) "newRecipeId" = JStr "replacement_needed" /\
  field (replacement_for meal) "reason" = JStr "Recipe used in past 4 weeks".
Proof.
  unfold wf_meal, replacement_for, meal_id, meal_recipe. intros Hm.
  destruct (py_get meal "recipe" (JObj [])) as [recipe|] eqn:Er; [|discriminate].
  destruct (py_get recipe "id" JNull) as [id|] eqn:Ei; [|discriminate].
  destruct meal; try discriminate. destruct recipe; try discriminate.
  unfold BalancedDiet.replacement_entry. simpl in *.
  injection Ei as <-. repeat split.
Qed.

(** On a well-formed request the fallback returns, and what it returns. *)
Lemma create_fallback_response_wf (input_data : json) (error_msg : string)
    (meals weeks : list json) :
  py_get input_data "weeklyPlan" (JArr []) = Ok (JArr meals) ->
  py_get input_data "history" (JArr []) = Ok (JArr weeks) ->
  forallb wf_meal meals = true ->
  forallb wf_week (last_four weeks) = true ->
  BalancedDiet.create_fallback_response input_data error_msg =
  Ok (BalancedDiet.fallback_result (JArr meals)
        (map replacement_for
           (filter (fun meal => used_recently weeks (meal_id meal)) meals))
        error_msg).
Proof.
  intros Hp Hh Hm Hw. unfold BalancedDiet.create_fallback_response.
  rewrite Hp, Hh. cbn [bind].
  destruct (recent_recipe_ids_spec weeks Hw) as [ids [E M]].
  rewrite E. cbn [bind]. unfold BalancedDiet.find_replacements.
  cbn [py_iter bind].
  rewrite (find_replacements_spec ids weeks meals M Hm []). reflexivity.
Qed.

Lemma fallback_result_count (weekly_plan : json) (replacements : list json)
    (error_msg : string) :
  field (field (BalancedDiet.fallback_result weekly_plan replacements error_msg)
           "metrics") "replacementsCount"
  = JInt (Z.of_nat (length replacements)).
Proof. reflexivity. Qed.

(** C7.  In the diet-balance fallback, over a request whose plan entries
    and history entries are well formed, the replacements are the records
    of exactly those plan entries whose recipe id occurs in one of the last
    four history entries (in all of them when the history is shorter), in
    plan order; each record gives the reason "Recipe used in past 4 weeks";
    and [replacementsCount] is the number of flagged entries. *)
Theorem fallback_flags_recently_used (input_data : json) (error_msg : string)
    (meals weeks : list json) :
  py_get input_data "weeklyPlan" (JArr []) = Ok (JArr meals) ->
  py_get input_data "history" (JArr []) = Ok (JArr weeks) ->
  forallb wf_meal meals = true ->
  forallb wf_week (last_four weeks) = true ->
  let flagged :=
    filter (fun meal => used_recently weeks (meal_id meal)) meals in
  exists r,
    BalancedDiet.create_fallback_response input_data error_msg = Ok r /\
    field r "replacements" = JArr (map replacement_for flagged) /\
    (forall meal, In meal meals ->
       (In (replacement_for meal) (map replacement_for flagged) <->
        used_recently weeks (meal_id meal) = true)) /\
    (forall meal, In meal flagged ->
       field (replacement_for meal) "reason"
       = JStr "Recipe used in past 4 weeks") /\
    field (field r "metrics") "replacementsCount"
    = JInt (Z.of_nat (length flagged)).
Proof.
  intros Hp Hh Hm Hw flagged.
  eexists. split; [apply (create_fallback_response_wf _ _ _ _ Hp Hh Hm Hw)|].
  assert (Hwf : forall meal, In meal meals -> wf_meal meal = true)
    by (now apply forallb_forall).
  split; [reflexivity|]. split; [|split].
  - intros meal Hin. split.
    + intros Hrep. apply in_map_iff in Hrep.
      destruct Hrep as [meal' [Heq Hin']].
      apply filter_In in Hin'. destruct Hin' as [Hin' Hused].
      destruct (replacement_for_shape meal (Hwf meal Hin)) as [Hid _].
      destruct (replacement_for_shape meal' (Hwf meal' Hin')) as [Hid' _].
      rewrite <- Hid, <- Heq, Hid'. exact Hused.
    + intros Hused. apply in_map. apply filter_In. now split.
  - intros meal Hin. apply filter_In in Hin. destruct Hin as [Hin _].
    now destruct (replacement_for_shape meal (Hwf meal Hin)) as [_ [_ Hr]].
  - rewrite fallback_result_count. now rewrite length_map.
Qed.

(** C10.  Whatever the request and the error message, the metrics of a
    diet-balance fallback are constants apart from the two counts:
    [proteinRatio] 0.25, [carbsRatio] 0.50, [fatRatio] 0.25, [varietyScore]
    "unknown", [cuisineDiversity] empty, [replacementsCount] and
    [repeatedRecipes] both the number of replacements. *)
Theorem fallback_metrics_fixed (input_data : json) (error_msg : string)
    (r : json) :
  BalancedDiet.create_fallback_response input_data error_msg = Ok r ->
  exists replacements,
    field r "replacements" = JArr replacements /\
    field r "metrics" =
    JObj [("proteinRatio", JFloat 0.25);
          ("carbsRatio", JFloat 0.50);
          ("fatRatio", JFloat 0.25);
          ("replacementsCount", JInt (Z.of_nat (length replacements)));
          ("varietyScore", JStr "unknown");
          ("cuisineDiversity", JArr []);
          ("repeatedRecipes", JInt (Z.of_nat (length replacements)))].
Proof.
  unfold BalancedDiet.create_fallback_response. intros Hr.
  destruct (py_get input_data "weeklyPlan" (JArr [])) as [plan|]; [|discriminate].
  simpl in Hr.
  destruct (py_get input_data "history" (JArr [])) as [history|]; [|discriminate].
  simpl in Hr.
  destruct (BalancedDiet.recent_recipe_ids history) as [ids|]; [|discriminate].
  simpl in Hr.
  destruct (BalancedDiet.find_replacements ids plan) as [reps|]; [|discriminate].
  simpl in Hr. injection Hr as <-. exists reps. split; reflexivity.
Qed.

(* ================================================================== *)
(** * The two pipelines and the backend *)
(* ================================================================== *)

Section Pipelines.
Context `{Runtime}.
Import Sanitize.

Lemma filter_invoke_snoc (tr : list event) (ev : event) :
  filter is_invoke (tr ++ [ev]) =
  filter is_invoke tr ++ (if is_invoke ev then [ev] else []).
Proof. rewrite filter_app. simpl. now destruct (is_invoke ev). Qed.

(** The [except] clauses of the diet-balance agent write to the error
    stream and call nothing. *)
Lemma except_clauses_no_call (input_data : json) (response_text : option string)
    (e : exn) (tr : list event) :
  filter is_invoke
    (snd (BalancedDiet.except_clauses input_data response_text e tr))
  = filter is_invoke tr.
Proof.
  unfold BalancedDiet.except_clauses, mbind, emit, lift, ret, raise.
  destruct (is_JSONDecodeError e); [destruct response_text|]; simpl;
    repeat rewrite filter_invoke_snoc; simpl; now repeat rewrite app_nil_r.
Qed.

(** With a bound [response_text] both [except] clauses return the fallback
    computed from the request. *)
Lemma except_clauses_fallback (input_data : json) (response_text : string)
    (e : exn) (tr : list event) :
  fst (BalancedDiet.except_clauses input_data (Some response_text) e tr)
  = BalancedDiet.create_fallback_response input_data (str_exn e).
Proof.
  unfold BalancedDiet.except_clauses, mbind, emit, lift, ret.
  now destruct (is_JSONDecodeError e).
Qed.

(** The first part of a run: the prompt is built, then the backend is
    called once. *)
Lemma diet_request_run (input_data : json) (tr : list event) :
  BalancedDiet.request input_data tr =
  match BalancedDiet.build_user_prompt input_data with
  | Raise e => (Raise e, tr)
  | Ok p =>
      match generate (invocations tr) p with
      | Ok text => (Ok (remove_fence (strip text)), tr ++ [Invoke p])
      | Raise e => (Raise e, tr ++ [Invoke p])
      end
  end.
Proof.
  unfold BalancedDiet.request, mbind, lift, invoke, ret.
  destruct (BalancedDiet.build_user_prompt input_data) as [p|e]; [|reflexivity].
  now destruct (generate (invocations tr) p).
Qed.

Lemma waste_request_run (input_data : json) (tr : list event) :
  WasteReduction.request input_data tr =
  match WasteReduction.build_user_prompt input_data with
  | Raise e => (Raise e, tr)
  | Ok p =>
      match generate (invocations tr) p with
      | Ok text => (Ok (remove_fence (strip text)), tr ++ [Invoke p])
      | Raise e => (Raise e, tr ++ [Invoke p])
      end
  end.
Proof.
  unfold WasteReduction.request, mbind, lift, invoke, ret.
  destruct (WasteReduction.build_user_prompt input_data) as [p|e];
    [|reflexivity].
  now destruct (generate (invocations tr) p).
Qed.

(** Whatever happens, one run calls the backend at most once. *)
Lemma analyze_diet_balance_single_call (input_data : json) (tr : list event) :
  invocations (snd (BalancedDiet.analyze_diet_balance input_data tr))
  <= invocations tr + 1.
Proof.
  unfold BalancedDiet.analyze_diet_balance. rewrite diet_request_run.
  unfold invocations at 1 3.
  destruct (BalancedDiet.build_user_prompt input_data) as [p|e].
  - destruct (generate (invocations tr) p) as [text|e].
    + destruct (BalancedDiet.digest input_data (remove_fence (strip text)))
        as [r|e]; [cbn [snd]|rewrite except_clauses_no_call];
        rewrite filter_invoke_snoc, length_app; simpl; lia.
    + rewrite except_clauses_no_call, filter_invoke_snoc, length_app.
      simpl. lia.
  - rewrite except_clauses_no_call. lia.
Qed.

(** C8.  When the backend's reply arrives and then fails parsing or
    validation, the run holds exactly one backend call, the one that
    produced the reply, and its result is the fallback computed from the
    request alone. *)
Theorem no_second_backend_call (input_data : json) (tr : list event)
    (user_prompt : prompt) (text : string) (e : exn) :
  BalancedDiet.build_user_prompt input_data = Ok user_prompt ->
  generate (invocations tr) user_prompt = Ok text ->
  BalancedDiet.digest input_data (remove_fence (strip text)) = Raise e ->
  fst (BalancedDiet.analyze_diet_balance input_data tr)
  = BalancedDiet.create_fallback_response input_data (str_exn e) /\
  filter is_invoke (snd (BalancedDiet.analyze_diet_balance input_data tr))
  = filter is_invoke tr ++ [Invoke user_prompt] /\
  invocations (snd (BalancedDiet.analyze_diet_balance input_data tr))
  = invocations tr + 1.
Proof.
  intros Hp Hg Hd.
  unfold BalancedDiet.analyze_diet_balance. rewrite diet_request_run.
  rewrite Hp, Hg, Hd. unfold invocations.
  rewrite except_clauses_fallback, except_clauses_no_call.
  rewrite filter_invoke_snoc, length_app. simpl. auto.
Qed.

(** ** What a parsed payload goes through *)

Lemma put_keeps (k k' : string) (v v' : json) (o : list (string * json)) :
  assoc k' o = None -> assoc k o = Some v -> assoc k (put k' v' o) = Some v.
Proof.
  induction o as [|[k0 v0] o IH]; simpl; [discriminate|].
  destruct (String.eqb k' k0) eqn:E'; [discriminate|].
  intros Hn Hk. simpl. destruct (String.eqb k k0); auto.
Qed.

(** A required key that is there is left alone; one that is not is added
    after the others. *)
Lemma fill_step (key : string) (o : list (string * json)) (d : json) :
  exists o',
    (present <- py_contains key (JObj o) ;;
     if present then Ok (JObj o)
     else v <- Ok d ;; py_setitem (JObj o) key v) = Ok (JObj o')
    /\ forall k v, assoc k o = Some v -> assoc k o' = Some v.
Proof.
  simpl. destruct (assoc key o) eqn:E.
  - exists o. auto.
  - exists (put key d o). split; [reflexivity|].
    intros k v Hk. now apply put_keeps.
Qed.

Lemma diet_prompt_needs_dict (input_data : json) (p : prompt) :
  BalancedDiet.build_user_prompt input_data = Ok p ->
  exists kvs, input_data = JObj kvs.
Proof. destruct input_data; try discriminate. eauto. Qed.

Lemma waste_prompt_needs_dict (input_data : json) (p : prompt) :
  WasteReduction.build_user_prompt input_data = Ok p ->
  exists kvs, input_data = JObj kvs.
Proof. destruct input_data; try discriminate. eauto. Qed.

Lemma diet_fill_required_dict (kvs o : list (string * json)) :
  exists o',
    BalancedDiet.fill_required (JObj kvs) (JObj o) = Ok (JObj o') /\
    forall k v, assoc k o = Some v -> assoc k o' = Some v.
Proof.
  unfold BalancedDiet.fill_required, BalancedDiet.required_keys.
  cbn [for_each].
  destruct (fill_step "updatedWeeklyPlan" o
              (match assoc "weeklyPlan" kvs with
               | Some v => v | None => JArr [] end)) as [o1 [E1 K1]].
  destruct (fill_step "replacements" o1 (JArr [])) as [o2 [E2 K2]].
  destruct (fill_step "metrics" o2 (JObj [])) as [o3 [E3 K3]].
  exists o3. split; [|now auto].
  change (BalancedDiet.default_for (JObj kvs) "updatedWeeklyPlan")
    with (Ok (match assoc "weeklyPlan" kvs with
              | Some v => v | None => JArr [] end)).
  rewrite E1. cbn [bind].
  change (BalancedDiet.default_for (JObj kvs) "replacements")
    with (Ok (JArr [])).
  rewrite E2. cbn [bind].
  change (BalancedDiet.default_for (JObj kvs) "metrics") with (Ok (JObj [])).
  rewrite E3. reflexivity.
Qed.

Lemma waste_fill_required_dict (o : list (string * json)) :
  exists o',
    WasteReduction.fill_required (JObj o) = Ok (JObj o') /\
    forall k v, assoc k o = Some v -> assoc k o' = Some v.
Proof.
  unfold WasteReduction.fill_required, WasteReduction.required_keys.
  cbn [for_each].
  destruct (fill_step "optimizedRecipes" o (JArr [])) as [o1 [E1 K1]].
  destruct (fill_step "shoppingList" o1 (JArr [])) as [o2 [E2 K2]].
  destruct (fill_step "substitutionSuggestions" o2 (JArr [])) as [o3 [E3 K3]].
  exists o3. split; [|now auto].
  cbn [bind] in E1, E2, E3.
  rewrite E1. cbn [bind]. rewrite E2. cbn [bind]. rewrite E3. reflexivity.
Qed.

(** C1, as the code has it.  Neither pipeline checks the backend's payload
    against the intolerances of the profile: when the reply parses to a JSON
    object, the result is that object with every one of its fields
    unchanged (missing required keys are added), whatever the profile
    excludes. *)
Theorem payload_returned_unchecked (input_data : json) (tr : list event)
    (text : string) (o : list (string * json)) :
  json_loads (remove_fence (strip text)) = Ok (JObj o) ->
  (forall p,
     BalancedDiet.build_user_prompt input_data = Ok p ->
     generate (invocations tr) p = Ok text ->
     exists o',
       fst (BalancedDiet.analyze_diet_balance input_data tr) = Ok (JObj o') /\
       forall k v, assoc k o = Some v -> assoc k o' = Some v) /\
  (forall p,
     WasteReduction.build_user_prompt input_data = Ok p ->
     generate (invocations tr) p = Ok text ->
     exists o',
       fst (WasteReduction.analyze_waste_reduction input_data tr)
       = Ok (JObj o') /\
       forall k v, assoc k o = Some v -> assoc k o' = Some v).
Proof.
  intros Hl. split; intros p Hp Hg.
  - destruct (diet_prompt_needs_dict _ _ Hp) as [kvs ->].
    destruct (diet_fill_required_dict kvs o) as [o' [E K]].
    exists o'. split; [|exact K].
    unfold BalancedDiet.analyze_diet_balance. rewrite diet_request_run.
    rewrite Hp, Hg. unfold BalancedDiet.digest.
    rewrite Hl. cbn [bind]. now rewrite E.
  - destruct (waste_prompt_needs_dict _ _ Hp) as [kvs ->].
    destruct (waste_fill_required_dict o) as [o' [E K]].
    exists o'. split; [|exact K].
    unfold WasteReduction.analyze_waste_reduction. rewrite waste_request_run.
    rewrite Hp, Hg. unfold WasteReduction.digest.
    rewrite Hl. cbn [bind]. now rewrite E.
Qed.

End Pipelines.

(* ================================================================== *)
(** * The weekly planner: cook-time ceiling *)
(* ================================================================== *)

Section Planner.
Context `{Runtime}.
Import Sanitize.

(** A number that exceeds a non-negative number is truthy. *)
Lemma positive_truthy (v : json) (x : Q) :
  num_of v = Some x -> (0 < x)%Q -> truthy v = true.
Proof.
  destruct v; simpl; try discriminate; intros [= <-] Hx.
  - destruct b; [reflexivity|]. now apply Qlt_irrefl in Hx.
  - destruct (Z.eqb_spec n 0) as [->|]; [|reflexivity].
    now apply Qlt_irrefl in Hx.
  - destruct (Qeq_bool q 0) eqn:E; [|reflexivity].
    apply Qeq_bool_iff in E. rewrite E in Hx. now apply Qlt_irrefl in Hx.
Qed.

(** [>] on two numbers compares their values. *)
Lemma py_gt_numbers (a b : json) (x y : Q) :
  num_of a = Some x -> num_of b = Some y ->
  py_gt a b = Ok (negb (Qle_bool x y)).
Proof.
  destruct a, b; simpl; try discriminate; intros [= <-] [= <-]; reflexivity.
Qed.

Lemma exceeds (x y : Q) : (y < x)%Q -> negb (Qle_bool x y) = true.
Proof.
  intros Hlt. destruct (Qle_bool x y) eqn:E; [|reflexivity].
  apply Qle_bool_iff in E. exfalso. now apply (Qlt_not_le y x).
Qed.

(** A day without a configured maximum has 30. *)
Lemma max_cook_mins_default (prefs : list (string * json)) (day : string) :
  assoc day prefs = None ->
  MealPlanner.max_cook_mins_of (JObj prefs) day = Ok (JInt 30).
Proof. unfold MealPlanner.max_cook_mins_of. simpl. now intros ->. Qed.

(** The loop prints the warnings of its days, in order, and goes on. *)
Lemma check_cook_times_run (recipe_map : list (json * json))
    (weekday_prefs : json) (items : list (string * json)) :
  comparable recipe_map weekday_prefs items ->
  forall tr,
    MealPlanner.check_cook_times recipe_map weekday_prefs items tr =
    (Ok tt, tr ++ map Stdout (cook_warnings recipe_map weekday_prefs items)).
Proof.
  unfold comparable.
  induction items as [|item items IH]; intros Hc tr.
  - simpl. now rewrite app_nil_r.
  - destruct (Hc item (or_introl eq_refl)) as [line Hline].
    assert (Hrest : forall i, In i items ->
              exists l, MealPlanner.check_cook_time recipe_map weekday_prefs i
                        = Ok l)
      by (intros i Hi; apply Hc; now right).
    cbn [MealPlanner.check_cook_times cook_warnings flat_map].
    unfold mbind, lift at 1. rewrite Hline.
    destruct line as [l|]; unfold emit, ret; rewrite (IH Hrest).
    + cbn [map app]. now rewrite <- app_assoc.
    + reflexivity.
Qed.

(** When the earlier checks accept the plan, the parsed plan is what
    [validate_plan] returns, after the warnings. *)
Lemma validate_plan_accepts (plan_text : string) (recipes weekday_prefs : json)
    (tr : list event) (plan : json) (items : list (string * json))
    (recipe_map : list (json * json)) :
  json_loads (strip_markdown (strip plan_text)) = Ok plan ->
  accepted plan recipes items recipe_map ->
  comparable recipe_map weekday_prefs items ->
  MealPlanner.validate_plan plan_text recipes weekday_prefs tr =
  (Ok plan, tr ++ map Stdout (cook_warnings recipe_map weekday_prefs items)).
Proof.
  intros Hl [days [ids [Hs [Hi [Hit [Hc Hm]]]]]] Hcmp.
  unfold MealPlanner.validate_plan, MealPlanner.reraise_decode_error,
    mbind, lift, ret.
  rewrite Hl, Hs, Hi, Hit, Hc, Hm.
  now rewrite (check_cook_times_run _ _ _ Hcmp).
Qed.

(** The comparison of the loop is defined on every pair of numbers,
    whichever is the larger: days whose data are numbers never make the
    loop raise. *)
Lemma timed_comparable (recipe_map : list (json * json))
    (weekday_prefs : json) (items : list (string * json)) :
  forallb (timed recipe_map weekday_prefs) items = true ->
  comparable recipe_map weekday_prefs items.
Proof.
  intros Hall [day rid] Hin.
  pose proof (proj1 (forallb_forall _ _) Hall _ Hin) as Ht.
  unfold timed in Ht. cbn [fst snd] in Ht.
  unfold MealPlanner.check_cook_time.
  destruct (MealPlanner.map_get recipe_map rid) as [recipe|];
    [|discriminate].
  cbn [bind].
  destruct (MealPlanner.cook_time_of recipe) as [ct|]; [|discriminate].
  cbn [bind].
  destruct (MealPlanner.max_cook_mins_of weekday_prefs day) as [mx|];
    [|discriminate].
  cbn [bind].
  apply andb_true_iff in Ht. destruct Ht as [Hc Hm]. unfold is_number in *.
  destruct (num_of ct) as [c|] eqn:Ec; [|discriminate].
  destruct (num_of mx) as [m|] eqn:Em; [|discriminate].
  rewrite (py_gt_numbers _ _ _ _ Ec Em). cbn [bind]. eexists. reflexivity.
Qed.

(** C6.  Take a plan that passes the structural checks and in which every
    day's recipe has a number for its cook time and every day a number for
    its maximum (30 when the day has none configured).  If some day's
    recipe has a [cookTimeMins] that exceeds that day's maximum, then
    [validate_plan] does not raise, whatever the cook times of the other
    days are: it returns the plan as parsed, it prints nothing but lines on
    the standard output, and among them is the line
    "Warning: <day> recipe exceeds maxCookMins (<cook time> > <maximum>)"
    for that day. *)
Theorem over_time_is_warned_not_rejected (plan_text : string)
    (recipes weekday_prefs : json) (tr : list event) (plan : json)
    (items : list (string * json)) (recipe_map : list (json * json))
    (day : string) (recipe_id recipe cook_time max_cook_mins : json)
    (c m : Q) :
  json_loads (strip_markdown (strip plan_text)) = Ok plan ->
  accepted plan recipes items recipe_map ->
  forallb (timed recipe_map weekday_prefs) items = true ->
  In (day, recipe_id) items ->
  MealPlanner.map_get recipe_map recipe_id = Ok recipe ->
  py_get recipe "cookTimeMins" JNull = Ok cook_time ->
  MealPlanner.max_cook_mins_of weekday_prefs day = Ok max_cook_mins ->
  num_of cook_time = Some c ->
  num_of max_cook_mins = Some m ->
  (0 <= m)%Q -> (m < c)%Q ->
  exists printed,
    MealPlanner.validate_plan plan_text recipes weekday_prefs tr
    = (Ok plan, tr ++ map Stdout printed) /\
    In ("Warning: " ++ day ++ " recipe exceeds maxCookMins ("
        ++ py_str cook_time ++ " > " ++ py_str max_cook_mins ++ ")")%string
       printed.
Proof.
  intros Hl Hacc Htimed Hin Hget Hcook Hmax Hc Hm Hm0 Hlt.
  exists (cook_warnings recipe_map weekday_prefs items).
  split.
  { apply validate_plan_accepts; [exact Hl|exact Hacc|].
    now apply timed_comparable. }
  unfold cook_warnings. apply in_flat_map. exists (day, recipe_id).
  split; [exact Hin|].
  unfold MealPlanner.check_cook_time, MealPlanner.cook_time_of.
  rewrite Hget. cbn [bind]. rewrite Hcook. cbn [bind].
  rewrite (positive_truthy cook_time c Hc (Qle_lt_trans _ _ _ Hm0 Hlt)).
  cbn [bind]. rewrite Hmax. cbn [bind].
  rewrite (py_gt_numbers _ _ _ _ Hc Hm), (exceeds _ _ Hlt). cbn [bind].
  unfold MealPlanner.warning. now left.
Qed.

End Planner.

(* ================================================================== *)
(** * The validators: what a schema violation reports *)
(* ================================================================== *)

Section Validators.
Context `{Runtime}.
Import Sanitize.

(** A loop that raises at the first absent field stops there. *)
Lemma first_absent_raises (report : string -> exn) (fields : list string)
    (o : list (string * json)) :
  for_each fields
    (fun _ field =>
       present <- py_contains field (JObj o) ;;
       if present then Ok tt else Raise (report field))
    tt
  = match first_missing fields o with
    | Some f => Raise (report f)
    | None => Ok tt
    end.
Proof.
  unfold first_missing.
  induction fields as [|f fields IH]; [reflexivity|].
  cbn [for_each find py_contains bind].
  destruct (assoc f o); [exact IH|reflexivity].
Qed.

(** The recipe validator reports the first missing field only. *)
Lemma recipe_reports_first (response_text : string)
    (o : list (string * json)) (f : string) :
  json_loads (strip_markdown (strip response_text)) = Ok (JObj o) ->
  first_missing RecipeGenerator.required o = Some f ->
  RecipeGenerator.validate_and_parse_recipe response_text
  = Raise (ValueError ("Missing required field: " ++ f)%string).
Proof.
  intros Hl Hf.
  unfold RecipeGenerator.validate_and_parse_recipe,
    RecipeGenerator.check_required.
  rewrite Hl. cbn [bind].
  rewrite (first_absent_raises
             (fun field => ValueError ("Missing required field: " ++ field)%string)).
  now rewrite Hf.
Qed.

(** The plan validator names no field when [planId] or [days] is missing,
    and otherwise the first missing day only. *)
Lemma plan_reports_first (plan_text : string) (recipes weekday_prefs : json)
    (tr : list event) (o : list (string * json)) :
  json_loads (strip_markdown (strip plan_text)) = Ok (JObj o) ->
  (assoc "planId" o = None \/ assoc "days" o = None ->
   MealPlanner.validate_plan plan_text recipes weekday_prefs tr
   = (Raise (ValueError "Missing required fields: planId or days"), tr)) /\
  (forall id d day,
     assoc "planId" o = Some id ->
     assoc "days" o = Some (JObj d) ->
     first_missing MealPlanner.required_days d = Some day ->
     MealPlanner.validate_plan plan_text recipes weekday_prefs tr
     = (Raise (ValueError ("Missing day: " ++ day)%string), tr)).
Proof.
  intros Hl. split.
  - intros Hmiss.
    unfold MealPlanner.validate_plan, MealPlanner.reraise_decode_error,
      mbind, lift.
    rewrite Hl. unfold MealPlanner.check_structure. cbn [py_contains bind].
    destruct (assoc "planId" o) eqn:Eid; [|reflexivity].
    destruct Hmiss as [Hx|Hd]; [discriminate|]. now rewrite Hd.
  - intros id d day Hid Hd Hday.
    unfold MealPlanner.validate_plan, MealPlanner.reraise_decode_error,
      mbind, lift.
    rewrite Hl. unfold MealPlanner.check_structure.
    cbn [py_contains bind py_getitem]. rewrite Hid, Hd. cbn [negb bind].
    rewrite (first_absent_raises
               (fun day => ValueError ("Missing day: " ++ day)%string)).
    now rewrite Hday.
Qed.

Lemma check_type_dict (o : list (string * json)) (name : string)
    (is_type : json -> bool) (msg : string) :
  FeedbackCompactor.check_type (JObj o) name is_type msg
  = if mistyped o (name, is_type, msg) then Raise (ValueError msg) else Ok tt.
Proof.
  unfold FeedbackCompactor.check_type, mistyped.
  cbn [py_contains py_getitem bind].
  destruct (assoc name o) as [v|]; [|reflexivity].
  cbn [bind]. now destruct (is_type v).
Qed.

(** The feedback validator reports the first mistyped field only. *)
Lemma feedback_reports_first (response_text : string)
    (o : list (string * json)) (msg : string) :
  json_loads (strip_markdown (strip response_text)) = Ok (JObj o) ->
  first_mistyped o = Some msg ->
  FeedbackCompactor.validate_and_parse_feedback response_text
  = Raise (ValueError msg).
Proof.
  intros Hl Hf.
  unfold FeedbackCompactor.validate_and_parse_feedback,
    FeedbackCompactor.check_types.
  rewrite Hl. cbn [bind]. repeat rewrite check_type_dict.
  unfold first_mistyped, typed_fields in Hf. cbn [find] in Hf.
  repeat match type of Hf with
         | context [if mistyped o ?s then _ else _] =>
             destruct (mistyped o s)
         end;
    cbn [option_map snd bind] in *; try discriminate;
    now injection Hf as <-.
Qed.

(** C4, as the code has it.  When the parsed payload is a JSON object that
    misses or mistypes fields, the report is about the first of them in the
    validator's checking order and says nothing of the others: the recipe
    validator names the first missing field, the plan validator gives one
    fixed message when [planId] or [days] is missing and else names the
    first missing day, the feedback validator names the first mistyped
    field. *)
Theorem violation_reports_first_only (text : string)
    (o : list (string * json)) :
  json_loads (strip_markdown (strip text)) = Ok (JObj o) ->
  (forall f, first_missing RecipeGenerator.required o = Some f ->
     RecipeGenerator.validate_and_parse_recipe text
     = Raise (ValueError ("Missing required field: " ++ f)%string)) /\
  (forall recipes weekday_prefs tr,
     (assoc "planId" o = None \/ assoc "days" o = None ->
      MealPlanner.validate_plan text recipes weekday_prefs tr
      = (Raise (ValueError "Missing required fields: planId or days"), tr)) /\
     (forall id d day,
        assoc "planId" o = Some id ->
        assoc "days" o = Some (JObj d) ->
        first_missing MealPlanner.required_days d = Some day ->
        MealPlanner.validate_plan text recipes weekday_prefs tr
        = (Raise (ValueError ("Missing day: " ++ day)%string), tr))) /\
  (forall msg, first_mistyped o = Some msg ->
     FeedbackCompactor.validate_and_parse_feedback text
     = Raise (ValueError msg)).
Proof.
  intros Hl. split; [|split].
  - intros f. now apply recipe_reports_first.
  - intros recipes weekday_prefs tr. now apply plan_reports_first.
  - intros msg. now apply feedback_reports_first.
Qed.

End Validators.

(* ================================================================== *)
(** * The shopping-list normaliser *)
(* ================================================================== *)

Section Shopping.
Context `{Runtime}.

(** The result of a run is read off the backend's reply. *)
Lemma normalize_shopping_list_run (ingredients_data : json)
    (tr : list event) (reply : string) :
  generate (invocations tr) (ShoppingNormalizer.build_prompt ingredients_data)
  = Ok reply ->
  fst (ShoppingNormalizer.normalize_shopping_list ingredients_data tr)
  = match json_loads reply with
    | Ok normalized_list => Ok normalized_list
    | Raise (JSONDecodeError _) => Ok (JArr [])
    | Raise e => Raise e
    end.
Proof.
  intros Hg.
  unfold ShoppingNormalizer.normalize_shopping_list, mbind, invoke.
  rewrite Hg.
  destruct (json_loads reply) as [v|e]; [reflexivity|].
  now destruct e.
Qed.

(** C9, as the code has it.  The normaliser aggregates nothing itself: its
    result is the backend's reply, parsed (the empty list when the reply is
    not JSON).  Two ingredient lists that are permutations of each other
    yield the same consolidated list whenever the backend gives the same
    reply to both prompts, and that list is what the reply says. *)
Theorem normalization_follows_backend (xs ys : list json) (tr : list event)
    (reply : string) :
  Permutation xs ys ->
  generate (invocations tr) (ShoppingNormalizer.build_prompt (JArr xs))
  = Ok reply ->
  generate (invocations tr) (ShoppingNormalizer.build_prompt (JArr ys))
  = Ok reply ->
  fst (ShoppingNormalizer.normalize_shopping_list (JArr xs) tr)
  = fst (ShoppingNormalizer.normalize_shopping_list (JArr ys) tr) /\
  (forall consolidated,
     json_loads reply = Ok consolidated ->
     fst (ShoppingNormalizer.normalize_shopping_list (JArr xs) tr)
     = Ok consolidated).
Proof.
  intros _ Hx Hy.
  rewrite (normalize_shopping_list_run _ _ _ Hx),
    (normalize_shopping_list_run _ _ _ Hy).
  split; [reflexivity|]. now intros v ->.
Qed.

End Shopping.

(* ================================================================== *)
(** * Concrete runs *)
(* ================================================================== *)

Import Samples Sanitize.

(** C1 fails as stated: the profile excludes peanuts, the backend suggests
    a recipe called "Peanuts", and the diet-balance pipeline returns the
    suggestion as it came. *)
Lemma intolerance_passes_through :
  field (field diet_request "userProfile") "intolerances"
  = JArr [JStr "peanuts"] /\
  fst (@BalancedDiet.analyze_diet_balance (says (sample_dumps peanut_plan))
         diet_request [])
  = Ok peanut_plan /\
  names_intolerance ["peanuts"] peanut_plan = true.
Proof. repeat split; vm_compute; reflexivity. Qed.

Lemma payload_returned_unchecked_witness :
  @json_loads (says (sample_dumps peanut_plan))
    (remove_fence (strip (sample_dumps peanut_plan)))
  = Ok peanut_plan /\
  exists o',
    fst (@BalancedDiet.analyze_diet_balance (says (sample_dumps peanut_plan))
           diet_request [])
    = Ok (JObj o') /\
    assoc "updatedWeeklyPlan" o' = Some (field peanut_plan "updatedWeeklyPlan").
Proof.
  split; [vm_compute; reflexivity|].
  destruct (proj1
              (@payload_returned_unchecked (says (sample_dumps peanut_plan))
                 diet_request [] (sample_dumps peanut_plan) _
                 ltac:(vm_compute; reflexivity))
              _ ltac:(vm_compute; reflexivity) ltac:(vm_compute; reflexivity))
    as [o' [Hrun Hkeep]].
  exists o'. split; [exact Hrun|].
  apply Hkeep. vm_compute. reflexivity.
Defined.

(** C2.  A failure escapes [analyze_diet_balance]: with a [null] history
    and a reply that is not JSON the fallback itself raises, inside the
    [except] clause.  And a reply that is a JSON array of the three required
    keys is returned as it is, a list where a dictionary is due. *)
Theorem diet_fallback_can_raise :
  fst (@BalancedDiet.analyze_diet_balance (says not_json)
         null_history_request [])
  = Raise (TypeError "'NoneType' object is not subscriptable") /\
  fst (@BalancedDiet.analyze_diet_balance (says (sample_dumps keys_only))
         plain_request [])
  = Ok keys_only.
Proof. split; vm_compute; reflexivity. Qed.

(** C3.  The waste-reduction fallback, from either [except] clause, holds
    the required fields and [error] but no [fallbackUsed]; the diet-balance
    fallback holds [fallbackUsed]. *)
Theorem waste_fallback_lacks_flag :
  (exists r,
     fst (@WasteReduction.analyze_waste_reduction (says not_json)
            waste_request []) = Ok r /\
     field r "error" = JStr "Expecting value: line 1 column 1 (char 0)" /\
     py_contains "fallbackUsed" r = Ok false) /\
  (exists r,
     fst (@WasteReduction.analyze_waste_reduction
            (fails (RuntimeError "503 Service Unavailable"))
            waste_request []) = Ok r /\
     field r "error" = JStr "503 Service Unavailable" /\
     py_contains "fallbackUsed" r = Ok false) /\
  (exists r,
     fst (@BalancedDiet.analyze_diet_balance (says not_json) diet_request [])
     = Ok r /\
     field r "fallbackUsed" = JBool true).
Proof.
  repeat split; eexists; repeat split; vm_compute; reflexivity.
Qed.

(** C4 fails as stated: the payload misses [ingredients], [steps],
    [cookTimeMins], [tags] and [servings]; the report names [ingredients]
    and none of the others. *)
Lemma only_first_missing_field_reported :
  exists report,
    @RecipeGenerator.validate_and_parse_recipe (says "")
      (sample_dumps unfinished_recipe) = Raise report /\
    field unfinished_recipe "ingredients" = JNull /\
    field unfinished_recipe "tags" = JNull /\
    mentions report "ingredients" = true /\
    mentions report "tags" = false /\
    mentions report "steps" = false.
Proof. eexists. repeat split; vm_compute; reflexivity. Qed.

Lemma violation_reports_first_only_witness :
  @json_loads (says "")
    (strip_markdown (strip (sample_dumps unfinished_recipe)))
  = Ok unfinished_recipe /\
  @RecipeGenerator.validate_and_parse_recipe (says "")
    (sample_dumps unfinished_recipe)
  = Raise (ValueError "Missing required field: ingredients") /\
  @MealPlanner.validate_plan (says "") (sample_dumps unfinished_recipe)
    pool weekday_preferences []
  = (Raise (ValueError "Missing required fields: planId or days"), []).
Proof.
  pose proof (@violation_reports_first_only (says "")
                (sample_dumps unfinished_recipe) _
                ltac:(vm_compute; reflexivity)) as [Hrecipe [Hplan _]].
  split; [vm_compute; reflexivity|]. split.
  - apply Hrecipe. vm_compute. reflexivity.
  - apply (proj1 (Hplan pool weekday_preferences [])). left.
    vm_compute. reflexivity.
Defined.

(** C5.  A reply that opens with a marker line and was cut off before the
    closing marker: the sanitiser of the recipe, plan and feedback
    validators drops its last line, which is content, and the rest no longer
    parses; the sanitiser of the two pipelines keeps every content line. *)
Theorem unclosed_fence_loses_content :
  last (split_lines (strip cut_off_reply)) "" = "}" /\
  split_lines (strip_markdown (strip cut_off_reply))
  = removelast (split_lines (sample_dumps unfinished_recipe)) /\
  remove_fence (strip cut_off_reply) = sample_dumps unfinished_recipe /\
  @RecipeGenerator.validate_and_parse_recipe (says "") cut_off_reply
  = Raise (ValueError
             "Invalid JSON response: Expecting value: line 1 column 1 (char 0)").
Proof. repeat split; vm_compute; reflexivity. Qed.

(** Monday allows 15 minutes and gets the pasta, which takes 20; the other
    days have no maximum of their own. *)
Lemma over_time_is_warned_not_rejected_witness :
  @json_loads (says "") (strip_markdown (strip fenced_plan)) = Ok week_plan /\
  @MealPlanner.max_cook_mins_of weekday_preferences "monday" = Ok (JInt 15) /\
  forallb (@timed (says "") [(JStr "r_001", stir_fry); (JStr "r_002", pasta)]
             weekday_preferences) week_days = true /\
  exists printed,
    @MealPlanner.validate_plan (says "") fenced_plan pool weekday_preferences []
    = (Ok week_plan, [] ++ map Stdout printed) /\
    In "Warning: monday recipe exceeds maxCookMins (20 > 15)" printed.
Proof.
  split; [vm_compute; reflexivity|]. split; [vm_compute; reflexivity|].
  split; [vm_compute; reflexivity|].
  apply (@over_time_is_warned_not_rejected (says "") fenced_plan pool
           weekday_preferences [] week_plan week_days
           [(JStr "r_001", stir_fry); (JStr "r_002", pasta)]
           "monday" (JStr "r_002") pasta (JInt 20) (JInt 15)
           (inject_Z 20) (inject_Z 15)).
  - vm_compute. reflexivity.
  - exists (JObj week_days), [JStr "r_001"; JStr "r_002"].
    repeat split; vm_compute; reflexivity.
  - vm_compute. reflexivity.
  - simpl. auto.
  - vm_compute. reflexivity.
  - vm_compute. reflexivity.
  - vm_compute. reflexivity.
  - reflexivity.
  - reflexivity.
  - vm_compute. discriminate.
  - vm_compute. reflexivity.
Defined.

Lemma fallback_flags_recently_used_witness :
  forallb wf_meal [monday_lunch; tuesday_lunch] = true /\
  forallb wf_week (last_four [last_week]) = true /\
  exists r,
    BalancedDiet.create_fallback_response diet_request "timeout" = Ok r /\
    field r "replacements" = JArr [replacement_for monday_lunch] /\
    field (replacement_for monday_lunch) "reason"
    = JStr "Recipe used in past 4 weeks" /\
    field (field r "metrics") "replacementsCount" = JInt 1.
Proof.
  split; [reflexivity|]. split; [reflexivity|].
  destruct (fallback_flags_recently_used diet_request "timeout"
              [monday_lunch; tuesday_lunch] [last_week]
              eq_refl eq_refl eq_refl eq_refl)
    as [r [Hrun [Hreps [_ [Hreason Hcount]]]]].
  exists r. split; [exact Hrun|]. split; [exact Hreps|].
  split; [|exact Hcount].
  apply Hreason. simpl. auto.
Defined.

Lemma fallback_metrics_fixed_witness :
  exists r replacements,
    BalancedDiet.create_fallback_response diet_request "timeout" = Ok r /\
    field r "replacements" = JArr replacements /\
    field (field r "metrics") "proteinRatio" = JFloat 0.25 /\
    field (field r "metrics") "repeatedRecipes"
    = JInt (Z.of_nat (length replacements)).
Proof.
  eexists.
  destruct (fallback_metrics_fixed diet_request "timeout" _ eq_refl)
    as [replacements [Hreps Hmetrics]].
  exists replacements. split; [reflexivity|]. split; [exact Hreps|].
  rewrite Hmetrics. split; reflexivity.
Defined.

Lemma no_second_backend_call_witness :
  @BalancedDiet.digest (says not_json) diet_request
    (remove_fence (strip not_json))
  = Raise (JSONDecodeError "Expecting value: line 1 column 1 (char 0)") /\
  fst (@BalancedDiet.analyze_diet_balance (says not_json) diet_request [])
  = BalancedDiet.create_fallback_response diet_request
      "Expecting value: line 1 column 1 (char 0)" /\
  invocations
    (snd (@BalancedDiet.analyze_diet_balance (says not_json) diet_request []))
  = 1.
Proof.
  split; [vm_compute; reflexivity|].
  destruct (@no_second_backend_call (says not_json) diet_request []
              (DietPrompt (sample_dumps diet_request)
                 (JFloat 0.25) (JFloat 0.50) (JFloat 0.25) "peanuts" "none")
              not_json
              (JSONDecodeError "Expecting value: line 1 column 1 (char 0)")
              ltac:(vm_compute; reflexivity) eq_refl
              ltac:(vm_compute; reflexivity))
    as [Hresult [_ Hcalls]].
  split; [exact Hresult|exact Hcalls].
Defined.

(** C9 fails as stated: two lists that are permutations of each other, a
    backend that merges what it is shown in one order and not in the other,
    and the two consolidated lists differ. *)
Lemma order_changes_consolidated_list :
  Permutation [two_cans; one_can] [one_can; two_cans] /\
  fst (@ShoppingNormalizer.normalize_shopping_list order_sensitive
         (JArr [two_cans; one_can]) [])
  = Ok merged_list /\
  fst (@ShoppingNormalizer.normalize_shopping_list order_sensitive
         (JArr [one_can; two_cans]) [])
  = Ok unmerged_list /\
  merged_list <> unmerged_list.
Proof.
  split; [apply perm_swap|].
  split; [vm_compute; reflexivity|].
  split; [vm_compute; reflexivity|].
  discriminate.
Qed.

Lemma normalization_follows_backend_witness :
  Permutation [two_cans; one_can] [one_can; two_cans] /\
  fst (@ShoppingNormalizer.normalize_shopping_list
         (says (sample_dumps merged_list)) (JArr [two_cans; one_can]) [])
  = fst (@ShoppingNormalizer.normalize_shopping_list
           (says (sample_dumps merged_list)) (JArr [one_can; two_cans]) []) /\
  fst (@ShoppingNormalizer.normalize_shopping_list
         (says (sample_dumps merged_list)) (JArr [two_cans; one_can]) [])
  = Ok merged_list.
Proof.
  split; [apply perm_swap|].
  destruct (@normalization_follows_backend (says (sample_dumps merged_list))
              [two_cans; one_can] [one_can; two_cans] []
              (sample_dumps merged_list)
              (perm_swap _ _ _) eq_refl eq_refl)
    as [Hsame Hreply].
  split; [exact Hsame|]. apply Hreply. vm_compute. reflexivity.
Defined.

(* ================================================================== *)
(** * Fences: round trips and edge cases *)
(* ================================================================== *)

Import Fence.

Lemma split_lines_nonempty (s : string) : split_lines s <> [].
Proof.
  destruct s as [|c s]; simpl; [discriminate|].
  destruct (Ascii.eqb c LF); [discriminate|].
  destruct (split_lines s); discriminate.
Qed.

Lemma split_lines_app (a b : string) :
  split_lines (a ++ NL ++ b)%string = split_lines a ++ split_lines b.
Proof.
  change (NL ++ b)%string with (String LF b).
  induction a as [|c a IH]; simpl.
  - reflexivity.
  - destruct (Ascii.eqb c LF).
    + simpl. now rewrite <- IH.
    + rewrite IH. destruct (split_lines a) as [|l ls] eqn:E.
      * now apply split_lines_nonempty in E.
      * reflexivity.
Qed.

Lemma split_one_line (s : string) : one_line s = true -> split_lines s = [s].
Proof.
  induction s as [|c s IH]; simpl; [reflexivity|].
  destruct (Ascii.eqb c LF); simpl; [discriminate|].
  intros Hs. now rewrite (IH Hs).
Qed.

Lemma join_cons_char (c : ascii) (l : string) (ls : list string) :
  join_lines (String c l :: ls) = String c (join_lines (l :: ls)).
Proof. unfold join_lines. now destruct ls. Qed.

Lemma join_split (s : string) : join_lines (split_lines s) = s.
Proof.
  induction s as [|c s IH]; [reflexivity|].
  simpl. destruct (Ascii.eqb_spec c LF) as [->|Hc].
  - destruct (split_lines s) as [|l ls] eqn:E.
    + now apply split_lines_nonempty in E.
    + unfold join_lines in *. simpl. simpl in IH. now rewrite IH.
  - destruct (split_lines s) as [|l ls] eqn:E.
    + now apply split_lines_nonempty in E.
    + rewrite join_cons_char. now rewrite IH.
Qed.

Lemma lstrip_blank (ws t : string) :
  blank ws = true -> lstrip (ws ++ t)%string = lstrip t.
Proof.
  induction ws as [|c ws IH]; simpl; [reflexivity|].
  intros Hb. apply andb_prop in Hb. destruct Hb as [Hc Hws].
  rewrite Hc. auto.
Qed.

Lemma rstrip_blank (ws : string) : blank ws = true -> rstrip ws = "".
Proof.
  induction ws as [|c ws IH]; simpl; [reflexivity|].
  intros Hb. apply andb_prop in Hb. destruct Hb as [Hc Hws].
  now rewrite (IH Hws), Hc.
Qed.

Lemma rstrip_app (u v : string) :
  rstrip v <> "" -> rstrip (u ++ v)%string = (u ++ rstrip v)%string.
Proof.
  intros Hv. induction u as [|c u IH]; simpl; [reflexivity|].
  rewrite IH. destruct (u ++ rstrip v)%string eqn:E; [|reflexivity].
  destruct u; simpl in E; [contradiction|discriminate].
Qed.

Lemma rstrip_fence (ws : string) :
  blank ws = true -> rstrip (FENCE ++ ws)%string = FENCE.
Proof. intros Hb. simpl. now rewrite (rstrip_blank ws Hb). Qed.

Lemma append_assoc (a b c : string) :
  ((a ++ b) ++ c = a ++ (b ++ c))%string.
Proof. induction a; simpl; congruence. Qed.

Lemma strip_fenced (lead trail tag content : string) :
  blank lead = true -> blank trail = true ->
  strip (lead ++ fenced tag content ++ trail)%string = fenced tag content.
Proof.
  intros Hl Ht. unfold strip. rewrite (lstrip_blank _ _ Hl).
  unfold fenced.
  replace (lstrip ((FENCE ++ tag ++ NL ++ content ++ NL ++ FENCE) ++ trail)%string)
    with ((FENCE ++ tag ++ NL ++ content ++ NL) ++ (FENCE ++ trail))%string.
  - rewrite rstrip_app; rewrite (rstrip_fence _ Ht); [|discriminate].
    now repeat rewrite append_assoc.
  - repeat rewrite append_assoc. reflexivity.
Qed.

Lemma startswith_fenced (tag content : string) :
  startswith (fenced tag content) FENCE = true.
Proof. unfold startswith, fenced, FENCE. simpl.
  repeat (destruct (ascii_dec _ _) as [_|Hn]; [|now contradiction Hn]).
  now destruct (tag ++ _)%string. Qed.

Lemma fenced_lines (tag content : string) :
  one_line tag = true ->
  split_lines (fenced tag content)
  = (FENCE ++ tag)%string :: split_lines content ++ [FENCE].
Proof.
  intros Htag. unfold fenced.
  replace (FENCE ++ tag ++ NL ++ content ++ NL ++ FENCE)%string
    with ((FENCE ++ tag) ++ NL ++ (content ++ NL ++ FENCE))%string
    by (now repeat rewrite append_assoc).
  rewrite split_lines_app, split_lines_app.
  rewrite (split_one_line (FENCE ++ tag)) by exact Htag.
  reflexivity.
Qed.

(** X1.  The sanitiser of the two pipelines undoes a fence: a text that
    is some content between an opening marker line (with any tag) and a
    closing marker line, with whitespace around it, comes out as exactly
    that content. *)
Theorem remove_fence_unwraps (lead trail tag content : string) :
  blank lead = true -> blank trail = true -> one_line tag = true ->
  remove_fence (strip (lead ++ fenced tag content ++ trail)%string) = content.
Proof.
  intros Hl Ht Htag. rewrite (strip_fenced _ _ _ _ Hl Ht).
  unfold remove_fence. rewrite startswith_fenced, (fenced_lines _ _ Htag).
  cbn [tl].
  destruct (split_lines content ++ [FENCE]) as [|x xs] eqn:E.
  - now destruct (split_lines content).
  - rewrite <- E. unfold last_line. rewrite last_last.
    change (String.eqb (strip FENCE) FENCE) with true. cbv iota.
    rewrite removelast_last. apply join_split.
Qed.

Lemma length_fenced_lines (tag content : string) :
  one_line tag = true -> 2 < length (split_lines (fenced tag content)).
Proof.
  intros Htag. rewrite (fenced_lines _ _ Htag). simpl.
  rewrite length_app. simpl.
  pose proof (split_lines_nonempty content).
  destruct (split_lines content); [contradiction|simpl; lia].
Qed.

(** X2.  The sanitiser of the validators undoes a fence as well, for
    content that does not itself begin with [json]. *)
Theorem strip_markdown_unwraps (lead trail tag content : string) :
  blank lead = true -> blank trail = true -> one_line tag = true ->
  startswith content "json" = false ->
  strip_markdown (strip (lead ++ fenced tag content ++ trail)%string) = content.
Proof.
  intros Hl Ht Htag Hj. rewrite (strip_fenced _ _ _ _ Hl Ht).
  unfold strip_markdown. rewrite startswith_fenced.
  pose proof (length_fenced_lines tag content Htag) as Hlen.
  apply Nat.ltb_lt in Hlen. rewrite Hlen.
  rewrite (fenced_lines _ _ Htag). cbn [tl].
  rewrite removelast_last, join_split. now rewrite Hj.
Qed.

Lemma startswith_unclosed (tag content : string) :
  startswith (unclosed tag content) FENCE = true.
Proof.
  unfold startswith, unclosed, FENCE. simpl.
  repeat (destruct (ascii_dec _ _) as [_|Hn]; [|now contradiction Hn]).
  now destruct (tag ++ _)%string.
Qed.

(** X3.  The sanitiser of the two pipelines keeps all the content of a
    text whose fence is not closed: only the opening marker line goes. *)
Theorem remove_fence_keeps_unclosed (tag content : string) :
  one_line tag = true ->
  strip (last (split_lines content) "") <> FENCE ->
  remove_fence (unclosed tag content) = content.
Proof.
  intros Htag Hlast. unfold remove_fence. rewrite startswith_unclosed.
  unfold unclosed. rewrite <- append_assoc, split_lines_app.
  rewrite (split_one_line (FENCE ++ tag)) by exact Htag.
  cbn [app tl]. pose proof (split_lines_nonempty content) as Hne.
  pose proof (join_split content) as Hjoin.
  destruct (split_lines content) as [|l ls]; [contradiction|].
  unfold last_line.
  destruct (String.eqb_spec (strip (last (l :: ls) "")) FENCE)
    as [Heq|_]; [contradiction|].
  exact Hjoin.
Qed.

Lemma remove_fence_one_line (text : string) :
  one_line text = true -> startswith text FENCE = true ->
  remove_fence text = "".
Proof.
  intros Hone Hstart. unfold remove_fence.
  now rewrite Hstart, (split_one_line _ Hone).
Qed.

Lemma fence_is_not_json (text : string) :
  startswith text FENCE = true -> startswith text "json" = false.
Proof.
  unfold startswith, FENCE. destruct text as [|c text]; [discriminate|].
  cbn [prefix]. destruct (ascii_dec "`" c) as [<-|]; [intros _|discriminate].
  destruct (ascii_dec "j" "`") as [Hj|]; [discriminate Hj|reflexivity].
Qed.

Lemma strip_markdown_short_text (text : string) :
  startswith text FENCE = true -> length (split_lines text) <= 2 ->
  strip_markdown text = text.
Proof.
  intros Hstart Hlen. unfold strip_markdown. rewrite Hstart.
  apply Nat.ltb_ge in Hlen. rewrite Hlen.
  now rewrite (fence_is_not_json _ Hstart).
Qed.

(** X4.  Short marked texts are not unwrapped.  A text of one line that
    begins with the marker comes out of the pipelines' sanitiser empty:
    what stands on the marker line is lost.  A marked text of one or two
    lines comes out of the validators' sanitiser as it is, markers
    included. *)
Theorem short_marked_text (text : string) :
  startswith text FENCE = true ->
  (one_line text = true -> remove_fence text = "") /\
  (length (split_lines text) <= 2 -> strip_markdown text = text).
Proof.
  intros Hstart. split.
  - intros Hone. now apply remove_fence_one_line.
  - now apply strip_markdown_short_text.
Qed.

Import Shapes MoreSamples.

(* ================================================================== *)
(** * The pipelines: what a run returns *)
(* ================================================================== *)

Section PipelineRuns.
Context `{Runtime}.

(** ** Exceptions of the prompt builders *)

Lemma py_get_error (d : json) (k : string) (x : json) (e : exn) :
  py_get d k x = Raise e -> is_JSONDecodeError e = false.
Proof. destruct d; simpl; intros [= <-]; reflexivity. Qed.

Lemma py_iter_error (v : json) (e : exn) :
  py_iter v = Raise e -> is_JSONDecodeError e = false.
Proof. destruct v; simpl; intros [= <-]; reflexivity. Qed.

Lemma str_items_error (xs : list json) : forall i e,
  str_items i xs = Raise e -> is_JSONDecodeError e = false.
Proof.
  induction xs as [|x xs IH]; intros i e; simpl; [discriminate|].
  destruct x; try (intros [= <-]; reflexivity).
  destruct (str_items (S i) xs) eqn:E; simpl; [discriminate|].
  intros [= <-]. eauto.
Qed.

Lemma join_comma_error (v : json) (e : exn) :
  join_comma v = Raise e -> is_JSONDecodeError e = false.
Proof.
  unfold join_comma. destruct (py_iter v) as [xs|e0] eqn:Ei; simpl.
  - destruct (str_items 0 xs) eqn:Es; simpl; [discriminate|].
    intros [= <-]. eauto using str_items_error.
  - now intros [= <-].
Qed.

Lemma names_or_none_error (names : json) (e : exn) :
  BalancedDiet.names_or_none names = Raise e -> is_JSONDecodeError e = false.
Proof.
  unfold BalancedDiet.names_or_none. destruct (truthy names); [|discriminate].
  apply join_comma_error.
Qed.

Lemma macro_percent_error (pm : json) (k : string) (d : Q) (e : exn) :
  BalancedDiet.macro_percent pm k d = Raise e -> is_JSONDecodeError e = false.
Proof.
  unfold BalancedDiet.macro_percent.
  destruct (py_get pm k (JFloat d)) as [v|e0] eqn:E; simpl.
  - destruct (can_scale v); [discriminate|]. now intros [= <-].
  - intros [= <-]. eauto using py_get_error.
Qed.

Ltac step_bind E lem :=
  match goal with
  | |- bind ?c _ = Raise _ -> _ =>
      destruct c eqn:E; cbn [bind];
      [|intros [= <-]; eauto using lem]
  end.

Lemma diet_prompt_error (input_data : json) (e : exn) :
  BalancedDiet.build_user_prompt input_data = Raise e ->
  is_JSONDecodeError e = false.
Proof.
  unfold BalancedDiet.build_user_prompt.
  step_bind E1 py_get_error. step_bind E2 py_get_error.
  step_bind E3 py_get_error. step_bind E4 py_get_error.
  step_bind E5 names_or_none_error. step_bind E6 names_or_none_error.
  step_bind E7 macro_percent_error. step_bind E8 macro_percent_error.
  step_bind E9 macro_percent_error. discriminate.
Qed.

Lemma waste_prompt_error (input_data : json) (e : exn) :
  WasteReduction.build_user_prompt input_data = Raise e ->
  is_JSONDecodeError e = false.
Proof.
  unfold WasteReduction.build_user_prompt.
  step_bind E1 py_get_error. step_bind E2 py_get_error.
  step_bind E3 py_get_error.
  step_bind E5 names_or_none_error. step_bind E6 names_or_none_error.
  discriminate.
Qed.


(** ** The [except] clauses *)

Lemma diet_except_unbound (input_data : json) (e : exn) (tr : list event) :
  is_JSONDecodeError e = false ->
  fst (BalancedDiet.except_clauses input_data None e tr)
  = BalancedDiet.create_fallback_response input_data (str_exn e).
Proof.
  intros He. unfold BalancedDiet.except_clauses. rewrite He.
  reflexivity.
Qed.

Lemma diet_except_decode_unbound (input_data : json) (m : string)
    (tr : list event) :
  fst (BalancedDiet.except_clauses input_data None (JSONDecodeError m) tr)
  = Raise BalancedDiet.unbound_response_text.
Proof. reflexivity. Qed.

Lemma waste_except_no_call (input_data : json) (response_text : option string)
    (e : exn) (tr : list event) :
  filter is_invoke
    (snd (WasteReduction.except_clauses input_data response_text e tr))
  = filter is_invoke tr.
Proof.
  unfold WasteReduction.except_clauses, mbind, emit, lift, ret, raise.
  destruct (is_JSONDecodeError e); [destruct response_text|]; simpl;
    repeat rewrite filter_invoke_snoc; simpl; now repeat rewrite app_nil_r.
Qed.

(** What the [except] clauses of the waste agent return for a dictionary. *)
Lemma waste_except_result (kvs : list (string * json))
    (response_text : option string) (e : exn) (tr : list event) :
  is_JSONDecodeError e = false \/ response_text <> None ->
  exists tip,
    fst (WasteReduction.except_clauses (JObj kvs) response_text e tr)
    = Ok (JObj [("optimizedRecipes",
                 match assoc "recipes" kvs with
                 | Some v => v
                 | None => JArr []
                 end);
                ("shoppingList", JArr []);
                ("substitutionSuggestions", JArr []);
                ("wasteReductionTips", JArr [JStr tip]);
                ("estimatedWasteReduction", JStr "0%");
                ("error", JStr (str_exn e))]).
Proof.
  intros Hcase. unfold WasteReduction.except_clauses.
  destruct (is_JSONDecodeError e) eqn:He.
  - destruct response_text as [t|].
    + eexists. reflexivity.
    + destruct Hcase as [Hf|Hn]; [discriminate|now contradiction Hn].
  - eexists. reflexivity.
Qed.

Lemma not_decode_error (c : result string) :
  (forall m, c <> Raise (JSONDecodeError m)) ->
  forall e, c = Raise e -> is_JSONDecodeError e = false.
Proof.
  intros Hc e ->. destruct e; try reflexivity. now contradiction (Hc msg).
Qed.

Lemma waste_returns (kvs : list (string * json))
    (tr : list event) :
  (forall p m, generate (invocations tr) p <> Raise (JSONDecodeError m)) ->
  exists r,
    fst (WasteReduction.analyze_waste_reduction (JObj kvs) tr) = Ok r.
Proof.
  intros Hgen. unfold WasteReduction.analyze_waste_reduction.
  rewrite waste_request_run.
  destruct (WasteReduction.build_user_prompt (JObj kvs)) as [p|e] eqn:Ep.
  - destruct (generate (invocations tr) p) as [text|e] eqn:Eg.
    + destruct (WasteReduction.digest (remove_fence (strip text))) as [r|e].
      * now exists r.
      * destruct (waste_except_result kvs (Some (remove_fence (strip text)))
                    e (tr ++ [Invoke p])) as [tip Hr];
          [right; discriminate|].
        rewrite Hr. eauto.
    + destruct (waste_except_result kvs None e (tr ++ [Invoke p]))
        as [tip Hr].
      * left. apply (not_decode_error _ (Hgen p) _ Eg).
      * rewrite Hr. eauto.
  - destruct (waste_except_result kvs None e tr) as [tip Hr].
    + left. eapply waste_prompt_error. exact Ep.
    + rewrite Hr. eauto.
Qed.

(** X5.  [analyze_waste_reduction] returns for every request that is a
    dictionary, whatever the backend sends or raises, as long as the
    backend's call does not itself raise [JSONDecodeError]. *)
Theorem waste_pipeline_returns (kvs : list (string * json))
    (tr : list event) :
  (forall p m, generate (invocations tr) p <> Raise (JSONDecodeError m)) ->
  exists r,
    fst (WasteReduction.analyze_waste_reduction (JObj kvs) tr) = Ok r.
Proof. apply waste_returns. Qed.

(** X6.  [analyze_diet_balance] returns for every request whose plan
    entries and last four history entries are well formed, whatever the
    backend sends or raises, as long as the backend's call does not itself
    raise [JSONDecodeError]. *)
Theorem diet_pipeline_returns (input_data : json) (meals weeks : list json)
    (tr : list event) :
  py_get input_data "weeklyPlan" (JArr []) = Ok (JArr meals) ->
  py_get input_data "history" (JArr []) = Ok (JArr weeks) ->
  forallb wf_meal meals = true ->
  forallb wf_week (last_four weeks) = true ->
  (forall p m, generate (invocations tr) p <> Raise (JSONDecodeError m)) ->
  exists r,
    fst (BalancedDiet.analyze_diet_balance input_data tr) = Ok r.
Proof.
  intros Hp Hh Hm Hw Hgen.
  pose proof (fun msg => create_fallback_response_wf input_data msg
                           meals weeks Hp Hh Hm Hw) as Hfb.
  unfold BalancedDiet.analyze_diet_balance. rewrite diet_request_run.
  destruct (BalancedDiet.build_user_prompt input_data) as [p|e] eqn:Ep.
  - destruct (generate (invocations tr) p) as [text|e] eqn:Eg.
    + destruct (BalancedDiet.digest input_data (remove_fence (strip text)))
        as [r|e].
      * now exists r.
      * rewrite except_clauses_fallback, Hfb. eauto.
    + rewrite diet_except_unbound, Hfb; [eauto|].
      apply (not_decode_error _ (Hgen p) _ Eg).
    - rewrite diet_except_unbound, Hfb; [eauto|].
      eapply diet_prompt_error. exact Ep.
Qed.

(** X7.  When the backend's call itself raises [JSONDecodeError], the
    [except] clause reads [response_text] before it was bound: both
    pipelines raise [UnboundLocalError] instead of returning a fallback. *)
Theorem backend_decode_error_escapes (input_data : json) (tr : list event)
    (m : string) :
  (forall p,
     BalancedDiet.build_user_prompt input_data = Ok p ->
     generate (invocations tr) p = Raise (JSONDecodeError m) ->
     fst (BalancedDiet.analyze_diet_balance input_data tr)
     = Raise BalancedDiet.unbound_response_text) /\
  (forall p,
     WasteReduction.build_user_prompt input_data = Ok p ->
     generate (invocations tr) p = Raise (JSONDecodeError m) ->
     fst (WasteReduction.analyze_waste_reduction input_data tr)
     = Raise WasteReduction.unbound_response_text).
Proof.
  split; intros p Hp Hg.
  - unfold BalancedDiet.analyze_diet_balance. rewrite diet_request_run.
    now rewrite Hp, Hg.
  - unfold WasteReduction.analyze_waste_reduction. rewrite waste_request_run.
    now rewrite Hp, Hg.
Qed.

(** X8.  A profile the prompt cannot be built from (a name that is not a
    string, a ratio that is [null]) sends the diet-balance pipeline to the
    fallback without any call of the backend. *)
Theorem bad_profile_skips_backend (input_data : json) (tr : list event)
    (e : exn) :
  BalancedDiet.build_user_prompt input_data = Raise e ->
  fst (BalancedDiet.analyze_diet_balance input_data tr)
  = BalancedDiet.create_fallback_response input_data (str_exn e) /\
  filter is_invoke (snd (BalancedDiet.analyze_diet_balance input_data tr))
  = filter is_invoke tr.
Proof.
  intros Hp. unfold BalancedDiet.analyze_diet_balance.
  rewrite diet_request_run, Hp.
  rewrite except_clauses_no_call. split; [|reflexivity].
  apply diet_except_unbound. eapply diet_prompt_error. exact Hp.
Qed.

(** X9.  When the reply arrives and then fails parsing or validation,
    the waste-reduction pipeline returns the request's recipes unchanged
    with an empty shopping list, no suggestions and the error message,
    after exactly the one backend call. *)
Theorem waste_fallback_keeps_recipes (input_data : json) (tr : list event)
    (p : prompt) (text : string) (e : exn) (recipes : json) :
  WasteReduction.build_user_prompt input_data = Ok p ->
  generate (invocations tr) p = Ok text ->
  WasteReduction.digest (remove_fence (strip text)) = Raise e ->
  py_get input_data "recipes" (JArr []) = Ok recipes ->
  exists r,
    fst (WasteReduction.analyze_waste_reduction input_data tr) = Ok r /\
    field r "optimizedRecipes" = recipes /\
    field r "shoppingList" = JArr [] /\
    field r "substitutionSuggestions" = JArr [] /\
    field r "error" = JStr (str_exn e) /\
    filter is_invoke
      (snd (WasteReduction.analyze_waste_reduction input_data tr))
    = filter is_invoke tr ++ [Invoke p].
Proof.
  intros Hp Hg Hd Hr.
  destruct (waste_prompt_needs_dict _ _ Hp) as [kvs ->].
  unfold WasteReduction.analyze_waste_reduction.
  rewrite waste_request_run, Hp, Hg, Hd.
  destruct (waste_except_result kvs (Some (remove_fence (strip text))) e
              (tr ++ [Invoke p])) as [tip Hres]; [right; discriminate|].
  rewrite Hres, waste_except_no_call, filter_invoke_snoc.
  eexists. split; [reflexivity|].
  simpl in Hr. injection Hr as <-. repeat split.
Qed.

End PipelineRuns.

(* ================================================================== *)
(** * Required keys and payloads that are not objects *)
(* ================================================================== *)

Lemma assoc_put_same (k : string) (v : json) (o : list (string * json)) :
  assoc k (put k v o) = Some v.
Proof.
  induction o as [|[k0 v0] o IH]; simpl.
  - now rewrite String.eqb_refl.
  - destruct (String.eqb k k0) eqn:E; simpl; rewrite ?String.eqb_refl, ?E; auto.
Qed.

Lemma assoc_put_other (k k' : string) (v : json) (o : list (string * json)) :
  k <> k' -> assoc k (put k' v o) = assoc k o.
Proof.
  intros Hne. induction o as [|[k0 v0] o IH]; simpl.
  - destruct (String.eqb_spec k k'); [contradiction|reflexivity].
  - destruct (String.eqb_spec k' k0) as [->|Hk]; simpl.
    + destruct (String.eqb_spec k k0); [contradiction|reflexivity].
    + now rewrite IH.
Qed.

(** One required key: it ends up with its own value or the default, and
    no other key changes. *)
Lemma fill_step_exact (key : string) (o : list (string * json)) (d : json) :
  exists o',
    (present <- py_contains key (JObj o) ;;
     if present then Ok (JObj o)
     else v <- Ok d ;; py_setitem (JObj o) key v) = Ok (JObj o')
    /\ assoc key o' = Some (filled key d o)
    /\ forall k, k <> key -> assoc k o' = assoc k o.
Proof.
  unfold filled. simpl. destruct (assoc key o) eqn:E.
  - exists o. auto.
  - exists (put key d o). split; [reflexivity|]. split.
    + apply assoc_put_same.
    + intros k Hk. now apply assoc_put_other.
Qed.

Section RequiredKeys.
Context `{Runtime}.

(** X10.  When the reply parses to a JSON object, the diet-balance result
    holds the three required keys: each keeps the value the reply gave it,
    and a missing one gets its default, the request's weekly plan for
    [updatedWeeklyPlan], the empty list for [replacements], the empty
    dictionary for [metrics]. *)
Theorem diet_required_keys_filled (input_data : json) (tr : list event)
    (p : prompt) (text : string) (o : list (string * json))
    (weekly_plan : json) :
  BalancedDiet.build_user_prompt input_data = Ok p ->
  generate (invocations tr) p = Ok text ->
  json_loads (remove_fence (strip text)) = Ok (JObj o) ->
  py_get input_data "weeklyPlan" (JArr []) = Ok weekly_plan ->
  exists o',
    fst (BalancedDiet.analyze_diet_balance input_data tr) = Ok (JObj o') /\
    assoc "updatedWeeklyPlan" o'
    = Some (filled "updatedWeeklyPlan" weekly_plan o) /\
    assoc "replacements" o' = Some (filled "replacements" (JArr []) o) /\
    assoc "metrics" o' = Some (filled "metrics" (JObj []) o).
Proof.
  intros Hp Hg Hl Hplan.
  destruct (diet_prompt_needs_dict _ _ Hp) as [kvs ->].
  simpl in Hplan. injection Hplan as Hplan.
  destruct (fill_step_exact "updatedWeeklyPlan" o weekly_plan)
    as [o1 [E1 [S1 K1]]].
  destruct (fill_step_exact "replacements" o1 (JArr [])) as [o2 [E2 [S2 K2]]].
  destruct (fill_step_exact "metrics" o2 (JObj [])) as [o3 [E3 [S3 K3]]].
  exists o3. split.
  - unfold BalancedDiet.analyze_diet_balance. rewrite diet_request_run.
    rewrite Hp, Hg. unfold BalancedDiet.digest. rewrite Hl. cbn [bind].
    unfold BalancedDiet.fill_required, BalancedDiet.required_keys.
    cbn [for_each].
    change (BalancedDiet.default_for (JObj kvs) "updatedWeeklyPlan")
      with (Ok (match assoc "weeklyPlan" kvs with
                | Some v => v | None => JArr [] end)).
    rewrite Hplan, E1. cbn [bind].
    change (BalancedDiet.default_for (JObj kvs) "replacements")
      with (Ok (JArr [])).
    rewrite E2. cbn [bind].
    change (BalancedDiet.default_for (JObj kvs) "metrics") with (Ok (JObj [])).
    rewrite E3. reflexivity.
  - split; [|split].
    + rewrite K3, K2 by discriminate. exact S1.
    + rewrite K3 by discriminate. rewrite S2. unfold filled.
      now rewrite K1 by discriminate.
    + rewrite S3. unfold filled. now rewrite K2, K1 by discriminate.
Qed.

(** X11.  When the reply parses to a JSON object, the waste-reduction
    result holds [optimizedRecipes], [shoppingList] and
    [substitutionSuggestions]: each keeps the value the reply gave it, and
    a missing one is the empty list. *)
Theorem waste_required_keys_filled (input_data : json) (tr : list event)
    (p : prompt) (text : string) (o : list (string * json)) :
  WasteReduction.build_user_prompt input_data = Ok p ->
  generate (invocations tr) p = Ok text ->
  json_loads (remove_fence (strip text)) = Ok (JObj o) ->
  exists o',
    fst (WasteReduction.analyze_waste_reduction input_data tr)
    = Ok (JObj o') /\
    assoc "optimizedRecipes" o'
    = Some (filled "optimizedRecipes" (JArr []) o) /\
    assoc "shoppingList" o' = Some (filled "shoppingList" (JArr []) o) /\
    assoc "substitutionSuggestions" o'
    = Some (filled "substitutionSuggestions" (JArr []) o).
Proof.
  intros Hp Hg Hl.
  destruct (fill_step_exact "optimizedRecipes" o (JArr []))
    as [o1 [E1 [S1 K1]]].
  destruct (fill_step_exact "shoppingList" o1 (JArr [])) as [o2 [E2 [S2 K2]]].
  destruct (fill_step_exact "substitutionSuggestions" o2 (JArr []))
    as [o3 [E3 [S3 K3]]].
  exists o3. split.
  - unfold WasteReduction.analyze_waste_reduction. rewrite waste_request_run.
    rewrite Hp, Hg. unfold WasteReduction.digest. rewrite Hl. cbn [bind].
    unfold WasteReduction.fill_required, WasteReduction.required_keys.
    cbn [for_each]. cbn [bind] in E1, E2, E3.
    rewrite E1. cbn [bind]. rewrite E2. cbn [bind]. rewrite E3. reflexivity.
  - split; [|split].
    + rewrite K3, K2 by discriminate. exact S1.
    + rewrite K3 by discriminate. rewrite S2. unfold filled.
      now rewrite K1 by discriminate.
    + rewrite S3. unfold filled. now rewrite K2, K1 by discriminate.
Qed.

(** A loop whose turns leave the value alone or raise does the same. *)
Lemma for_each_unchanged {A S : Type} (xs : list A)
    (body : S -> A -> result S) (s : S) :
  (forall x, body s x = Ok s \/ exists e, body s x = Raise e) ->
  for_each xs body s = Ok s \/ exists e, for_each xs body s = Raise e.
Proof.
  intros Hbody. induction xs as [|x xs IH]; simpl; [now left|].
  destruct (Hbody x) as [->|[e ->]]; simpl; eauto.
Qed.

Lemma setitem_non_object (v : json) (k : string) (x : json) :
  is_object v = false -> exists e, py_setitem v k x = Raise e.
Proof. destruct v; simpl; try discriminate; eauto. Qed.

Lemma diet_fill_non_object (input_data v : json) :
  is_object v = false ->
  BalancedDiet.fill_required input_data v = Ok v \/
  exists e, BalancedDiet.fill_required input_data v = Raise e.
Proof.
  intros Hv. unfold BalancedDiet.fill_required.
  apply for_each_unchanged. intros key.
  destruct (py_contains key v) as [[|]|e]; simpl; eauto.
  destruct (BalancedDiet.default_for input_data key) as [d|e]; simpl; eauto.
  right. now apply setitem_non_object.
Qed.

Lemma non_object_unchanged_or_fallback (input_data : json) (tr : list event)
    (p : prompt) (text : string) (v : json) :
  BalancedDiet.build_user_prompt input_data = Ok p ->
  generate (invocations tr) p = Ok text ->
  json_loads (remove_fence (strip text)) = Ok v ->
  is_object v = false ->
  fst (BalancedDiet.analyze_diet_balance input_data tr) = Ok v \/
  exists msg,
    fst (BalancedDiet.analyze_diet_balance input_data tr)
    = BalancedDiet.create_fallback_response input_data msg.
Proof.
  intros Hp Hg Hl Hv.
  unfold BalancedDiet.analyze_diet_balance. rewrite diet_request_run.
  rewrite Hp, Hg. unfold BalancedDiet.digest. rewrite Hl. cbn [bind].
  destruct (diet_fill_non_object input_data v Hv) as [->|[e ->]].
  - now left.
  - right. exists (str_exn e). apply except_clauses_fallback.
Qed.

Lemma scalar_falls_back (input_data : json) (tr : list event)
    (p : prompt) (text : string) (v : json) :
  BalancedDiet.build_user_prompt input_data = Ok p ->
  generate (invocations tr) p = Ok text ->
  json_loads (remove_fence (strip text)) = Ok v ->
  scalar v = true ->
  fst (BalancedDiet.analyze_diet_balance input_data tr)
  = BalancedDiet.create_fallback_response input_data
      ("argument of type '" ++ type_name v ++ "' is not iterable")%string.
Proof.
  intros Hp Hg Hl Hv.
  unfold BalancedDiet.analyze_diet_balance. rewrite diet_request_run.
  rewrite Hp, Hg. unfold BalancedDiet.digest. rewrite Hl. cbn [bind].
  destruct v; try discriminate; apply except_clauses_fallback.
Qed.

(** X12.  A reply that parses to something other than a JSON object is
    never changed by the diet-balance pipeline: it is returned as it came
    or it is replaced by the fallback; and [null], a boolean or a number
    is always replaced by the fallback. *)
Theorem non_object_payload (input_data : json) (tr : list event)
    (p : prompt) (text : string) (v : json) :
  BalancedDiet.build_user_prompt input_data = Ok p ->
  generate (invocations tr) p = Ok text ->
  json_loads (remove_fence (strip text)) = Ok v ->
  is_object v = false ->
  (fst (BalancedDiet.analyze_diet_balance input_data tr) = Ok v \/
   exists msg,
     fst (BalancedDiet.analyze_diet_balance input_data tr)
     = BalancedDiet.create_fallback_response input_data msg) /\
  (scalar v = true ->
   fst (BalancedDiet.analyze_diet_balance input_data tr)
   = BalancedDiet.create_fallback_response input_data
       ("argument of type '" ++ type_name v ++ "' is not iterable")%string).
Proof.
  intros Hp Hg Hl Hv. split.
  - now apply (non_object_unchanged_or_fallback _ _ p text).
  - now apply (scalar_falls_back _ _ p text).
Qed.

End RequiredKeys.

(* ================================================================== *)
(** * More on the diet-balance fallback *)
(* ================================================================== *)

(** X13.  Whenever the diet-balance fallback returns, its result carries
    the request's weekly plan unchanged, the error message, the message
    again among the recommendations, and [fallbackUsed]. *)
Theorem fallback_keeps_plan (input_data : json) (error_msg : string)
    (r : json) :
  BalancedDiet.create_fallback_response input_data error_msg = Ok r ->
  py_get input_data "weeklyPlan" (JArr []) = Ok (field r "updatedWeeklyPlan")
  /\ field r "error" = JStr error_msg
  /\ field r "fallbackUsed" = JBool true
  /\ In (JStr ("Error: " ++ error_msg)%string)
        (match field r "recommendations" with JArr xs => xs | _ => [] end).
Proof.
  unfold BalancedDiet.create_fallback_response. intros Hr.
  destruct (py_get input_data "weeklyPlan" (JArr [])) as [plan|]; [|discriminate].
  simpl in Hr.
  destruct (py_get input_data "history" (JArr [])) as [history|]; [|discriminate].
  simpl in Hr.
  destruct (BalancedDiet.recent_recipe_ids history) as [ids|]; [|discriminate].
  simpl in Hr.
  destruct (BalancedDiet.find_replacements ids plan) as [reps|]; [|discriminate].
  simpl in Hr. injection Hr as <-. repeat split. simpl. auto.
Qed.

Lemma used_recently_nil (id : json) : used_recently [] id = false.
Proof. reflexivity. Qed.

Lemma filter_none {A : Type} (f : A -> bool) (xs : list A) :
  (forall x, f x = false) -> filter f xs = [].
Proof.
  intros Hf. induction xs as [|x xs IH]; simpl; [reflexivity|].
  now rewrite Hf.
Qed.

(** X14.  A request without [history] (or with an empty one) gets a
    fallback without replacements, both counts 0. *)
Theorem no_history_no_replacements (kvs : list (string * json))
    (error_msg : string) (meals : list json) :
  assoc "weeklyPlan" kvs = Some (JArr meals) ->
  assoc "history" kvs = None \/ assoc "history" kvs = Some (JArr []) ->
  forallb wf_meal meals = true ->
  exists r,
    BalancedDiet.create_fallback_response (JObj kvs) error_msg = Ok r /\
    field r "replacements" = JArr [] /\
    field (field r "metrics") "replacementsCount" = JInt 0 /\
    field (field r "metrics") "repeatedRecipes" = JInt 0.
Proof.
  intros Hp Hh Hm.
  assert (Hhist : py_get (JObj kvs) "history" (JArr []) = Ok (JArr []))
    by (simpl; destruct Hh as [-> | ->]; reflexivity).
  assert (Hplan : py_get (JObj kvs) "weeklyPlan" (JArr []) = Ok (JArr meals))
    by (simpl; now rewrite Hp).
  rewrite (create_fallback_response_wf _ error_msg meals [] Hplan Hhist Hm
             eq_refl).
  rewrite filter_none by (intros; apply used_recently_nil).
  eexists. split; [reflexivity|]. repeat split.
Qed.

Lemma last_four_app (old recent : list json) :
  length recent = 4 -> last_four (old ++ recent) = recent.
Proof.
  intros Hlen. unfold last_four. rewrite length_app, Hlen.
  replace (length old + 4 - 4) with (length old + 0) by lia.
  rewrite skipn_app, Nat.add_0_r, skipn_all.
  replace (length old - length old) with 0 by lia. reflexivity.
Qed.

Lemma last_four_short (recent : list json) :
  length recent = 4 -> last_four recent = recent.
Proof. intros Hlen. unfold last_four. now rewrite Hlen. Qed.

(** X15.  History entries older than the last four have no effect on the
    fallback, whatever they hold: two requests with the same plan whose
    histories end in the same four entries get the same fallback. *)
Theorem older_history_ignored (request request' : json) (error_msg : string)
    (old recent : list json) :
  py_get request "weeklyPlan" (JArr [])
  = py_get request' "weeklyPlan" (JArr []) ->
  py_get request "history" (JArr []) = Ok (JArr (old ++ recent)) ->
  py_get request' "history" (JArr []) = Ok (JArr recent) ->
  length recent = 4 ->
  BalancedDiet.create_fallback_response request error_msg
  = BalancedDiet.create_fallback_response request' error_msg.
Proof.
  intros Hplan Hh Hh' Hlen. unfold BalancedDiet.create_fallback_response.
  rewrite Hplan, Hh, Hh'.
  destruct (py_get request' "weeklyPlan" (JArr [])) as [plan|e];
    [|reflexivity].
  cbn [bind]. unfold BalancedDiet.recent_recipe_ids. cbn [py_last bind].
  fold (last_four (old ++ recent)). fold (last_four recent).
  now rewrite (last_four_app _ _ Hlen), (last_four_short _ Hlen).
Qed.

(* ================================================================== *)
(** * More on the validators *)
(* ================================================================== *)

Section ValidatorRuns.
Context `{Runtime}.

(** The cook-time loop only prints. *)
Lemma check_cook_times_prints (recipe_map : list (json * json))
    (weekday_prefs : json) (items : list (string * json)) :
  forall tr,
    exists lines,
      snd (MealPlanner.check_cook_times recipe_map weekday_prefs items tr)
      = tr ++ map Stdout lines.
Proof.
  induction items as [|item items IH]; intros tr.
  - exists []. simpl. now rewrite app_nil_r.
  - cbn [MealPlanner.check_cook_times]. unfold mbind, lift at 1.
    destruct (MealPlanner.check_cook_time recipe_map weekday_prefs item)
      as [[l|]|e].
    + unfold emit. destruct (IH (tr ++ [Stdout l])) as [lines Hl].
      exists (l :: lines). rewrite Hl. cbn [map]. now rewrite <- app_assoc.
    + unfold ret. apply IH.
    + exists []. simpl. now rewrite app_nil_r.
Qed.

(** X16.  [validate_plan] does nothing but print lines, and the plan it
    returns, if it returns one, is the parsed reply itself. *)
Theorem validate_plan_returns_parsed (plan_text : string)
    (recipes weekday_prefs : json) (tr : list event) :
  (exists lines,
     snd (MealPlanner.validate_plan plan_text recipes weekday_prefs tr)
     = tr ++ map Stdout lines) /\
  (forall plan,
     fst (MealPlanner.validate_plan plan_text recipes weekday_prefs tr)
     = Ok plan ->
     json_loads (strip_markdown (strip plan_text)) = Ok plan).
Proof.
  unfold MealPlanner.validate_plan, MealPlanner.reraise_decode_error,
    mbind, lift, ret.
  assert (Hnil : exists lines : list string, tr = tr ++ map Stdout lines)
    by (exists []; simpl; now rewrite app_nil_r).
  destruct (json_loads (strip_markdown (strip plan_text))) as [plan|e].
  2: { destruct e; simpl; split; auto; discriminate. }
  destruct (MealPlanner.check_structure plan) as [days|e].
  2: { destruct e; simpl; split; auto; discriminate. }
  destruct (MealPlanner.recipe_id_set recipes) as [ids|e].
  2: { destruct e; simpl; split; auto; discriminate. }
  destruct (py_items days) as [items|e].
  2: { destruct e; simpl; split; auto; discriminate. }
  destruct (MealPlanner.check_recipe_ids ids items) as [[]|e].
  2: { destruct e; simpl; split; auto; discriminate. }
  destruct (MealPlanner.build_recipe_map recipes) as [rmap|e].
  2: { destruct e; simpl; split; auto; discriminate. }
  destruct (check_cook_times_prints rmap weekday_prefs items tr)
    as [lines Hlines].
  destruct (MealPlanner.check_cook_times rmap weekday_prefs items tr)
    as [[[]|e] tr'] eqn:E; simpl in Hlines; subst tr'.
  - simpl. split; [eauto|]. now intros p [= <-].
  - destruct e; simpl; split; eauto; discriminate.
Qed.

Lemma check_recipe_ids_stops (ids : list json)
    (pre post : list (string * json)) (day : string) (recipe_id : json) :
  (forall item, In item pre -> py_in_set (snd item) ids = Ok true) ->
  py_in_set recipe_id ids = Ok false ->
  MealPlanner.check_recipe_ids ids (pre ++ (day, recipe_id) :: post)
  = Raise (ValueError ("Invalid recipe ID for " ++ day ++ ": "
                       ++ py_str recipe_id)%string).
Proof.
  intros Hpre Hid. unfold MealPlanner.check_recipe_ids.
  induction pre as [|[d r] pre IH]; simpl.
  - now rewrite Hid.
  - pose proof (Hpre (d, r) (or_introl eq_refl)) as Hd. simpl in Hd.
    rewrite Hd. simpl.
    apply IH. intros item Hin. apply Hpre. now right.
Qed.

(** X17.  A plan that assigns a value that is not the id of a recipe of
    the pool is rejected with a [ValueError] that names the first such day,
    and nothing is printed. *)
Theorem unknown_recipe_id_rejected (plan_text : string)
    (recipes weekday_prefs : json) (tr : list event) (plan days : json)
    (ids : list json) (pre post : list (string * json)) (day : string)
    (recipe_id : json) :
  json_loads (strip_markdown (strip plan_text)) = Ok plan ->
  MealPlanner.check_structure plan = Ok days ->
  MealPlanner.recipe_id_set recipes = Ok ids ->
  py_items days = Ok (pre ++ (day, recipe_id) :: post) ->
  (forall item, In item pre -> py_in_set (snd item) ids = Ok true) ->
  py_in_set recipe_id ids = Ok false ->
  MealPlanner.validate_plan plan_text recipes weekday_prefs tr
  = (Raise (ValueError ("Invalid recipe ID for " ++ day ++ ": "
                        ++ py_str recipe_id)%string), tr).
Proof.
  intros Hl Hs Hi Hit Hpre Hid.
  unfold MealPlanner.validate_plan, MealPlanner.reraise_decode_error,
    mbind, lift, ret.
  rewrite Hl, Hs, Hi, Hit.
  now rewrite (check_recipe_ids_stops ids pre post day recipe_id Hpre Hid).
Qed.

(** A reply that is not JSON makes each of the three validators raise a
    [ValueError] that carries the decoder's message. *)
Lemma invalid_json_is_value_error (text m : string) :
  json_loads (strip_markdown (strip text)) = Raise (JSONDecodeError m) ->
  RecipeGenerator.validate_and_parse_recipe text
  = Raise (ValueError ("Invalid JSON response: " ++ m)%string) /\
  FeedbackCompactor.validate_and_parse_feedback text
  = Raise (ValueError ("Invalid JSON response: " ++ m)%string) /\
  (forall recipes weekday_prefs tr,
     MealPlanner.validate_plan text recipes weekday_prefs tr
     = (Raise (ValueError ("Invalid JSON response: " ++ m)%string), tr)).
Proof.
  intros Hl. split; [|split].
  - unfold RecipeGenerator.validate_and_parse_recipe. now rewrite Hl.
  - unfold FeedbackCompactor.validate_and_parse_feedback. now rewrite Hl.
  - intros recipes weekday_prefs tr.
    unfold MealPlanner.validate_plan, MealPlanner.reraise_decode_error,
      mbind, lift.
    now rewrite Hl.
Qed.

(** X18.  A reply that parses to [null], a boolean or a number makes each
    of the three validators raise a [TypeError], not the [ValueError] they
    raise for every fault they check for. *)
Theorem scalar_payload_is_type_error (text : string) (v : json) :
  json_loads (strip_markdown (strip text)) = Ok v ->
  scalar v = true ->
  let e := TypeError ("argument of type '" ++ type_name v
                      ++ "' is not iterable")%string in
  RecipeGenerator.validate_and_parse_recipe text = Raise e /\
  FeedbackCompactor.validate_and_parse_feedback text = Raise e /\
  (forall recipes weekday_prefs tr,
     MealPlanner.validate_plan text recipes weekday_prefs tr = (Raise e, tr)).
Proof.
  intros Hl Hv e. split; [|split].
  - unfold RecipeGenerator.validate_and_parse_recipe. rewrite Hl.
    destruct v; try discriminate; reflexivity.
  - unfold FeedbackCompactor.validate_and_parse_feedback. rewrite Hl.
    destruct v; try discriminate; reflexivity.
  - intros recipes weekday_prefs tr.
    unfold MealPlanner.validate_plan, MealPlanner.reraise_decode_error,
      mbind, lift.
    rewrite Hl. destruct v; try discriminate; reflexivity.
Qed.

Lemma within_limit_quiet (recipe_map : list (json * json))
    (weekday_prefs : json) (item : string * json) :
  within_limit recipe_map weekday_prefs item ->
  MealPlanner.check_cook_time recipe_map weekday_prefs item = Ok None.
Proof.
  intros [recipe [ct [mx [c [m [Hget [Hct [Hmx [Hc [Hm Hle]]]]]]]]]].
  destruct item as [day rid]. simpl in *.
  unfold MealPlanner.check_cook_time.
  rewrite Hget. cbn [bind]. rewrite Hct. cbn [bind]. rewrite Hmx. cbn [bind].
  rewrite (py_gt_numbers _ _ _ _ Hc Hm).
  apply Qle_bool_iff in Hle. now rewrite Hle.
Qed.

Lemma quiet_warnings (recipe_map : list (json * json))
    (weekday_prefs : json) (items : list (string * json)) :
  (forall item, In item items -> within_limit recipe_map weekday_prefs item) ->
  comparable recipe_map weekday_prefs items /\
  cook_warnings recipe_map weekday_prefs items = [].
Proof.
  intros Hall. split.
  - intros item Hin. exists None. apply within_limit_quiet. now apply Hall.
  - unfold cook_warnings. induction items as [|item items IH]; [reflexivity|].
    simpl. rewrite (within_limit_quiet _ _ item) by (apply Hall; now left).
    apply IH. intros i Hi. apply Hall. now right.
Qed.

(** X19.  A plan that passes the structural checks and whose recipes all
    stay within their day's maximum (a cook time equal to the maximum
    included) is returned as parsed and nothing is printed. *)
Theorem within_limits_prints_nothing (plan_text : string)
    (recipes weekday_prefs : json) (tr : list event) (plan : json)
    (items : list (string * json)) (recipe_map : list (json * json)) :
  json_loads (strip_markdown (strip plan_text)) = Ok plan ->
  accepted plan recipes items recipe_map ->
  (forall item, In item items -> within_limit recipe_map weekday_prefs item) ->
  MealPlanner.validate_plan plan_text recipes weekday_prefs tr = (Ok plan, tr).
Proof.
  intros Hl Hacc Hall.
  destruct (quiet_warnings recipe_map weekday_prefs items Hall) as [Hc Hw].
  rewrite (validate_plan_accepts _ _ _ tr _ _ _ Hl Hacc Hc), Hw.
  simpl. now rewrite app_nil_r.
Qed.

Lemma py_eq_hashable_refl (v : json) : hashable v = true -> py_eq v v = true.
Proof.
  destruct v; simpl; try discriminate; intros _; try reflexivity;
    try (apply Qeq_bool_iff; reflexivity).
  apply String.eqb_refl.
Qed.

Lemma map_find_put (k v : json) (m : list (json * json)) :
  hashable k = true -> MealPlanner.map_find k (MealPlanner.map_put k v m) = Some v.
Proof.
  intros Hk. induction m as [|[k' v'] m IH]; simpl.
  - now rewrite py_eq_hashable_refl.
  - destruct (py_eq k k') eqn:E; simpl; now rewrite E.
Qed.

Lemma for_each_app {A S : Type} (xs ys : list A) (body : S -> A -> result S)
    (s s' : S) :
  for_each xs body s = Ok s' ->
  for_each (xs ++ ys) body s = for_each ys body s'.
Proof.
  revert s. induction xs as [|x xs IH]; intros s; simpl.
  - now intros [= ->].
  - destruct (body s x) as [s1|e]; simpl; [apply IH|discriminate].
Qed.

(** X20.  When two recipes of the pool have the same id, the cook-time
    check takes the one listed last: a recipe appended to the pool is the
    recipe its id stands for. *)
Theorem last_recipe_wins (rs : list json) (recipe_map : list (json * json))
    (r id : json) :
  MealPlanner.build_recipe_map (JArr rs) = Ok recipe_map ->
  py_getitem r "id" = Ok id ->
  hashable id = true ->
  MealPlanner.build_recipe_map (JArr (rs ++ [r]))
  = Ok (MealPlanner.map_put id r recipe_map) /\
  MealPlanner.map_get (MealPlanner.map_put id r recipe_map) id = Ok r.
Proof.
  intros Hm Hid Hh. split.
  - unfold MealPlanner.build_recipe_map in *. cbn [py_iter bind] in *.
    rewrite (for_each_app _ _ _ _ _ Hm). cbn [for_each bind].
    rewrite Hid. cbn [bind]. now rewrite Hh.
  - unfold MealPlanner.map_get. now rewrite Hh, map_find_put.
Qed.

(** X21.  The recipe validator checks that the seven keys are there and
    nothing else: a JSON object that has them is returned as parsed,
    whatever the values are. *)
Theorem recipe_accepted_on_presence (response_text : string)
    (o : list (string * json)) :
  json_loads (strip_markdown (strip response_text)) = Ok (JObj o) ->
  first_missing RecipeGenerator.required o = None ->
  RecipeGenerator.validate_and_parse_recipe response_text = Ok (JObj o).
Proof.
  intros Hl Hf.
  unfold RecipeGenerator.validate_and_parse_recipe,
    RecipeGenerator.check_required.
  rewrite Hl. cbn [bind].
  rewrite (first_absent_raises
             (fun field => ValueError ("Missing required field: " ++ field)%string)).
  now rewrite Hf.
Qed.

(** X22.  The feedback validator requires no field: a JSON object none
    of whose four typed fields has the wrong type, the empty object
    included, is returned as parsed, with whatever other keys it has. *)
Theorem feedback_accepted (response_text : string)
    (o : list (string * json)) :
  json_loads (strip_markdown (strip response_text)) = Ok (JObj o) ->
  first_mistyped o = None ->
  FeedbackCompactor.validate_and_parse_feedback response_text = Ok (JObj o).
Proof.
  intros Hl Hf.
  unfold FeedbackCompactor.validate_and_parse_feedback,
    FeedbackCompactor.check_types.
  rewrite Hl. cbn [bind]. repeat rewrite check_type_dict.
  unfold first_mistyped, typed_fields in Hf. cbn [find] in Hf.
  repeat match type of Hf with
         | context [if mistyped o ?s then _ else _] =>
             destruct (mistyped o s)
         end;
    cbn [option_map snd bind] in *; try discriminate; reflexivity.
Qed.

End ValidatorRuns.

(* ================================================================== *)
(** * More on the shopping-list normaliser *)
(* ================================================================== *)

Section ShoppingRuns.
Context `{Runtime}.

(** X23.  Every run of the normaliser calls the backend exactly once;
    a failure of that call is not absorbed but raised to the caller; and a
    reply that is not JSON gives the empty list. *)
Theorem shopping_run (ingredients_data : json) (tr : list event) :
  invocations
    (snd (ShoppingNormalizer.normalize_shopping_list ingredients_data tr))
  = invocations tr + 1 /\
  (forall e,
     generate (invocations tr) (ShoppingNormalizer.build_prompt ingredients_data)
     = Raise e ->
     fst (ShoppingNormalizer.normalize_shopping_list ingredients_data tr)
     = Raise e) /\
  (forall reply m,
     generate (invocations tr) (ShoppingNormalizer.build_prompt ingredients_data)
     = Ok reply ->
     json_loads reply = Raise (JSONDecodeError m) ->
     fst (ShoppingNormalizer.normalize_shopping_list ingredients_data tr)
     = Ok (JArr [])).
Proof.
  unfold ShoppingNormalizer.normalize_shopping_list, mbind, invoke, invocations.
  split; [|split].
  - destruct (generate _ _) as [reply|e]; simpl.
    + destruct (json_loads reply) as [v|e]; [|destruct e];
        unfold ret, raise, emit; simpl;
        repeat rewrite filter_invoke_snoc; simpl;
        repeat rewrite app_nil_r; rewrite length_app; simpl; lia.
    + rewrite filter_invoke_snoc, length_app. simpl. lia.
  - intros e He. unfold invocations in He. now rewrite He.
  - intros reply m Hg Hl. unfold invocations in Hg. now rewrite Hg, Hl.
Qed.

End ShoppingRuns.

(* ================================================================== *)
(** * The search agent *)
(* ================================================================== *)

Section SearchRuns.
Context `{Runtime}.
Variable str_title : string -> string.

Lemma search_request_run (input_data : json) (tr : list event) :
  RecipeSearch.request input_data tr =
  match RecipeSearch.build_user_prompt input_data with
  | Raise e => (Raise e, tr)
  | Ok p =>
      match generate (invocations tr) p with
      | Ok text => (Ok (remove_fence (strip text)), tr ++ [Invoke p])
      | Raise e => (Raise e, tr ++ [Invoke p])
      end
  end.
Proof.
  unfold RecipeSearch.request, mbind, lift, invoke, ret.
  destruct (RecipeSearch.build_user_prompt input_data) as [p|e]; [|reflexivity].
  now destruct (generate (invocations tr) p).
Qed.

Lemma search_check_required (o : list (string * json)) :
  RecipeSearch.check_required (JObj o)
  = match first_missing RecipeSearch.required_fields o with
    | Some f => Raise (ValueError ("Missing required field: " ++ f)%string)
    | None => Ok tt
    end.
Proof.
  unfold RecipeSearch.check_required.
  apply (first_absent_raises
           (fun field => ValueError ("Missing required field: " ++ field)%string)).
Qed.

(** X24. When the reply parses to a JSON object with the four required
    fields, the search agent returns it with [generatedFrom] set to
    "web_search" and [searchEnabled] set to true, whatever the reply said
    about these two, and every other field as the reply gave it. *)
Theorem web_recipe_gets_metadata (input_data : json) (tr : list event)
    (p : prompt) (text : string) (o : list (string * json)) :
  RecipeSearch.build_user_prompt input_data = Ok p ->
  generate (invocations tr) p = Ok text ->
  json_loads (remove_fence (strip text)) = Ok (JObj o) ->
  first_missing RecipeSearch.required_fields o = None ->
  exists o',
    fst (RecipeSearch.generate_recipe_from_web str_title input_data tr)
    = Ok (JObj o') /\
    assoc "generatedFrom" o' = Some (JStr "web_search") /\
    assoc "searchEnabled" o' = Some (JBool true) /\
    forall k, k <> "generatedFrom" -> k <> "searchEnabled" ->
      assoc k o' = assoc k o.
Proof.
  intros Hp Hg Hl Hf.
  exists (put "searchEnabled" (JBool true)
            (put "generatedFrom" (JStr "web_search") o)).
  split; [|split; [|split]].
  - unfold RecipeSearch.generate_recipe_from_web. rewrite search_request_run.
    rewrite Hp, Hg. unfold RecipeSearch.digest. rewrite Hl. cbn [bind].
    now rewrite search_check_required, Hf.
  - rewrite assoc_put_other by discriminate. apply assoc_put_same.
  - apply assoc_put_same.
  - intros k H1 H2. now rewrite !assoc_put_other.
Qed.

(** The second [except] clause: one line on the standard error, then the
    fallback recipe. *)
Lemma search_except_other (input_data : json) (response_text : option string)
    (e : exn) (tr : list event) :
  is_JSONDecodeError e = false ->
  RecipeSearch.except_clauses str_title input_data response_text e tr
  = (RecipeSearch.create_fallback_recipe str_title input_data (str_exn e),
     tr ++ [Stderr ("Error generating recipe: " ++ str_exn e)%string]).
Proof.
  intros He. unfold RecipeSearch.except_clauses. now rewrite He.
Qed.

(** A request whose [diet] is absent or a string always gets a fallback
    recipe. *)
Lemma fallback_recipe_returns (input_data : json) (error_msg d : string) :
  py_get input_data "diet" (JStr "any") = Ok (JStr d) ->
  exists r,
    RecipeSearch.create_fallback_recipe str_title input_data error_msg = Ok r /\
    field r "title" = JStr ("Quick " ++ str_title d ++ " Recipe")%string /\
    field r "error" = JStr error_msg /\
    field r "fallbackUsed" = JBool true.
Proof.
  intros Hd. destruct input_data; try discriminate Hd.
  unfold RecipeSearch.create_fallback_recipe. rewrite Hd.
  cbn [bind py_get RecipeSearch.py_title].
  eexists. split; [reflexivity|]. repeat split.
Qed.

(** X25.  Take a request whose [diet] is absent or a string.  When the
    reply parses to a JSON object that misses a required field, the search
    agent does not raise as the plain recipe validator does: after the one
    call of the backend and one line on the standard error it returns the
    fallback recipe, titled after the diet, flagged [fallbackUsed] and with
    the error "Missing required field: <first missing field>". *)
Theorem web_missing_field_falls_back (input_data : json) (tr : list event)
    (p : prompt) (text : string) (o : list (string * json)) (f d : string) :
  RecipeSearch.build_user_prompt input_data = Ok p ->
  py_get input_data "diet" (JStr "any") = Ok (JStr d) ->
  generate (invocations tr) p = Ok text ->
  json_loads (remove_fence (strip text)) = Ok (JObj o) ->
  first_missing RecipeSearch.required_fields o = Some f ->
  exists r,
    RecipeSearch.generate_recipe_from_web str_title input_data tr
    = (Ok r,
       tr ++ [Invoke p;
              Stderr ("Error generating recipe: Missing required field: "
                      ++ f)%string]) /\
    RecipeSearch.create_fallback_recipe str_title input_data
      ("Missing required field: " ++ f)%string = Ok r /\
    field r "title" = JStr ("Quick " ++ str_title d ++ " Recipe")%string /\
    field r "error" = JStr ("Missing required field: " ++ f)%string /\
    field r "fallbackUsed" = JBool true.
Proof.
  intros Hp Hd Hg Hl Hf.
  destruct (fallback_recipe_returns input_data
              ("Missing required field: " ++ f)%string d Hd)
    as [r [Hr [Ht [He Hu]]]].
  exists r. split; [|now repeat split].
  unfold RecipeSearch.generate_recipe_from_web. rewrite search_request_run.
  rewrite Hp, Hg. unfold RecipeSearch.digest. rewrite Hl. cbn [bind].
  rewrite search_check_required, Hf. cbn [bind].
  rewrite search_except_other by reflexivity.
  cbn [str_exn]. rewrite Hr, <- app_assoc. reflexivity.
Qed.

(** X26.  Whenever the fallback recipe is returned, it passes the check
    of the required fields that a found recipe has to pass, its cook time
    and servings are the request's [maxCookMins] and [servings] (30 and 2
    when the request has none), and it carries the error message,
    [foundOnWeb] false and [fallbackUsed] true. *)
Theorem fallback_recipe_is_valid (input_data : json) (error_msg : string)
    (r : json) :
  RecipeSearch.create_fallback_recipe str_title input_data error_msg = Ok r ->
  RecipeSearch.check_required r = Ok tt /\
  py_get input_data "maxCookMins" (JInt 30) = Ok (field r "cookTimeMins") /\
  py_get input_data "servings" (JInt 2) = Ok (field r "servings") /\
  field r "error" = JStr error_msg /\
  field r "foundOnWeb" = JBool false /\
  field r "fallbackUsed" = JBool true.
Proof.
  unfold RecipeSearch.create_fallback_recipe. intros Hr.
  destruct (py_get input_data "diet" (JStr "any")) as [diet|]; [|discriminate].
  cbn [bind] in Hr.
  destruct (py_get input_data "maxCookMins" (JInt 30)) as [mx|]; [|discriminate].
  cbn [bind] in Hr.
  destruct (py_get input_data "servings" (JInt 2)) as [sv|]; [|discriminate].
  cbn [bind] in Hr.
  destruct (RecipeSearch.py_title str_title diet) as [t|]; [|discriminate].
  cbn [bind] in Hr. injection Hr as <-. repeat split.
Qed.

(** X27.  A request whose [diet] is not a string cannot get a fallback
    recipe: [diet.title()] raises inside the [except] clause, so a reply
    that fails parsing or validation makes the search agent raise
    [AttributeError]. *)
Theorem web_fallback_needs_string_diet (kvs : list (string * json))
    (tr : list event) (p : prompt) (text : string) (e : exn) (diet : json) :
  RecipeSearch.build_user_prompt (JObj kvs) = Ok p ->
  generate (invocations tr) p = Ok text ->
  RecipeSearch.digest (remove_fence (strip text)) = Raise e ->
  assoc "diet" kvs = Some diet ->
  (forall s, diet <> JStr s) ->
  fst (RecipeSearch.generate_recipe_from_web str_title (JObj kvs) tr)
  = Raise (AttributeError ("'" ++ type_name diet
                           ++ "' object has no attribute 'title'")%string).
Proof.
  intros Hp Hg Hd Hdiet Hns.
  unfold RecipeSearch.generate_recipe_from_web. rewrite search_request_run.
  rewrite Hp, Hg, Hd.
  assert (Hfb : forall msg,
            RecipeSearch.create_fallback_recipe str_title (JObj kvs) msg
            = Raise (AttributeError ("'" ++ type_name diet
                       ++ "' object has no attribute 'title'")%string)).
  { intros msg. unfold RecipeSearch.create_fallback_recipe.
    cbn [py_get bind]. rewrite Hdiet. cbn [bind].
    destruct diet; try reflexivity. now contradiction (Hns s). }
  unfold RecipeSearch.except_clauses, mbind, emit, lift, ret.
  destruct (is_JSONDecodeError e); cbn [fst]; apply Hfb.
Qed.

End SearchRuns.

(* ================================================================== *)
(** * The entry points *)
(* ================================================================== *)

Section MainRuns.
Context `{Runtime}.
Variable dumps : json -> string.

(** X28.  [balanced_diet_agent.main] ends with status 1, without any
    call of the backend, when the input is blank, is not JSON, or parses to
    a value that does not hold [weeklyPlan]. *)
Theorem diet_main_rejects_early (input_text : string) (tr : list event) :
  strip input_text = "" \/
  (exists e, json_loads input_text = Raise e) \/
  (exists v, json_loads input_text = Ok v /\
             py_contains "weeklyPlan" v <> Ok true) ->
  fst (Cli.diet_main dumps input_text tr) = Cli.Exit 1 /\
  filter is_invoke (snd (Cli.diet_main dumps input_text tr))
  = filter is_invoke tr.
Proof.
  intros Hcase. unfold Cli.diet_main, Cli.diet_unexpected.
  destruct (String.eqb_spec (strip input_text) "") as [Hb|Hb].
  { cbn [fst snd]. rewrite filter_invoke_snoc. simpl.
    now rewrite app_nil_r. }
  destruct Hcase as [Hs|[[e He]|[v [Hv Hc]]]]; [contradiction| |].
  - rewrite He. destruct e; cbn [fst snd]; rewrite filter_invoke_snoc;
      simpl; now rewrite app_nil_r.
  - rewrite Hv. destruct (py_contains "weeklyPlan" v) as [[|]|e'];
      [now contradiction Hc| |];
      cbn [fst snd]; rewrite filter_invoke_snoc; simpl; now rewrite app_nil_r.
Qed.

(** X29.  [waste_reduction_agent.main] ends with status 1 and the message
    that the input must contain [recipes], without any call of the
    backend, when the request has no [recipes] or has an empty one. *)
Theorem waste_main_requires_recipes (input_text : string) (tr : list event)
    (kvs : list (string * json)) :
  strip input_text <> "" ->
  json_loads input_text = Ok (JObj kvs) ->
  assoc "recipes" kvs = None \/
  (exists v, assoc "recipes" kvs = Some v /\ truthy v = false) ->
  Cli.waste_main dumps input_text tr
  = (Cli.Exit 1,
     tr ++ [Stdout (dumps (Cli.waste_error
                             "Input must contain 'recipes' array"))]).
Proof.
  intros Hb Hl Hcase. unfold Cli.waste_main.
  destruct (String.eqb_spec (strip input_text) ""); [contradiction|].
  rewrite Hl. unfold Cli.lacks_recipes. cbn [py_contains py_getitem bind].
  destruct Hcase as [Hn|[v [Hv Ht]]].
  - now rewrite Hn.
  - rewrite Hv. cbn [bind]. now rewrite Ht.
Qed.

(** X30.  For a request that is a dictionary with a non-empty [recipes],
    [waste_reduction_agent.main] returns normally and its last output is
    the result it prints, whatever the backend sends or raises short of a
    [JSONDecodeError] from the call itself: a fallback ends with success
    too. *)
Theorem waste_main_succeeds (input_text : string) (tr : list event)
    (kvs : list (string * json)) (recipes : json) :
  strip input_text <> "" ->
  json_loads input_text = Ok (JObj kvs) ->
  assoc "recipes" kvs = Some recipes ->
  truthy recipes = true ->
  (forall p m, generate (invocations tr) p <> Raise (JSONDecodeError m)) ->
  exists r tr',
    WasteReduction.analyze_waste_reduction (JObj kvs) tr = (Ok r, tr') /\
    Cli.waste_main dumps input_text tr
    = (Cli.Returned, tr' ++ [Stdout (json_dumps r)]).
Proof.
  intros Hb Hl Hr Ht Hgen.
  destruct (waste_returns kvs tr Hgen) as [r Hrun].
  destruct (WasteReduction.analyze_waste_reduction (JObj kvs) tr)
    as [res tr'] eqn:E.
  simpl in Hrun. subst res. exists r, tr'. split; [reflexivity|].
  unfold Cli.waste_main.
  destruct (String.eqb_spec (strip input_text) ""); [contradiction|].
  rewrite Hl. unfold Cli.lacks_recipes. cbn [py_contains py_getitem bind].
  rewrite Hr. cbn [bind]. rewrite Ht. cbn [negb]. now rewrite E.
Qed.

End MainRuns.

(* ================================================================== *)
(** * More concrete runs *)
(* ================================================================== *)

Lemma remove_fence_unwraps_witness :
  blank " " = true /\
  remove_fence (strip (" " ++ fenced "json" (sample_dumps peanut_plan) ++ NL)%string)
  = sample_dumps peanut_plan.
Proof.
  split; [reflexivity|].
  apply (remove_fence_unwraps " " NL "json" (sample_dumps peanut_plan));
    reflexivity.
Defined.

Lemma strip_markdown_unwraps_witness :
  startswith (sample_dumps week_plan) "json" = false /\
  strip_markdown (strip (fenced "json" (sample_dumps week_plan) ++ NL)%string)
  = sample_dumps week_plan.
Proof.
  split; [vm_compute; reflexivity|].
  apply (strip_markdown_unwraps "" NL "json" (sample_dumps week_plan));
    vm_compute; reflexivity.
Defined.

Lemma remove_fence_keeps_unclosed_witness :
  strip (last (split_lines (sample_dumps unfinished_recipe)) "") = "}" /\
  remove_fence (unclosed "json" (sample_dumps unfinished_recipe))
  = sample_dumps unfinished_recipe.
Proof.
  split; [vm_compute; reflexivity|].
  apply (remove_fence_keeps_unclosed "json" (sample_dumps unfinished_recipe)).
  - reflexivity.
  - vm_compute. discriminate.
Defined.

Lemma short_marked_text_witness :
  remove_fence "```{}```" = "" /\
  strip_markdown ("```json" ++ NL ++ "{}")%string
  = ("```json" ++ NL ++ "{}")%string.
Proof.
  split.
  - apply (proj1 (short_marked_text "```{}```" eq_refl)). reflexivity.
  - apply (proj2 (short_marked_text ("```json" ++ NL ++ "{}")%string eq_refl)).
    vm_compute. repeat constructor.
Defined.

Lemma waste_pipeline_returns_witness :
  exists r,
    fst (@WasteReduction.analyze_waste_reduction (says not_json)
           waste_request []) = Ok r.
Proof.
  apply (@waste_pipeline_returns (says not_json)).
  intros p m. simpl. discriminate.
Defined.

Lemma diet_pipeline_returns_witness :
  forallb wf_meal [monday_lunch; tuesday_lunch] = true /\
  exists r,
    fst (@BalancedDiet.analyze_diet_balance
           (fails (RuntimeError "503 Service Unavailable")) diet_request [])
    = Ok r.
Proof.
  split; [reflexivity|].
  apply (@diet_pipeline_returns (fails (RuntimeError "503 Service Unavailable"))
           diet_request [monday_lunch; tuesday_lunch] [last_week]);
    try reflexivity.
  intros p m. simpl. discriminate.
Defined.

Lemma backend_decode_error_escapes_witness :
  fst (@BalancedDiet.analyze_diet_balance
         (fails (JSONDecodeError "Expecting value")) diet_request [])
  = Raise BalancedDiet.unbound_response_text.
Proof.
  apply (proj1 (@backend_decode_error_escapes
                  (fails (JSONDecodeError "Expecting value"))
                  diet_request [] "Expecting value")
           (DietPrompt (sample_dumps diet_request)
              (JFloat 0.25) (JFloat 0.50) (JFloat 0.25) "peanuts" "none")).
  - vm_compute. reflexivity.
  - reflexivity.
Defined.

(** A request whose intolerances hold a number. *)
Lemma bad_profile_skips_backend_witness :
  let request :=
    JObj [("weeklyPlan", JArr [monday_lunch]);
          ("userProfile", JObj [("intolerances", JArr [JInt 1])])] in
  fst (@BalancedDiet.analyze_diet_balance (says not_json) request [])
  = BalancedDiet.create_fallback_response request
      "sequence item 0: expected str instance, int found" /\
  snd (@BalancedDiet.analyze_diet_balance (says not_json) request [])
  = [Stderr "Error in diet balance analysis: sequence item 0: expected str instance, int found"].
Proof.
  intros request.
  destruct (@bad_profile_skips_backend (says not_json) request []
              (TypeError "sequence item 0: expected str instance, int found")
              ltac:(vm_compute; reflexivity)) as [Hres _].
  split; [exact Hres|]. vm_compute. reflexivity.
Defined.

Lemma waste_fallback_keeps_recipes_witness :
  exists r,
    fst (@WasteReduction.analyze_waste_reduction (says not_json)
           waste_request []) = Ok r /\
    field r "optimizedRecipes" = field waste_request "recipes" /\
    field r "shoppingList" = JArr [].
Proof.
  destruct (@waste_fallback_keeps_recipes (says not_json) waste_request []
              (WastePrompt (sample_dumps waste_request) "none" "none")
              not_json
              (JSONDecodeError "Expecting value: line 1 column 1 (char 0)")
              (field waste_request "recipes")
              ltac:(vm_compute; reflexivity) eq_refl
              ltac:(vm_compute; reflexivity) ltac:(vm_compute; reflexivity))
    as [r [Hrun [Hrec [Hshop _]]]].
  exists r. auto.
Defined.

Lemma diet_required_keys_filled_witness :
  exists o',
    fst (@BalancedDiet.analyze_diet_balance (says "{}") diet_request [])
    = Ok (JObj o') /\
    assoc "updatedWeeklyPlan" o' = Some (field diet_request "weeklyPlan") /\
    assoc "replacements" o' = Some (JArr []) /\
    assoc "metrics" o' = Some (JObj []).
Proof.
  apply (@diet_required_keys_filled (says "{}") diet_request []
           (DietPrompt (sample_dumps diet_request)
              (JFloat 0.25) (JFloat 0.50) (JFloat 0.25) "peanuts" "none")
           "{}" [] (field diet_request "weeklyPlan"));
    vm_compute; reflexivity.
Defined.

Lemma waste_required_keys_filled_witness :
  exists o',
    fst (@WasteReduction.analyze_waste_reduction (says "{}") waste_request [])
    = Ok (JObj o') /\
    assoc "optimizedRecipes" o' = Some (JArr []) /\
    assoc "shoppingList" o' = Some (JArr []) /\
    assoc "substitutionSuggestions" o' = Some (JArr []).
Proof.
  apply (@waste_required_keys_filled (says "{}") waste_request []
           (WastePrompt (sample_dumps waste_request) "none" "none") "{}" []);
    vm_compute; reflexivity.
Defined.

Lemma non_object_payload_witness :
  @json_loads (replies "5") (remove_fence (strip "5")) = Ok (JInt 5) /\
  fst (@BalancedDiet.analyze_diet_balance (replies "5") diet_request [])
  = BalancedDiet.create_fallback_response diet_request
      "argument of type 'int' is not iterable".
Proof.
  split; [vm_compute; reflexivity|].
  apply (proj2 (@non_object_payload (replies "5") diet_request []
                  (DietPrompt (sample_dumps diet_request)
                     (JFloat 0.25) (JFloat 0.50) (JFloat 0.25) "peanuts" "none")
                  "5" (JInt 5)
                  ltac:(vm_compute; reflexivity) eq_refl
                  ltac:(vm_compute; reflexivity) eq_refl)).
  reflexivity.
Defined.

Lemma fallback_keeps_plan_witness :
  exists r,
    BalancedDiet.create_fallback_response diet_request "timeout" = Ok r /\
    field r "updatedWeeklyPlan" = JArr [monday_lunch; tuesday_lunch] /\
    field r "error" = JStr "timeout" /\
    field r "fallbackUsed" = JBool true.
Proof.
  eexists.
  destruct (fallback_keeps_plan diet_request "timeout" _ eq_refl)
    as [Hplan [Herr [Hflag _]]].
  split; [reflexivity|]. split; [reflexivity|].
  split; [exact Herr|exact Hflag].
Defined.

Lemma no_history_no_replacements_witness :
  exists r,
    BalancedDiet.create_fallback_response first_week_request "timeout" = Ok r /\
    field r "replacements" = JArr [] /\
    field (field r "metrics") "replacementsCount" = JInt 0.
Proof.
  destruct (no_history_no_replacements
              [("weeklyPlan", JArr [monday_lunch; tuesday_lunch])] "timeout"
              [monday_lunch; tuesday_lunch] eq_refl (or_introl eq_refl) eq_refl)
    as [r [Hrun [Hreps [Hcount _]]]].
  exists r. auto.
Defined.

(** [r_005], planned for tuesday, is in the fifth week back only. *)
Lemma older_history_ignored_witness :
  let recent := [quiet_week; quiet_week; quiet_week; last_week] in
  let plan := JArr [monday_lunch; tuesday_lunch] in
  BalancedDiet.create_fallback_response
    (JObj [("weeklyPlan", plan); ("history", JArr (old_week :: recent))])
    "timeout"
  = BalancedDiet.create_fallback_response
      (JObj [("weeklyPlan", plan); ("history", JArr recent)]) "timeout" /\
  used_recently (old_week :: recent) (JStr "r_005") = false.
Proof.
  intros recent plan. split; [|reflexivity].
  apply (older_history_ignored _ _ "timeout" [old_week] recent);
    reflexivity.
Defined.

Lemma validate_plan_returns_parsed_witness :
  fst (@MealPlanner.validate_plan (says "") fenced_plan pool
         weekday_preferences []) = Ok week_plan /\
  @json_loads (says "") (strip_markdown (strip fenced_plan)) = Ok week_plan.
Proof.
  assert (Hrun : fst (@MealPlanner.validate_plan (says "") fenced_plan pool
                        weekday_preferences []) = Ok week_plan)
    by (vm_compute; reflexivity).
  split; [exact Hrun|].
  apply (proj2 (@validate_plan_returns_parsed (says "") fenced_plan pool
                  weekday_preferences []) week_plan Hrun).
Defined.

Lemma unknown_recipe_id_rejected_witness :
  @MealPlanner.validate_plan (replies "") (sample_dumps stray_plan) pool
    weekday_preferences []
  = (Raise (ValueError "Invalid recipe ID for tuesday: r_404"), []).
Proof.
  apply (@unknown_recipe_id_rejected (replies "") (sample_dumps stray_plan)
           pool weekday_preferences [] stray_plan (JObj stray_days)
           [JStr "r_001"; JStr "r_002"]
           [("monday", JStr "r_002")]
           [("wednesday", JStr "r_001"); ("thursday", JStr "r_002");
            ("friday", JStr "r_002"); ("saturday", JStr "r_002");
            ("sunday", JStr "r_002")]
           "tuesday" (JStr "r_404")).
  - vm_compute. reflexivity.
  - vm_compute. reflexivity.
  - vm_compute. reflexivity.
  - reflexivity.
  - intros item [<-|[]]. vm_compute. reflexivity.
  - vm_compute. reflexivity.
Defined.

Lemma scalar_payload_is_type_error_witness :
  @json_loads (replies "") (strip_markdown (strip "5")) = Ok (JInt 5) /\
  @RecipeGenerator.validate_and_parse_recipe (replies "") "5"
  = Raise (TypeError "argument of type 'int' is not iterable").
Proof.
  split; [vm_compute; reflexivity|].
  apply (proj1 (@scalar_payload_is_type_error (replies "") "5" (JInt 5)
                  ltac:(vm_compute; reflexivity) eq_refl)).
Defined.

Lemma within_limits_prints_nothing_witness :
  @MealPlanner.max_cook_mins_of weekday_preferences "monday" = Ok (JInt 15) /\
  MealPlanner.cook_time_of stir_fry = Ok (JInt 15) /\
  @MealPlanner.validate_plan (replies "") (sample_dumps easy_plan) pool
    weekday_preferences []
  = (Ok easy_plan, []).
Proof.
  split; [reflexivity|]. split; [reflexivity|].
  apply (@within_limits_prints_nothing (replies "") (sample_dumps easy_plan)
           pool weekday_preferences [] easy_plan easy_days
           [(JStr "r_001", stir_fry); (JStr "r_002", pasta)]).
  - vm_compute. reflexivity.
  - exists (JObj easy_days), [JStr "r_001"; JStr "r_002"].
    repeat split; vm_compute; reflexivity.
  - intros item Hin. simpl in Hin.
    repeat (destruct Hin as [<-|Hin];
            [do 5 eexists;
             repeat (split; [vm_compute; reflexivity|]);
             vm_compute; discriminate|]).
    contradiction.
Defined.

(** A second recipe under the id of the stir-fry. *)
Lemma last_recipe_wins_witness :
  let slow := JObj [("id", JStr "r_001"); ("cookTimeMins", JInt 45)] in
  MealPlanner.build_recipe_map (JArr [stir_fry; pasta; slow])
  = Ok [(JStr "r_001", slow); (JStr "r_002", pasta)] /\
  @MealPlanner.map_get (says "")
    [(JStr "r_001", slow); (JStr "r_002", pasta)] (JStr "r_001")
  = Ok slow.
Proof.
  intros slow.
  apply (@last_recipe_wins (says "") [stir_fry; pasta]
           [(JStr "r_001", stir_fry); (JStr "r_002", pasta)] slow
           (JStr "r_001"));
    reflexivity.
Defined.

Lemma recipe_accepted_on_presence_witness :
  field loose_recipe "cookTimeMins" = JStr "five" /\
  @RecipeGenerator.validate_and_parse_recipe (replies "")
    (sample_dumps loose_recipe)
  = Ok loose_recipe.
Proof.
  split; [reflexivity|].
  apply (@recipe_accepted_on_presence (replies "") (sample_dumps loose_recipe));
    vm_compute; reflexivity.
Defined.

Lemma feedback_accepted_witness :
  @FeedbackCompactor.validate_and_parse_feedback (replies "")
    (sample_dumps feedback) = Ok feedback /\
  @FeedbackCompactor.validate_and_parse_feedback (replies "") "{}"
  = Ok (JObj []).
Proof.
  split.
  - apply (@feedback_accepted (replies "") (sample_dumps feedback));
      vm_compute; reflexivity.
  - apply (@feedback_accepted (replies "") "{}"); vm_compute; reflexivity.
Defined.

Lemma shopping_run_witness :
  fst (@ShoppingNormalizer.normalize_shopping_list
         (fails (RuntimeError "503 Service Unavailable"))
         (JArr [two_cans; one_can]) [])
  = Raise (RuntimeError "503 Service Unavailable") /\
  fst (@ShoppingNormalizer.normalize_shopping_list (says not_json)
         (JArr [two_cans; one_can]) [])
  = Ok (JArr []).
Proof.
  split.
  - apply (proj1 (proj2 (@shopping_run
                           (fails (RuntimeError "503 Service Unavailable"))
                           (JArr [two_cans; one_can]) []))).
    reflexivity.
  - apply (proj2 (proj2 (@shopping_run (says not_json)
                           (JArr [two_cans; one_can]) []))
             not_json "Expecting value: line 1 column 1 (char 0)").
    + reflexivity.
    + vm_compute. reflexivity.
Defined.

Lemma web_recipe_gets_metadata_witness :
  exists o',
    fst (@RecipeSearch.generate_recipe_from_web
           (replies (sample_dumps found_recipe)) ascii_title search_request [])
    = Ok (JObj o') /\
    assoc "generatedFrom" o' = Some (JStr "web_search") /\
    assoc "searchEnabled" o' = Some (JBool true) /\
    assoc "title" o' = Some (JStr "Chickpea Curry").
Proof.
  destruct (@web_recipe_gets_metadata (replies (sample_dumps found_recipe))
              ascii_title search_request []
              (TextPrompt (String.concat NL ["vegan"; "none"; "25"; "2";
                                             "any cuisine"]))
              (sample_dumps found_recipe)
              [("title", JStr "Chickpea Curry");
               ("ingredients", JArr [JObj [("name", JStr "chickpeas");
                                           ("qty", JStr "1 can")]]);
               ("steps", JArr [JStr "Simmer"]);
               ("cookTimeMins", JInt 25)]
              ltac:(vm_compute; reflexivity) eq_refl
              ltac:(vm_compute; reflexivity) eq_refl)
    as [o' [Hrun [Hfrom [Hsearch Hkeep]]]].
  exists o'. repeat split; auto.
  rewrite Hkeep by discriminate. reflexivity.
Defined.

(** A vegan request and a reply with a title and no ingredients. *)
Lemma web_missing_field_falls_back_witness :
  py_get search_request "diet" (JStr "any") = Ok (JStr "vegan") /\
  exists r,
    @RecipeSearch.generate_recipe_from_web
      (replies (sample_dumps unfinished_recipe)) ascii_title
      search_request []
    = (Ok r,
       [] ++ [Invoke (TextPrompt (String.concat NL ["vegan"; "none"; "25";
                                                    "2"; "any cuisine"]));
              Stderr "Error generating recipe: Missing required field: ingredients"]) /\
    @RecipeSearch.create_fallback_recipe
      (replies (sample_dumps unfinished_recipe)) ascii_title search_request
      "Missing required field: ingredients" = Ok r /\
    field r "title" = JStr "Quick Vegan Recipe" /\
    field r "error" = JStr "Missing required field: ingredients" /\
    field r "fallbackUsed" = JBool true.
Proof.
  split; [reflexivity|].
  apply (@web_missing_field_falls_back
           (replies (sample_dumps unfinished_recipe)) ascii_title
           search_request []
           (TextPrompt (String.concat NL ["vegan"; "none"; "25"; "2";
                                          "any cuisine"]))
           (sample_dumps unfinished_recipe)
           [("id", JStr "r_1"); ("title", JStr "Soup")] "ingredients"
           "vegan");
    vm_compute; reflexivity.
Defined.

Lemma fallback_recipe_is_valid_witness :
  exists r,
    @RecipeSearch.create_fallback_recipe (replies "") ascii_title
      search_request "timeout" = Ok r /\
    field r "title" = JStr "Quick Vegan Recipe" /\
    field r "cookTimeMins" = JInt 25 /\
    field r "servings" = JInt 2 /\
    @RecipeSearch.check_required r = Ok tt.
Proof.
  eexists.
  destruct (@fallback_recipe_is_valid (replies "") ascii_title search_request
              "timeout" _ eq_refl) as [Hcheck _].
  do 4 (split; [reflexivity|]). exact Hcheck.
Defined.

Lemma web_fallback_needs_string_diet_witness :
  fst (@RecipeSearch.generate_recipe_from_web (replies not_json) ascii_title
         (JObj [("diet", JNull)]) [])
  = Raise (AttributeError "'NoneType' object has no attribute 'title'").
Proof.
  apply (@web_fallback_needs_string_diet (replies not_json) ascii_title
           [("diet", JNull)] []
           (TextPrompt (String.concat NL ["None"; "none"; "30"; "2";
                                          "any cuisine"]))
           not_json
           (JSONDecodeError "Expecting value: line 1 column 1 (char 0)")
           JNull).
  - vm_compute. reflexivity.
  - reflexivity.
  - vm_compute. reflexivity.
  - reflexivity.
  - discriminate.
Defined.

Lemma diet_main_rejects_early_witness :
  fst (@Cli.diet_main (replies not_json) dumps_flat "{}" []) = Cli.Exit 1 /\
  filter is_invoke (snd (@Cli.diet_main (replies not_json) dumps_flat "{}" []))
  = [].
Proof.
  apply (@diet_main_rejects_early (replies not_json) dumps_flat "{}" []).
  right. right. exists (JObj []). split; [reflexivity|]. discriminate.
Defined.

Lemma waste_main_requires_recipes_witness :
  exists line,
    @Cli.waste_main (replies not_json) dumps_flat
      (sample_dumps (JObj [("recipes", JArr [])])) []
    = (Cli.Exit 1, [Stdout line]) /\
    is_substring "Input must contain 'recipes' array" line = true.
Proof.
  eexists. split.
  - apply (@waste_main_requires_recipes (replies not_json) dumps_flat
             (sample_dumps (JObj [("recipes", JArr [])])) []
             [("recipes", JArr [])]).
    + vm_compute. discriminate.
    + vm_compute. reflexivity.
    + right. exists (JArr []). split; reflexivity.
  - vm_compute. reflexivity.
Defined.

Lemma waste_main_succeeds_witness :
  exists r tr',
    @WasteReduction.analyze_waste_reduction (replies not_json)
      (JObj [("recipes", field waste_request "recipes")]) [] = (Ok r, tr') /\
    @Cli.waste_main (replies not_json) dumps_flat
      (sample_dumps waste_request) []
    = (Cli.Returned, tr' ++ [Stdout (sample_dumps r)]).
Proof.
  apply (@waste_main_succeeds (replies not_json) dumps_flat
           (sample_dumps waste_request) []
           [("recipes", field waste_request "recipes")]
           (field waste_request "recipes")).
  - vm_compute. discriminate.
  - vm_compute. reflexivity.
  - reflexivity.
  - reflexivity.
  - intros p m. simpl. discriminate.
Defined.
